(** * Soft-skills assessment pipeline: question generation and answer grading

    A shallow embedding of [models/evaluator.py], [models/question_generator.py],
    [models/transcription.py], [models/media_processor.py], the session
    scoring of [app.py] and the statements of [database/db_connector.py],
    with the properties of the written specification stated and settled
    against it.

    Conventions of the embedding.
    - A Python [str] is a [string] holding the bytes of its UTF-8 form, a
      lone surrogate being written with the three bytes the same scheme
      gives it. Searching, cutting and joining work on the bytes;
      [len], [lower], [split] and [strip] work on the characters, with the
      character classes and the case mapping of Unicode 14.0 as CPython 3.11
      has them (tables below), the two-character lower case of U+0130 and
      the final sigma included.
    - A Python [float] that the program computes is a non-negative binary64
      value, kept as an exact dyadic number (module [B64]); every operation
      rounds to nearest, ties to even, as IEEE 754 prescribes. A [float]
      that comes out of JSON (module [PyFloat]) may also be negative,
      infinite or not a number, and prints as [repr] prints it: the
      shortest digits that read back as the same value.
    - The limits of the interpreter that the program can meet are
      parameters (module [Sys]): the longest integer it converts to or from
      text, and how deep the JSON decoder and [repr] may nest.
    - A Python [set] is a [gset]; a [dict] used as a map is a [gmap]; a JSON
      object keeps its members in order.
    - A call that may raise returns a [result]; the completion endpoint is
      an oracle threaded through a log of the completion requests issued so
      far, and what [response.json()] gives is part of its answer. *)

From Stdlib Require Import ZArith QArith String Ascii List Bool Lia.
From Stdlib Require Import Floats.SpecFloat.
From stdpp Require Import gmap strings list pretty.

Local Open Scope string_scope.

(** ** Python's built-in string operations *)

Module Py.

(** The double quote character, and a string wrapped in double quotes. *)
Definition dq : string := String "034"%char "".

Definition quoted (s : string) : string := dq ++ s ++ dq.

(** *** Characters *)

(** A byte of the UTF-8 form that continues a character. *)
Definition is_continuation (c : ascii) : bool :=
  let n := N_of_ascii c in ((128 <=? n) && (n <? 192))%N.

(** A run of continuation bytes still waiting for its first byte. *)
Definition headless (k : string) : bool :=
  match k with
  | String c _ => is_continuation c
  | "" => false
  end.

(** The characters of a [str], each as its own bytes: a byte that is not a
    continuation byte, with the continuation bytes that follow it. *)
Fixpoint chars (s : string) : list string :=
  match s with
  | "" => []
  | String c r =>
      match chars r with
      | k :: ks =>
          if (128 <=? N_of_ascii c)%N && headless k
          then String c k :: ks else String c "" :: k :: ks
      | [] => [String c ""]
      end
  end.

Fixpoint concat (l : list string) : string :=
  match l with
  | [] => ""
  | k :: ks => k ++ concat ks
  end.

(** [len(s)]: the number of characters, one for each byte that is not a
    continuation byte. *)
Fixpoint len (s : string) : nat :=
  match s with
  | "" => 0
  | String c r => (if is_continuation c then 0 else 1) + len r
  end.

(** [ord] of one character, [None] for bytes that are no character. *)
Definition code (k : string) : option N :=
  match k with
  | String a "" =>
      let a := N_of_ascii a in if (a <? 128)%N then Some a else None
  | String a (String b "") =>
      let a := N_of_ascii a in
      let b := N_of_ascii b in
      if ((192 <=? a) && (a <? 224))%N then Some ((a - 192) * 64 + (b - 128))%N else None
  | String a (String b (String c "")) =>
      let a := N_of_ascii a in
      let b := N_of_ascii b in
      let c := N_of_ascii c in
      if ((224 <=? a) && (a <? 240))%N
      then Some (((a - 224) * 64 + (b - 128)) * 64 + (c - 128))%N else None
  | String a (String b (String c (String d ""))) =>
      let a := N_of_ascii a in
      let b := N_of_ascii b in
      let c := N_of_ascii c in
      let d := N_of_ascii d in
      if ((240 <=? a) && (a <? 248))%N
      then Some ((((a - 240) * 64 + (b - 128)) * 64 + (c - 128)) * 64 + (d - 128))%N
      else None
  | _ => None
  end.

(** [chr(n)]: the bytes of the character with code point [n]; a surrogate
    gets the three bytes the same scheme gives it. *)
Definition chr (n : N) : string :=
  if (n <? 128)%N then String (ascii_of_N n) ""
  else if (n <? 2048)%N
  then String (ascii_of_N (192 + n / 64)) (String (ascii_of_N (128 + n mod 64)) "")
  else if (n <? 65536)%N
  then String (ascii_of_N (224 + n / 4096))
         (String (ascii_of_N (128 + (n / 64) mod 64))
            (String (ascii_of_N (128 + n mod 64)) ""))
  else String (ascii_of_N (240 + n / 262144))
         (String (ascii_of_N (128 + (n / 4096) mod 64))
            (String (ascii_of_N (128 + (n / 64) mod 64))
               (String (ascii_of_N (128 + n mod 64)) ""))).

(** The text with the given code points. *)
Definition of_codes (codes : list N) : string := concat (map chr codes).

Definition in_ranges (n : N) (ranges : list (N * N)) : bool :=
  existsb (fun r => ((fst r <=? n) && (n <=? snd r))%N) ranges.

(** *** The character classes of Unicode 14.0, the tables of CPython 3.11 *)

(** [str.isspace] on one code point. *)
Definition isspace (n : N) : bool :=
  in_ranges n
    [(9, 13); (28, 32); (133, 133); (160, 160); (5760, 5760); (8192, 8202); (8232, 8233);
     (8239, 8239); (8287, 8287); (12288, 12288)]%N.

(** The simple lower-case mapping: each entry [(first, last, step, image)] sends the
    code points [first], [first + step], ... up to [last] to [image], [image + step],
    ... in the same order. *)
Definition lower_runs : list (N * N * N * N) :=
  [(65, 90, 1, 97); (192, 214, 1, 224); (216, 222, 1, 248); (256, 302, 2, 257);
   (306, 310, 2, 307); (313, 327, 2, 314); (330, 374, 2, 331); (376, 376, 1, 255);
   (377, 381, 2, 378); (385, 385, 1, 595); (386, 388, 2, 387); (390, 390, 1, 596);
   (391, 391, 1, 392); (393, 394, 1, 598); (395, 395, 1, 396); (398, 398, 1, 477);
   (399, 399, 1, 601); (400, 400, 1, 603); (401, 401, 1, 402); (403, 403, 1, 608);
   (404, 404, 1, 611); (406, 406, 1, 617); (407, 407, 1, 616); (408, 408, 1, 409);
   (412, 412, 1, 623); (413, 413, 1, 626); (415, 415, 1, 629); (416, 420, 2, 417);
   (422, 422, 1, 640); (423, 423, 1, 424); (425, 425, 1, 643); (428, 428, 1, 429);
   (430, 430, 1, 648); (431, 431, 1, 432); (433, 434, 1, 650); (435, 437, 2, 436);
   (439, 439, 1, 658); (440, 440, 1, 441); (444, 444, 1, 445); (452, 452, 1, 454);
   (453, 453, 1, 454); (455, 455, 1, 457); (456, 456, 1, 457); (458, 458, 1, 460);
   (459, 475, 2, 460); (478, 494, 2, 479); (497, 497, 1, 499); (498, 500, 2, 499);
   (502, 502, 1, 405); (503, 503, 1, 447); (504, 542, 2, 505); (544, 544, 1, 414);
   (546, 562, 2, 547); (570, 570, 1, 11365); (571, 571, 1, 572); (573, 573, 1, 410);
   (574, 574, 1, 11366); (577, 577, 1, 578); (579, 579, 1, 384); (580, 580, 1, 649);
   (581, 581, 1, 652); (582, 590, 2, 583); (880, 882, 2, 881); (886, 886, 1, 887);
   (895, 895, 1, 1011); (902, 902, 1, 940); (904, 906, 1, 941); (908, 908, 1, 972);
   (910, 911, 1, 973); (913, 929, 1, 945); (931, 939, 1, 963); (975, 975, 1, 983);
   (984, 1006, 2, 985); (1012, 1012, 1, 952); (1015, 1015, 1, 1016); (1017, 1017, 1, 1010);
   (1018, 1018, 1, 1019); (1021, 1023, 1, 891); (1024, 1039, 1, 1104); (1040, 1071, 1, 1072);
   (1120, 1152, 2, 1121); (1162, 1214, 2, 1163); (1216, 1216, 1, 1231); (1217, 1229, 2, 1218);
   (1232, 1326, 2, 1233); (1329, 1366, 1, 1377); (4256, 4293, 1, 11520);
   (4295, 4295, 1, 11559); (4301, 4301, 1, 11565); (5024, 5103, 1, 43888);
   (5104, 5109, 1, 5112); (7312, 7354, 1, 4304); (7357, 7359, 1, 4349); (7680, 7828, 2, 7681);
   (7838, 7838, 1, 223); (7840, 7934, 2, 7841); (7944, 7951, 1, 7936); (7960, 7965, 1, 7952);
   (7976, 7983, 1, 7968); (7992, 7999, 1, 7984); (8008, 8013, 1, 8000); (8025, 8031, 2, 8017);
   (8040, 8047, 1, 8032); (8072, 8079, 1, 8064); (8088, 8095, 1, 8080); (8104, 8111, 1, 8096);
   (8120, 8121, 1, 8112); (8122, 8123, 1, 8048); (8124, 8124, 1, 8115); (8136, 8139, 1, 8050);
   (8140, 8140, 1, 8131); (8152, 8153, 1, 8144); (8154, 8155, 1, 8054); (8168, 8169, 1, 8160);
   (8170, 8171, 1, 8058); (8172, 8172, 1, 8165); (8184, 8185, 1, 8056); (8186, 8187, 1, 8060);
   (8188, 8188, 1, 8179); (8486, 8486, 1, 969); (8490, 8490, 1, 107); (8491, 8491, 1, 229);
   (8498, 8498, 1, 8526); (8544, 8559, 1, 8560); (8579, 8579, 1, 8580); (9398, 9423, 1, 9424);
   (11264, 11311, 1, 11312); (11360, 11360, 1, 11361); (11362, 11362, 1, 619);
   (11363, 11363, 1, 7549); (11364, 11364, 1, 637); (11367, 11371, 2, 11368);
   (11373, 11373, 1, 593); (11374, 11374, 1, 625); (11375, 11375, 1, 592);
   (11376, 11376, 1, 594); (11378, 11378, 1, 11379); (11381, 11381, 1, 11382);
   (11390, 11391, 1, 575); (11392, 11490, 2, 11393); (11499, 11501, 2, 11500);
   (11506, 11506, 1, 11507); (42560, 42604, 2, 42561); (42624, 42650, 2, 42625);
   (42786, 42798, 2, 42787); (42802, 42862, 2, 42803); (42873, 42875, 2, 42874);
   (42877, 42877, 1, 7545); (42878, 42886, 2, 42879); (42891, 42891, 1, 42892);
   (42893, 42893, 1, 613); (42896, 42898, 2, 42897); (42902, 42920, 2, 42903);
   (42922, 42922, 1, 614); (42923, 42923, 1, 604); (42924, 42924, 1, 609);
   (42925, 42925, 1, 620); (42926, 42926, 1, 618); (42928, 42928, 1, 670);
   (42929, 42929, 1, 647); (42930, 42930, 1, 669); (42931, 42931, 1, 43859);
   (42932, 42946, 2, 42933); (42948, 42948, 1, 42900); (42949, 42949, 1, 642);
   (42950, 42950, 1, 7566); (42951, 42953, 2, 42952); (42960, 42960, 1, 42961);
   (42966, 42968, 2, 42967); (42997, 42997, 1, 42998); (65313, 65338, 1, 65345);
   (66560, 66599, 1, 66600); (66736, 66771, 1, 66776); (66928, 66938, 1, 66967);
   (66940, 66954, 1, 66979); (66956, 66962, 1, 66995); (66964, 66965, 1, 67003);
   (68736, 68786, 1, 68800); (71840, 71871, 1, 71872); (93760, 93791, 1, 93792);
   (125184, 125217, 1, 125218)]%N.

(** The cased code points that are not case-ignorable, as inclusive ranges. *)
Definition cased_ranges : list (N * N) :=
  [(65, 90); (97, 122); (170, 170); (181, 181); (186, 186); (192, 214); (216, 246); (248, 442);
   (444, 447); (452, 659); (661, 687); (880, 883); (886, 887); (891, 893); (895, 895);
   (902, 902); (904, 906); (908, 908); (910, 929); (931, 1013); (1015, 1153); (1162, 1327);
   (1329, 1366); (1376, 1416); (4256, 4293); (4295, 4295); (4301, 4301); (4304, 4346);
   (4349, 4351); (5024, 5109); (5112, 5117); (7296, 7304); (7312, 7354); (7357, 7359);
   (7424, 7467); (7531, 7543); (7545, 7578); (7680, 7957); (7960, 7965); (7968, 8005);
   (8008, 8013); (8016, 8023); (8025, 8025); (8027, 8027); (8029, 8029); (8031, 8061);
   (8064, 8116); (8118, 8124); (8126, 8126); (8130, 8132); (8134, 8140); (8144, 8147);
   (8150, 8155); (8160, 8172); (8178, 8180); (8182, 8188); (8450, 8450); (8455, 8455);
   (8458, 8467); (8469, 8469); (8473, 8477); (8484, 8484); (8486, 8486); (8488, 8488);
   (8490, 8493); (8495, 8500); (8505, 8505); (8508, 8511); (8517, 8521); (8526, 8526);
   (8544, 8575); (8579, 8580); (9398, 9449); (11264, 11387); (11390, 11492); (11499, 11502);
   (11506, 11507); (11520, 11557); (11559, 11559); (11565, 11565); (42560, 42605);
   (42624, 42651); (42786, 42863); (42865, 42887); (42891, 42894); (42896, 42954);
   (42960, 42961); (42963, 42963); (42965, 42969); (42997, 42998); (43002, 43002);
   (43824, 43866); (43872, 43880); (43888, 43967); (64256, 64262); (64275, 64279);
   (65313, 65338); (65345, 65370); (66560, 66639); (66736, 66771); (66776, 66811);
   (66928, 66938); (66940, 66954); (66956, 66962); (66964, 66965); (66967, 66977);
   (66979, 66993); (66995, 67001); (67003, 67004); (68736, 68786); (68800, 68850);
   (71840, 71903); (93760, 93823); (119808, 119892); (119894, 119964); (119966, 119967);
   (119970, 119970); (119973, 119974); (119977, 119980); (119982, 119993); (119995, 119995);
   (119997, 120003); (120005, 120069); (120071, 120074); (120077, 120084); (120086, 120092);
   (120094, 120121); (120123, 120126); (120128, 120132); (120134, 120134); (120138, 120144);
   (120146, 120485); (120488, 120512); (120514, 120538); (120540, 120570); (120572, 120596);
   (120598, 120628); (120630, 120654); (120656, 120686); (120688, 120712); (120714, 120744);
   (120746, 120770); (120772, 120779); (122624, 122633); (122635, 122654); (125184, 125251);
   (127280, 127305); (127312, 127337); (127344, 127369)]%N.

(** The case-ignorable code points, as inclusive ranges. *)
Definition ignorable_ranges : list (N * N) :=
  [(39, 39); (46, 46); (58, 58); (94, 94); (96, 96); (168, 168); (173, 173); (175, 175);
   (180, 180); (183, 184); (688, 879); (884, 885); (890, 890); (900, 901); (903, 903);
   (1155, 1161); (1369, 1369); (1375, 1375); (1425, 1469); (1471, 1471); (1473, 1474);
   (1476, 1477); (1479, 1479); (1524, 1524); (1536, 1541); (1552, 1562); (1564, 1564);
   (1600, 1600); (1611, 1631); (1648, 1648); (1750, 1757); (1759, 1768); (1770, 1773);
   (1807, 1807); (1809, 1809); (1840, 1866); (1958, 1968); (2027, 2037); (2042, 2042);
   (2045, 2045); (2070, 2093); (2137, 2139); (2184, 2184); (2192, 2193); (2200, 2207);
   (2249, 2306); (2362, 2362); (2364, 2364); (2369, 2376); (2381, 2381); (2385, 2391);
   (2402, 2403); (2417, 2417); (2433, 2433); (2492, 2492); (2497, 2500); (2509, 2509);
   (2530, 2531); (2558, 2558); (2561, 2562); (2620, 2620); (2625, 2626); (2631, 2632);
   (2635, 2637); (2641, 2641); (2672, 2673); (2677, 2677); (2689, 2690); (2748, 2748);
   (2753, 2757); (2759, 2760); (2765, 2765); (2786, 2787); (2810, 2815); (2817, 2817);
   (2876, 2876); (2879, 2879); (2881, 2884); (2893, 2893); (2901, 2902); (2914, 2915);
   (2946, 2946); (3008, 3008); (3021, 3021); (3072, 3072); (3076, 3076); (3132, 3132);
   (3134, 3136); (3142, 3144); (3146, 3149); (3157, 3158); (3170, 3171); (3201, 3201);
   (3260, 3260); (3263, 3263); (3270, 3270); (3276, 3277); (3298, 3299); (3328, 3329);
   (3387, 3388); (3393, 3396); (3405, 3405); (3426, 3427); (3457, 3457); (3530, 3530);
   (3538, 3540); (3542, 3542); (3633, 3633); (3636, 3642); (3654, 3662); (3761, 3761);
   (3764, 3772); (3782, 3782); (3784, 3789); (3864, 3865); (3893, 3893); (3895, 3895);
   (3897, 3897); (3953, 3966); (3968, 3972); (3974, 3975); (3981, 3991); (3993, 4028);
   (4038, 4038); (4141, 4144); (4146, 4151); (4153, 4154); (4157, 4158); (4184, 4185);
   (4190, 4192); (4209, 4212); (4226, 4226); (4229, 4230); (4237, 4237); (4253, 4253);
   (4348, 4348); (4957, 4959); (5906, 5908); (5938, 5939); (5970, 5971); (6002, 6003);
   (6068, 6069); (6071, 6077); (6086, 6086); (6089, 6099); (6103, 6103); (6109, 6109);
   (6155, 6159); (6211, 6211); (6277, 6278); (6313, 6313); (6432, 6434); (6439, 6440);
   (6450, 6450); (6457, 6459); (6679, 6680); (6683, 6683); (6742, 6742); (6744, 6750);
   (6752, 6752); (6754, 6754); (6757, 6764); (6771, 6780); (6783, 6783); (6823, 6823);
   (6832, 6862); (6912, 6915); (6964, 6964); (6966, 6970); (6972, 6972); (6978, 6978);
   (7019, 7027); (7040, 7041); (7074, 7077); (7080, 7081); (7083, 7085); (7142, 7142);
   (7144, 7145); (7149, 7149); (7151, 7153); (7212, 7219); (7222, 7223); (7288, 7293);
   (7376, 7378); (7380, 7392); (7394, 7400); (7405, 7405); (7412, 7412); (7416, 7417);
   (7468, 7530); (7544, 7544); (7579, 7679); (8125, 8125); (8127, 8129); (8141, 8143);
   (8157, 8159); (8173, 8175); (8189, 8190); (8203, 8207); (8216, 8217); (8228, 8228);
   (8231, 8231); (8234, 8238); (8288, 8292); (8294, 8303); (8305, 8305); (8319, 8319);
   (8336, 8348); (8400, 8432); (11388, 11389); (11503, 11505); (11631, 11631); (11647, 11647);
   (11744, 11775); (11823, 11823); (12293, 12293); (12330, 12333); (12337, 12341);
   (12347, 12347); (12441, 12446); (12540, 12542); (40981, 40981); (42232, 42237);
   (42508, 42508); (42607, 42610); (42612, 42621); (42623, 42623); (42652, 42655);
   (42736, 42737); (42752, 42785); (42864, 42864); (42888, 42890); (42994, 42996);
   (43000, 43001); (43010, 43010); (43014, 43014); (43019, 43019); (43045, 43046);
   (43052, 43052); (43204, 43205); (43232, 43249); (43263, 43263); (43302, 43309);
   (43335, 43345); (43392, 43394); (43443, 43443); (43446, 43449); (43452, 43453);
   (43471, 43471); (43493, 43494); (43561, 43566); (43569, 43570); (43573, 43574);
   (43587, 43587); (43596, 43596); (43632, 43632); (43644, 43644); (43696, 43696);
   (43698, 43700); (43703, 43704); (43710, 43711); (43713, 43713); (43741, 43741);
   (43756, 43757); (43763, 43764); (43766, 43766); (43867, 43871); (43881, 43883);
   (44005, 44005); (44008, 44008); (44013, 44013); (64286, 64286); (64434, 64450);
   (65024, 65039); (65043, 65043); (65056, 65071); (65106, 65106); (65109, 65109);
   (65279, 65279); (65287, 65287); (65294, 65294); (65306, 65306); (65342, 65342);
   (65344, 65344); (65392, 65392); (65438, 65439); (65507, 65507); (65529, 65531);
   (66045, 66045); (66272, 66272); (66422, 66426); (67456, 67461); (67463, 67504);
   (67506, 67514); (68097, 68099); (68101, 68102); (68108, 68111); (68152, 68154);
   (68159, 68159); (68325, 68326); (68900, 68903); (69291, 69292); (69446, 69456);
   (69506, 69509); (69633, 69633); (69688, 69702); (69744, 69744); (69747, 69748);
   (69759, 69761); (69811, 69814); (69817, 69818); (69821, 69821); (69826, 69826);
   (69837, 69837); (69888, 69890); (69927, 69931); (69933, 69940); (70003, 70003);
   (70016, 70017); (70070, 70078); (70089, 70092); (70095, 70095); (70191, 70193);
   (70196, 70196); (70198, 70199); (70206, 70206); (70367, 70367); (70371, 70378);
   (70400, 70401); (70459, 70460); (70464, 70464); (70502, 70508); (70512, 70516);
   (70712, 70719); (70722, 70724); (70726, 70726); (70750, 70750); (70835, 70840);
   (70842, 70842); (70847, 70848); (70850, 70851); (71090, 71093); (71100, 71101);
   (71103, 71104); (71132, 71133); (71219, 71226); (71229, 71229); (71231, 71232);
   (71339, 71339); (71341, 71341); (71344, 71349); (71351, 71351); (71453, 71455);
   (71458, 71461); (71463, 71467); (71727, 71735); (71737, 71738); (71995, 71996);
   (71998, 71998); (72003, 72003); (72148, 72151); (72154, 72155); (72160, 72160);
   (72193, 72202); (72243, 72248); (72251, 72254); (72263, 72263); (72273, 72278);
   (72281, 72283); (72330, 72342); (72344, 72345); (72752, 72758); (72760, 72765);
   (72767, 72767); (72850, 72871); (72874, 72880); (72882, 72883); (72885, 72886);
   (73009, 73014); (73018, 73018); (73020, 73021); (73023, 73029); (73031, 73031);
   (73104, 73105); (73109, 73109); (73111, 73111); (73459, 73460); (78896, 78904);
   (92912, 92916); (92976, 92982); (92992, 92995); (94031, 94031); (94095, 94111);
   (94176, 94177); (94179, 94180); (110576, 110579); (110581, 110587); (110589, 110590);
   (113821, 113822); (113824, 113827); (118528, 118573); (118576, 118598); (119143, 119145);
   (119155, 119170); (119173, 119179); (119210, 119213); (119362, 119364); (121344, 121398);
   (121403, 121452); (121461, 121461); (121476, 121476); (121499, 121503); (121505, 121519);
   (122880, 122886); (122888, 122904); (122907, 122913); (122915, 122916); (122918, 122922);
   (123184, 123197); (123566, 123566); (123628, 123631); (125136, 125142); (125252, 125259);
   (127995, 127999); (917505, 917505); (917536, 917631); (917760, 917999)]%N.

(** How a character counts in the search around a capital sigma. *)
Inductive casing : Type := Cased | Ignorable | Uncased.

Definition casing_of (n : N) : casing :=
  if in_ranges n ignorable_ranges then Ignorable
  else if in_ranges n cased_ranges then Cased
  else Uncased.

Definition casing_of_char (k : string) : casing :=
  match code k with
  | Some n => casing_of n
  | None => Uncased
  end.

(** The lower case of one code point out of context: U+0130 becomes two
    code points, every other one at most changes. *)
Fixpoint lower_in (runs : list (N * N * N * N)) (n : N) : N :=
  match runs with
  | [] => n
  | (first, last, step, image) :: rest =>
      if ((first <=? n) && (n <=? last) && ((n - first) mod step =? 0))%N
      then (image + (n - first))%N
      else lower_in rest n
  end.

Definition lower_code (n : N) : list N :=
  if (n =? 304)%N then [105; 775]%N else [lower_in lower_runs n].

(** Whether the first character that is not case-ignorable is cased. *)
Fixpoint cased_follows (l : list string) : bool :=
  match l with
  | [] => false
  | k :: rest =>
      match casing_of_char k with
      | Ignorable => cased_follows rest
      | Cased => true
      | Uncased => false
      end
  end.

(** [str.lower] over the characters. [after_cased] tells whether, going
    back over case-ignorable characters, a cased one comes first. A capital
    sigma (U+03A3) becomes the final sigma (U+03C2) when it follows a cased
    character and no cased character follows it, and the small sigma
    (U+03C3) otherwise. *)
Fixpoint lower_chars (after_cased : bool) (l : list string) : list string :=
  match l with
  | [] => []
  | k :: rest =>
      (match code k with
       | Some n =>
           if (n =? 931)%N
           then (if after_cased && negb (cased_follows rest) then chr 962 else chr 963)
           else of_codes (lower_code n)
       | None => k
       end)
      :: lower_chars (match casing_of_char k with
                      | Ignorable => after_cased
                      | Cased => true
                      | Uncased => false
                      end) rest
  end.

Definition lower (s : string) : string := concat (lower_chars false (chars s)).

(** *** Splitting and stripping *)

Definition isspace_char (k : string) : bool :=
  match code k with
  | Some n => isspace n
  | None => false
  end.

(** [s.split()] over the characters: the maximal runs of characters that
    are not whitespace, in order. [cur] is the run collected so far. *)
Fixpoint words (l : list string) (cur : string) : list string :=
  match l with
  | [] => match cur with "" => [] | _ => [cur] end
  | k :: rest =>
      if isspace_char k
      then match cur with "" => words rest "" | _ => cur :: words rest "" end
      else words rest (cur ++ k)
  end.

Definition split (s : string) : list string := words (chars s) "".

(** [c in chars] for an ASCII character [c]. *)
Fixpoint char_in (c : ascii) (chars : string) : bool :=
  match chars with
  | "" => false
  | String d chars' => Ascii.eqb c d || char_in c chars'
  end.

Fixpoint lstrip_by (p : string -> bool) (l : list string) : list string :=
  match l with
  | [] => []
  | k :: rest => if p k then lstrip_by p rest else l
  end.

Definition rstrip_by (p : string -> bool) (l : list string) : list string :=
  List.rev (lstrip_by p (List.rev l)).

Definition strip_by (p : string -> bool) (s : string) : string :=
  concat (rstrip_by p (lstrip_by p (chars s))).

(** [s.strip(chars)] and [s.strip()]. *)
Definition strip_chars (chars_to_strip s : string) : string :=
  strip_by (fun k => existsb (String.eqb k) (chars chars_to_strip)) s.

Definition strip (s : string) : string := strip_by isspace_char s.

(** [s.startswith(p)]. *)
Fixpoint startswith (p s : string) : bool :=
  match p, s with
  | "", _ => true
  | String a p', String b s' => Ascii.eqb a b && startswith p' s'
  | String _ _, "" => false
  end.

(** [sub in s] for strings: [sub] occurs at some position of [s]. *)
Fixpoint str_in (sub s : string) : bool :=
  startswith sub s ||
  match s with
  | "" => false
  | String _ s' => str_in sub s'
  end.

(** [s.split(sep)] for a non-empty [sep]: scan left to right, cutting at
    every occurrence of [sep] that does not overlap the previous cut.
    [skip] counts the bytes of a separator still to be passed over and
    [cur] is the piece collected so far. *)
Fixpoint split_from (sep : string) (skip : nat) (cur s : string) : list string :=
  match s with
  | "" => [cur]
  | String c s' =>
      match skip with
      | S k => split_from sep k cur s'
      | O =>
          if startswith sep s
          then cur :: split_from sep (String.length sep - 1) "" s'
          else split_from sep 0 (cur ++ String c "") s'
      end
  end.

Definition split_sep (sep s : string) : list string := split_from sep 0 "" s.

(** [str(n)] for an integer. *)
Definition str_of_int (n : Z) : string := pretty n.

End Py.

(** ** binary64 arithmetic on non-negative values *)

Module B64.

Local Open Scope Z_scope.

(** A finite non-negative double, [mant * 2 ^ expo]. The program divides
    a count by a positive count and multiplies the quotient by 100, so no
    negative number, no infinity and no NaN arises. *)
Record t : Set := mk { mant : Z; expo : Z }.

Definition zero : t := mk 0 0.

(** The rational a double stands for. *)
Definition to_Q (x : t) : Q :=
  if 0 <=? expo x then inject_Z (mant x * 2 ^ expo x)
  else Qmake (mant x) (Z.to_pos (2 ^ (- expo x))).

(** [floor (log2 (p / d))] for positive [p] and [d]. *)
Definition floor_log2 (p d : Z) : Z :=
  let k := Z.log2 p - Z.log2 d in
  if (if 0 <=? k then d * 2 ^ k <=? p else d <=? p * 2 ^ (- k)) then k else k - 1.

(** The integer nearest to [num / den], ties to the even one. *)
Definition rne (num den : Z) : Z :=
  let q := num / den in
  match 2 * (num mod den) ?= den with
  | Lt => q
  | Gt => q + 1
  | Eq => if Z.even q then q else q + 1
  end.

(** The double nearest to [p / d] ([0 <= p], [0 < d]): 53 significant bits,
    and never a unit in the last place below [2 ^ -1074]. *)
Definition round (p d : Z) : t :=
  if p =? 0 then zero
  else
    let e := Z.max (floor_log2 p d - 52) (-1074) in
    mk (if 0 <=? e then rne p (d * 2 ^ e) else rne (p * 2 ^ (- e)) d) e.

Definition round_Q (q : Q) : t := round (Qnum q) (Zpos (Qden q)).

(** [float(n)], and Python's true division of two integers, which is the
    correctly rounded quotient. *)
Definition of_int (n : Z) : t := round n 1.

Definition div_int (a b : Z) : t := round a b.

Definition mul (x y : t) : t := round_Q (to_Q x * to_Q y).

Definition leb (x y : t) : bool := Qle_bool (to_Q x) (to_Q y).

(** [int(x)]: truncation toward zero. *)
Definition trunc (x : t) : Z :=
  let q := to_Q x in Z.quot (Qnum q) (Zpos (Qden q)).

(** [round(x)]: the nearest integer, ties to even. *)
Definition py_round (x : t) : Z :=
  let q := to_Q x in rne (Qnum q) (Zpos (Qden q)).

(** The literal [0.5]. *)
Definition half : t := mk 1 (-1).

(** The same value in the Standard Library's IEEE 754 model. *)
Definition to_spec (x : t) : spec_float :=
  binary_normalize 53 1024 (mant x) (expo x) false.

(** Structural equality of two values of that model. *)
Definition spec_eqb (x y : spec_float) : bool :=
  match x, y with
  | S754_zero a, S754_zero b => Bool.eqb a b
  | S754_finite a m e, S754_finite b n f => Bool.eqb a b && Pos.eqb m n && Z.eqb e f
  | _, _ => false
  end.

(** [m / n] and [m / n * 100] computed here and computed by the Standard
    Library's binary64 division and multiplication are the same double. *)
Definition agrees_with_spec (m n : Z) : bool :=
  let quotient := SFdiv 53 1024 (to_spec (of_int m)) (to_spec (of_int n)) in
  spec_eqb (to_spec (div_int m n)) quotient
  && spec_eqb (to_spec (mul (div_int m n) (of_int 100)))
              (SFmul 53 1024 quotient (to_spec (of_int 100))).

(** The integers from [0] to [n]. *)
Definition upto (n : nat) : list Z := map Z.of_nat (seq 0 (S n)).

End B64.

(** ** Python's [float]: the values and their [repr] *)

Module PyFloat.

Local Open Scope Z_scope.

(** A [float]: not-a-number, an infinity, or a sign and a finite magnitude. *)
Inductive t : Type :=
| Nan
| Inf (negative : bool)
| Finite (negative : bool) (x : B64.t).

(** The magnitude is [2 ^ 1024] or more: beyond the largest double. *)
Definition overflows (x : B64.t) : bool :=
  (0 <=? B64.expo x) && (2 ^ 1024 <=? B64.mant x * 2 ^ B64.expo x).

(** [float] of the decimal [digits * 10 ^ exponent] ([0 <= digits]): the
    nearest double, an infinity once the rounded magnitude overflows. *)
Definition of_decimal (negative : bool) (digits exponent : Z) : t :=
  let x :=
    if 0 <=? exponent then B64.round (digits * 10 ^ exponent) 1
    else B64.round digits (10 ^ (- exponent)) in
  if overflows x then Inf negative else Finite negative x.

Definition same (x y : B64.t) : bool := Qeq_bool (B64.to_Q x) (B64.to_Q y).

(** The number of decimal digits of a positive integer. *)
Definition digits_of (n : Z) : Z := Z.of_nat (String.length (pretty n)).

(** [floor (log10 (p / d))] for positive [p] and [d]. *)
Definition floor_log10 (p d : Z) : Z :=
  if d <=? p then digits_of (p / d) - 1
  else
    let L := digits_of (d / p) in
    if d <=? p * 10 ^ (L - 1) then - (L - 1) else - L.

(** The double nearest to [c * 10 ^ s]. *)
Definition of_scaled (c s : Z) : B64.t :=
  if 0 <=? s then B64.round (c * 10 ^ s) 1 else B64.round c (10 ^ (- s)).

(** The decimal with [n] significant digits that reads back as [x] (whose
    value is [p / d], with [k] the exponent of its leading digit), if there
    is one: of the two decimals around the value, the one that reads back,
    the nearer one when both do, the even one on a tie. The result is the
    integer [c] of [c * 10 ^ (k - n + 1)]. *)
Definition with_digits (x : B64.t) (p d k n : Z) : option Z :=
  let s := k - n + 1 in
  let '(num, den) := if 0 <=? s then (p, d * 10 ^ s) else (p * 10 ^ (- s), d) in
  let lo := num / den in
  let hi := lo + 1 in
  let ok_lo := same (of_scaled lo s) x in
  let ok_hi := same (of_scaled hi s) x && negb (overflows (of_scaled hi s)) in
  if ok_lo && ok_hi then
    match 2 * num ?= (lo + hi) * den with
    | Lt => Some lo
    | Gt => Some hi
    | Eq => Some (if Z.even lo then lo else hi)
    end
  else if ok_lo then Some lo
  else if ok_hi then Some hi
  else None.

(** The shortest such decimal: 17 digits always suffice. *)
Fixpoint shortest (x : B64.t) (p d k : Z) (tries : nat) (n : Z) : Z * Z :=
  match tries with
  | O => (0, 0)
  | S tries' =>
      match with_digits x p d k n with
      | Some c => (c, k - n + 1)
      | None => shortest x p d k tries' (n + 1)
      end
  end.

Fixpoint strip_zeros (fuel : nat) (c s : Z) : Z * Z :=
  match fuel with
  | O => (c, s)
  | S fuel' => if (c mod 10 =? 0) && negb (c =? 0) then strip_zeros fuel' (c / 10) (s + 1) else (c, s)
  end.

Fixpoint zeros (n : nat) : string :=
  match n with
  | O => ""
  | S n' => String "0" (zeros n')
  end.

Fixpoint take (n : nat) (s : string) : string :=
  match n, s with
  | S n', String c r => String c (take n' r)
  | _, _ => ""
  end.

Fixpoint drop (n : nat) (s : string) : string :=
  match n, s with
  | S n', String _ r => drop n' r
  | _, _ => s
  end.

(** [repr] of a positive finite double: the shortest digits that read back
    as it, in positional notation when the decimal point falls within the
    digits or at most 16 places after their start and at most 3 zeros
    before them, and with an exponent of at least two digits otherwise. *)
Definition repr_positive (x : B64.t) : string :=
  let q := B64.to_Q x in
  let p := Qnum q in
  let d := Zpos (Qden q) in
  let k := floor_log10 p d in
  let '(c0, s0) := shortest x p d k 17 1 in
  let '(c, s) := strip_zeros 17 c0 s0 in
  let digits := pretty c in
  let n := Z.of_nat (String.length digits) in
  let decpt := n + s in
  if (decpt <=? -4) || (16 <? decpt) then
    let e := decpt - 1 in
    let mantissa :=
      match digits with
      | String c1 "" => String c1 ""
      | String c1 rest => String c1 (String "." rest)
      | "" => ""
      end in
    let exponent := pretty (Z.abs e) in
    mantissa ++ "e" ++ (if e <? 0 then "-" else "+")
      ++ (if Z.abs e <? 10 then "0" else "") ++ exponent
  else if decpt <=? 0 then "0." ++ zeros (Z.to_nat (- decpt)) ++ digits
  else if n <=? decpt then digits ++ zeros (Z.to_nat (decpt - n)) ++ ".0"
  else take (Z.to_nat decpt) digits ++ "." ++ drop (Z.to_nat decpt) digits.

(** [repr(x)], which is also [str(x)]. *)
Definition repr (x : t) : string :=
  match x with
  | Nan => "nan"
  | Inf negative => if negative then "-inf" else "inf"
  | Finite negative m =>
      (if negative then "-" else "")
        ++ (if B64.mant m =? 0 then "0.0" else repr_positive m)
  end.

End PyFloat.

(** ** The interpreter's limits *)

Module Sys.

(** What the interpreter allows when the code runs:
    [sys.get_int_max_str_digits()] (4300 unless configured, 0 for no limit),
    and how many nested containers the recursion limit still lets the JSON
    decoder enter and [repr] print. *)
Record t : Type := {
  int_max_str_digits : nat;
  decoder_depth : nat;
  repr_depth : nat
}.

(** An integer with [digits] decimal digits is beyond the limit for the
    conversion between [int] and [str]. *)
Definition too_long (sys : t) (digits : nat) : bool :=
  (0 <? int_max_str_digits sys)%nat && (int_max_str_digits sys <? digits)%nat.

End Sys.

(** ** The values [json.loads] produces, and the decoder *)

Module Json.

(** [None], [bool], [int], [float], [str], [list] and [dict] with string
    keys. A [dict] keeps its keys in insertion order, each key once: a
    repeated key keeps its first place and takes the last value. *)
#[warnings="-register-all"]
Inductive value : Type :=
| JNull
| JBool (b : bool)
| JInt (n : Z)
| JFloat (x : PyFloat.t)
| JStr (s : string)
| JList (items : list value)
| JDict (members : list (string * value)).

(** [d.get(k)] on the members of a [dict]. *)
Fixpoint dict_get (k : string) (members : list (string * value)) : option value :=
  match members with
  | [] => None
  | (k', v) :: rest => if String.eqb k k' then Some v else dict_get k rest
  end.

(** [d[k] = v]: a key already present keeps its place. *)
Fixpoint dict_set (k : string) (v : value) (members : list (string * value))
  : list (string * value) :=
  match members with
  | [] => [(k, v)]
  | (k', v') :: rest =>
      if String.eqb k k' then (k, v) :: rest else (k', v') :: dict_set k v rest
  end.

(** The decoder's whitespace: space, TAB, LF and CR. *)
Definition is_ws (c : ascii) : bool :=
  let n := N_of_ascii c in ((n =? 32) || (n =? 9) || (n =? 10) || (n =? 13))%N.

Fixpoint skip_ws (s : string) : string :=
  match s with
  | "" => ""
  | String c s' => if is_ws c then skip_ws s' else s
  end.

Definition is_digit (c : ascii) : bool :=
  let n := N_of_ascii c in ((48 <=? n) && (n <=? 57))%N.

(** The longest run of digits at the head of [s], and what follows it. *)
Fixpoint span_digits (s : string) : string * string :=
  match s with
  | "" => ("", "")
  | String c s' =>
      if is_digit c
      then let '(ds, rest) := span_digits s' in (String c ds, rest)
      else ("", s)
  end.

Fixpoint int_of_digits (acc : Z) (ds : string) : Z :=
  match ds with
  | "" => acc
  | String c ds' => int_of_digits (10 * acc + (Z.of_N (N_of_ascii c) - 48)) ds'
  end.

(** A number at the head of [s]: an optional minus sign; then 0, or digits
    that do not start with 0; then, each optional, a fraction (a dot and
    digits) and an exponent (e or E, a sign, digits). Without fraction and
    exponent it is an [int], which [int] refuses to read ([None] of [Some])
    when it has more digits than the interpreter allows; otherwise it is
    the [float] nearest to the decimal. The outer [None] is no number. *)
Definition parse_number (sys : Sys.t) (s : string) : option (option value * string) :=
  let '(neg, s1) :=
    match s with
    | String c r => if Ascii.eqb c "-" then (true, r) else (false, s)
    | "" => (false, s)
    end in
  let int_part :=
    match s1 with
    | String c r =>
        if Ascii.eqb c "0" then Some ("0", r)
        else if is_digit c then Some (span_digits s1)
        else None
    | "" => None
    end in
  match int_part with
  | None => None
  | Some (ip, r1) =>
      let '(frac, r2) :=
        match r1 with
        | String c r =>
            if Ascii.eqb c "."
            then let '(ds, r') := span_digits r in
                 match ds with "" => ("", r1) | _ => (ds, r') end
            else ("", r1)
        | "" => ("", r1)
        end in
      let '(exp, r3) :=
        match r2 with
        | String c r =>
            if Ascii.eqb c "e" || Ascii.eqb c "E"
            then let '(negative, r') :=
                   match r with
                   | String d r'' =>
                       if Ascii.eqb d "+" then (false, r'')
                       else if Ascii.eqb d "-" then (true, r'')
                       else (false, r)
                   | "" => (false, r)
                   end in
                 let '(ds, r'') := span_digits r' in
                 match ds with
                 | "" => (None, r2)
                 | _ => (Some (if negative : bool then (- int_of_digits 0 ds)%Z
                               else int_of_digits 0 ds), r'')
                 end
            else (None, r2)
        | "" => (None, r2)
        end in
      match frac, exp with
      | "", None =>
          if Sys.too_long sys (String.length ip) then Some (None, r3)
          else Some (Some (JInt (if neg : bool then (- int_of_digits 0 ip)%Z
                                 else int_of_digits 0 ip)), r3)
      | _, _ =>
          let exponent := match exp with Some e => e | None => 0%Z end in
          Some (Some (JFloat (PyFloat.of_decimal neg (int_of_digits 0 (ip ++ frac))
                                (exponent - Z.of_nat (String.length frac)))), r3)
      end
  end.

Definition hex_val (c : ascii) : option N :=
  let n := N_of_ascii c in
  if ((48 <=? n) && (n <=? 57))%N then Some (n - 48)%N
  else if ((97 <=? n) && (n <=? 102))%N then Some (n - 87)%N
  else if ((65 <=? n) && (n <=? 70))%N then Some (n - 55)%N
  else None.

(** The code unit a [\uXXXX] escape names. *)
Definition unicode_escape (h1 h2 h3 h4 : ascii) : option N :=
  match hex_val h1, hex_val h2, hex_val h3, hex_val h4 with
  | Some a, Some b, Some c, Some d => Some (((a * 16 + b) * 16 + c) * 16 + d)%N
  | _, _, _, _ => None
  end.

Definition is_high_surrogate (n : N) : bool := ((55296 <=? n) && (n <=? 56319))%N.

Definition is_low_surrogate (n : N) : bool := ((56320 <=? n) && (n <=? 57343))%N.

Definition join_surrogates (high low : N) : N :=
  (65536 + (high - 55296) * 1024 + (low - 56320))%N.

Definition simple_escape (e : ascii) : option ascii :=
  if Ascii.eqb e "034" then Some "034"%char
  else if Ascii.eqb e "\" then Some "\"%char
  else if Ascii.eqb e "/" then Some "/"%char
  else if Ascii.eqb e "b" then Some "008"%char
  else if Ascii.eqb e "f" then Some "012"%char
  else if Ascii.eqb e "n" then Some "010"%char
  else if Ascii.eqb e "r" then Some "013"%char
  else if Ascii.eqb e "t" then Some "009"%char
  else None.

(** A string literal after its opening quote (strict mode: no raw control
    character): the decoded text and what follows the closing quote. A high
    surrogate escape followed by a low surrogate escape is one character;
    any other surrogate stays as it is. *)
Fixpoint parse_string (s : string) : option (string * string) :=
  match s with
  | "" => None
  | String c r =>
      if Ascii.eqb c "034" then Some ("", r)
      else if Ascii.eqb c "\" then
        match r with
        | "" => None
        | String e r' =>
            if Ascii.eqb e "u" then
              match r' with
              | String h1 (String h2 (String h3 (String h4 r''))) =>
                  match unicode_escape h1 h2 h3 h4 with
                  | None => None
                  | Some n =>
                      let alone :=
                        match parse_string r'' with
                        | Some (str, rest) => Some (Py.chr n ++ str, rest)
                        | None => None
                        end in
                      match r'' with
                      | String b (String u (String g1 (String g2 (String g3 (String g4 r3))))) =>
                          if is_high_surrogate n && Ascii.eqb b "\" && Ascii.eqb u "u" then
                            match unicode_escape g1 g2 g3 g4 with
                            | None => None
                            | Some m =>
                                if is_low_surrogate m then
                                  match parse_string r3 with
                                  | Some (str, rest) =>
                                      Some (Py.chr (join_surrogates n m) ++ str, rest)
                                  | None => None
                                  end
                                else alone
                            end
                          else alone
                      | _ => alone
                      end
                  end
              | _ => None
              end
            else
              match simple_escape e, parse_string r' with
              | Some d, Some (str, rest) => Some (String d str, rest)
              | _, _ => None
              end
        end
      else if (N_of_ascii c <? 32)%N then None
      else
        match parse_string r with
        | Some (str, rest) => Some (String c str, rest)
        | None => None
        end
  end.

(** [s] without its first [n] bytes. *)
Fixpoint drop (n : nat) (s : string) : string :=
  match n, s with
  | O, _ => s
  | S n', String _ s' => drop n' s'
  | S _, "" => ""
  end.

(** One value at the head of [s] (no leading whitespace), the items of a
    list from the start of an item, and the members of a dict from the
    opening quote of a key. [depth] is the number of containers that may
    still be entered, one inside the other: beyond it the decoder raises
    [RecursionError]. [fuel] bounds the number of nested calls; at most two
    calls are made per byte read, so twice the length of the text is
    enough. *)
Fixpoint parse_value (sys : Sys.t) (fuel depth : nat) (s : string) {struct fuel}
  : option (value * string) :=
  match fuel with
  | O => None
  | S fuel' =>
      match s with
      | "" => None
      | String c r =>
          if Ascii.eqb c "034" then
            match parse_string r with
            | Some (str, rest) => Some (JStr str, rest)
            | None => None
            end
          else if Ascii.eqb c "{" then
            match depth with
            | O => None
            | S depth' =>
                match skip_ws r with
                | String c' r' =>
                    if Ascii.eqb c' "}" then Some (JDict [], r')
                    else
                      match parse_members sys fuel' depth' (skip_ws r) [] with
                      | Some (members, rest) => Some (JDict members, rest)
                      | None => None
                      end
                | "" => None
                end
            end
          else if Ascii.eqb c "[" then
            match depth with
            | O => None
            | S depth' =>
                match skip_ws r with
                | String c' r' =>
                    if Ascii.eqb c' "]" then Some (JList [], r')
                    else
                      match parse_items sys fuel' depth' (skip_ws r) [] with
                      | Some (items, rest) => Some (JList items, rest)
                      | None => None
                      end
                | "" => None
                end
            end
          else if Py.startswith "null" s then Some (JNull, drop 4 s)
          else if Py.startswith "true" s then Some (JBool true, drop 4 s)
          else if Py.startswith "false" s then Some (JBool false, drop 5 s)
          else
            match parse_number sys s with
            | Some (Some v, rest) => Some (v, rest)
            | Some (None, _) => None
            | None =>
                if Py.startswith "NaN" s then Some (JFloat PyFloat.Nan, drop 3 s)
                else if Py.startswith "Infinity" s
                then Some (JFloat (PyFloat.Inf false), drop 8 s)
                else if Py.startswith "-Infinity" s
                then Some (JFloat (PyFloat.Inf true), drop 9 s)
                else None
            end
      end
  end

with parse_items (sys : Sys.t) (fuel depth : nat) (s : string) (acc : list value)
    {struct fuel} : option (list value * string) :=
  match fuel with
  | O => None
  | S fuel' =>
      match parse_value sys fuel' depth s with
      | None => None
      | Some (v, r) =>
          match skip_ws r with
          | String c r' =>
              if Ascii.eqb c "]" then Some ((acc ++ [v])%list, r')
              else if Ascii.eqb c ","
              then parse_items sys fuel' depth (skip_ws r') (acc ++ [v])%list
              else None
          | "" => None
          end
      end
  end

with parse_members (sys : Sys.t) (fuel depth : nat) (s : string)
    (acc : list (string * value)) {struct fuel} : option (list (string * value) * string) :=
  match fuel with
  | O => None
  | S fuel' =>
      match s with
      | "" => None
      | String q r =>
          if negb (Ascii.eqb q "034") then None
          else
            match parse_string r with
            | None => None
            | Some (key, r1) =>
                match skip_ws r1 with
                | "" => None
                | String colon r2 =>
                    if negb (Ascii.eqb colon ":") then None
                    else
                      match parse_value sys fuel' depth (skip_ws r2) with
                      | None => None
                      | Some (v, r3) =>
                          match skip_ws r3 with
                          | String c r4 =>
                              if Ascii.eqb c "}" then Some (dict_set key v acc, r4)
                              else if Ascii.eqb c ","
                              then parse_members sys fuel' depth (skip_ws r4)
                                     (dict_set key v acc)
                              else None
                          | "" => None
                          end
                      end
                end
            end
      end
  end.

(** [json.loads(s)]: one value, whitespace around it and nothing else;
    [None] stands for the exception the decoder raises. *)
Definition loads (sys : Sys.t) (s : string) : option value :=
  match parse_value sys (2 * String.length s + 2) (Sys.decoder_depth sys) (skip_ws s) with
  | Some (v, rest) => match skip_ws rest with "" => Some v | _ => None end
  | None => None
  end.

Definition hex_digit (n : N) : ascii :=
  if (n <? 10)%N then ascii_of_N (48 + n) else ascii_of_N (87 + n).

(** The last [digits] hexadecimal digits of [n]. *)
Fixpoint hex (digits : nat) (n : N) : string :=
  match digits with
  | O => ""
  | S digits' => hex digits' (n / 16) ++ String (hex_digit (n mod 16)) ""
  end.

(** The code points from 128 up that [str.isprintable] refuses, as inclusive
    ranges. *)
Definition unprintable_ranges : list (N * N) :=
  [(128, 160); (173, 173); (888, 889); (896, 899); (907, 907); (909, 909); (930, 930);
   (1328, 1328); (1367, 1368); (1419, 1420); (1424, 1424); (1480, 1487); (1515, 1518);
   (1525, 1541); (1564, 1564); (1757, 1757); (1806, 1807); (1867, 1868); (1970, 1983);
   (2043, 2044); (2094, 2095); (2111, 2111); (2140, 2141); (2143, 2143); (2155, 2159);
   (2191, 2199); (2274, 2274); (2436, 2436); (2445, 2446); (2449, 2450); (2473, 2473);
   (2481, 2481); (2483, 2485); (2490, 2491); (2501, 2502); (2505, 2506); (2511, 2518);
   (2520, 2523); (2526, 2526); (2532, 2533); (2559, 2560); (2564, 2564); (2571, 2574);
   (2577, 2578); (2601, 2601); (2609, 2609); (2612, 2612); (2615, 2615); (2618, 2619);
   (2621, 2621); (2627, 2630); (2633, 2634); (2638, 2640); (2642, 2648); (2653, 2653);
   (2655, 2661); (2679, 2688); (2692, 2692); (2702, 2702); (2706, 2706); (2729, 2729);
   (2737, 2737); (2740, 2740); (2746, 2747); (2758, 2758); (2762, 2762); (2766, 2767);
   (2769, 2783); (2788, 2789); (2802, 2808); (2816, 2816); (2820, 2820); (2829, 2830);
   (2833, 2834); (2857, 2857); (2865, 2865); (2868, 2868); (2874, 2875); (2885, 2886);
   (2889, 2890); (2894, 2900); (2904, 2907); (2910, 2910); (2916, 2917); (2936, 2945);
   (2948, 2948); (2955, 2957); (2961, 2961); (2966, 2968); (2971, 2971); (2973, 2973);
   (2976, 2978); (2981, 2983); (2987, 2989); (3002, 3005); (3011, 3013); (3017, 3017);
   (3022, 3023); (3025, 3030); (3032, 3045); (3067, 3071); (3085, 3085); (3089, 3089);
   (3113, 3113); (3130, 3131); (3141, 3141); (3145, 3145); (3150, 3156); (3159, 3159);
   (3163, 3164); (3166, 3167); (3172, 3173); (3184, 3190); (3213, 3213); (3217, 3217);
   (3241, 3241); (3252, 3252); (3258, 3259); (3269, 3269); (3273, 3273); (3278, 3284);
   (3287, 3292); (3295, 3295); (3300, 3301); (3312, 3312); (3315, 3327); (3341, 3341);
   (3345, 3345); (3397, 3397); (3401, 3401); (3408, 3411); (3428, 3429); (3456, 3456);
   (3460, 3460); (3479, 3481); (3506, 3506); (3516, 3516); (3518, 3519); (3527, 3529);
   (3531, 3534); (3541, 3541); (3543, 3543); (3552, 3557); (3568, 3569); (3573, 3584);
   (3643, 3646); (3676, 3712); (3715, 3715); (3717, 3717); (3723, 3723); (3748, 3748);
   (3750, 3750); (3774, 3775); (3781, 3781); (3783, 3783); (3790, 3791); (3802, 3803);
   (3808, 3839); (3912, 3912); (3949, 3952); (3992, 3992); (4029, 4029); (4045, 4045);
   (4059, 4095); (4294, 4294); (4296, 4300); (4302, 4303); (4681, 4681); (4686, 4687);
   (4695, 4695); (4697, 4697); (4702, 4703); (4745, 4745); (4750, 4751); (4785, 4785);
   (4790, 4791); (4799, 4799); (4801, 4801); (4806, 4807); (4823, 4823); (4881, 4881);
   (4886, 4887); (4955, 4956); (4989, 4991); (5018, 5023); (5110, 5111); (5118, 5119);
   (5760, 5760); (5789, 5791); (5881, 5887); (5910, 5918); (5943, 5951); (5972, 5983);
   (5997, 5997); (6001, 6001); (6004, 6015); (6110, 6111); (6122, 6127); (6138, 6143);
   (6158, 6158); (6170, 6175); (6265, 6271); (6315, 6319); (6390, 6399); (6431, 6431);
   (6444, 6447); (6460, 6463); (6465, 6467); (6510, 6511); (6517, 6527); (6572, 6575);
   (6602, 6607); (6619, 6621); (6684, 6685); (6751, 6751); (6781, 6782); (6794, 6799);
   (6810, 6815); (6830, 6831); (6863, 6911); (6989, 6991); (7039, 7039); (7156, 7163);
   (7224, 7226); (7242, 7244); (7305, 7311); (7355, 7356); (7368, 7375); (7419, 7423);
   (7958, 7959); (7966, 7967); (8006, 8007); (8014, 8015); (8024, 8024); (8026, 8026);
   (8028, 8028); (8030, 8030); (8062, 8063); (8117, 8117); (8133, 8133); (8148, 8149);
   (8156, 8156); (8176, 8177); (8181, 8181); (8191, 8207); (8232, 8239); (8287, 8303);
   (8306, 8307); (8335, 8335); (8349, 8351); (8385, 8399); (8433, 8447); (8588, 8591);
   (9255, 9279); (9291, 9311); (11124, 11125); (11158, 11158); (11508, 11512); (11558, 11558);
   (11560, 11564); (11566, 11567); (11624, 11630); (11633, 11646); (11671, 11679);
   (11687, 11687); (11695, 11695); (11703, 11703); (11711, 11711); (11719, 11719);
   (11727, 11727); (11735, 11735); (11743, 11743); (11870, 11903); (11930, 11930);
   (12020, 12031); (12246, 12271); (12284, 12288); (12352, 12352); (12439, 12440);
   (12544, 12548); (12592, 12592); (12687, 12687); (12772, 12783); (12831, 12831);
   (42125, 42127); (42183, 42191); (42540, 42559); (42744, 42751); (42955, 42959);
   (42962, 42962); (42964, 42964); (42970, 42993); (43053, 43055); (43066, 43071);
   (43128, 43135); (43206, 43213); (43226, 43231); (43348, 43358); (43389, 43391);
   (43470, 43470); (43482, 43485); (43519, 43519); (43575, 43583); (43598, 43599);
   (43610, 43611); (43715, 43738); (43767, 43776); (43783, 43784); (43791, 43792);
   (43799, 43807); (43815, 43815); (43823, 43823); (43884, 43887); (44014, 44015);
   (44026, 44031); (55204, 55215); (55239, 55242); (55292, 63743); (64110, 64111);
   (64218, 64255); (64263, 64274); (64280, 64284); (64311, 64311); (64317, 64317);
   (64319, 64319); (64322, 64322); (64325, 64325); (64451, 64466); (64912, 64913);
   (64968, 64974); (64976, 65007); (65050, 65055); (65107, 65107); (65127, 65127);
   (65132, 65135); (65141, 65141); (65277, 65280); (65471, 65473); (65480, 65481);
   (65488, 65489); (65496, 65497); (65501, 65503); (65511, 65511); (65519, 65531);
   (65534, 65535); (65548, 65548); (65575, 65575); (65595, 65595); (65598, 65598);
   (65614, 65615); (65630, 65663); (65787, 65791); (65795, 65798); (65844, 65846);
   (65935, 65935); (65949, 65951); (65953, 65999); (66046, 66175); (66205, 66207);
   (66257, 66271); (66300, 66303); (66340, 66348); (66379, 66383); (66427, 66431);
   (66462, 66462); (66500, 66503); (66518, 66559); (66718, 66719); (66730, 66735);
   (66772, 66775); (66812, 66815); (66856, 66863); (66916, 66926); (66939, 66939);
   (66955, 66955); (66963, 66963); (66966, 66966); (66978, 66978); (66994, 66994);
   (67002, 67002); (67005, 67071); (67383, 67391); (67414, 67423); (67432, 67455);
   (67462, 67462); (67505, 67505); (67515, 67583); (67590, 67591); (67593, 67593);
   (67638, 67638); (67641, 67643); (67645, 67646); (67670, 67670); (67743, 67750);
   (67760, 67807); (67827, 67827); (67830, 67834); (67868, 67870); (67898, 67902);
   (67904, 67967); (68024, 68027); (68048, 68049); (68100, 68100); (68103, 68107);
   (68116, 68116); (68120, 68120); (68150, 68151); (68155, 68158); (68169, 68175);
   (68185, 68191); (68256, 68287); (68327, 68330); (68343, 68351); (68406, 68408);
   (68438, 68439); (68467, 68471); (68498, 68504); (68509, 68520); (68528, 68607);
   (68681, 68735); (68787, 68799); (68851, 68857); (68904, 68911); (68922, 69215);
   (69247, 69247); (69290, 69290); (69294, 69295); (69298, 69375); (69416, 69423);
   (69466, 69487); (69514, 69551); (69580, 69599); (69623, 69631); (69710, 69713);
   (69750, 69758); (69821, 69821); (69827, 69839); (69865, 69871); (69882, 69887);
   (69941, 69941); (69960, 69967); (70007, 70015); (70112, 70112); (70133, 70143);
   (70162, 70162); (70207, 70271); (70279, 70279); (70281, 70281); (70286, 70286);
   (70302, 70302); (70314, 70319); (70379, 70383); (70394, 70399); (70404, 70404);
   (70413, 70414); (70417, 70418); (70441, 70441); (70449, 70449); (70452, 70452);
   (70458, 70458); (70469, 70470); (70473, 70474); (70478, 70479); (70481, 70486);
   (70488, 70492); (70500, 70501); (70509, 70511); (70517, 70655); (70748, 70748);
   (70754, 70783); (70856, 70863); (70874, 71039); (71094, 71095); (71134, 71167);
   (71237, 71247); (71258, 71263); (71277, 71295); (71354, 71359); (71370, 71423);
   (71451, 71452); (71468, 71471); (71495, 71679); (71740, 71839); (71923, 71934);
   (71943, 71944); (71946, 71947); (71956, 71956); (71959, 71959); (71990, 71990);
   (71993, 71994); (72007, 72015); (72026, 72095); (72104, 72105); (72152, 72153);
   (72165, 72191); (72264, 72271); (72355, 72367); (72441, 72703); (72713, 72713);
   (72759, 72759); (72774, 72783); (72813, 72815); (72848, 72849); (72872, 72872);
   (72887, 72959); (72967, 72967); (72970, 72970); (73015, 73017); (73019, 73019);
   (73022, 73022); (73032, 73039); (73050, 73055); (73062, 73062); (73065, 73065);
   (73103, 73103); (73106, 73106); (73113, 73119); (73130, 73439); (73465, 73647);
   (73649, 73663); (73714, 73726); (74650, 74751); (74863, 74863); (74869, 74879);
   (75076, 77711); (77811, 77823); (78895, 82943); (83527, 92159); (92729, 92735);
   (92767, 92767); (92778, 92781); (92863, 92863); (92874, 92879); (92910, 92911);
   (92918, 92927); (92998, 93007); (93018, 93018); (93026, 93026); (93048, 93052);
   (93072, 93759); (93851, 93951); (94027, 94030); (94088, 94094); (94112, 94175);
   (94181, 94191); (94194, 94207); (100344, 100351); (101590, 101631); (101641, 110575);
   (110580, 110580); (110588, 110588); (110591, 110591); (110883, 110927); (110931, 110947);
   (110952, 110959); (111356, 113663); (113771, 113775); (113789, 113791); (113801, 113807);
   (113818, 113819); (113824, 118527); (118574, 118575); (118599, 118607); (118724, 118783);
   (119030, 119039); (119079, 119080); (119155, 119162); (119275, 119295); (119366, 119519);
   (119540, 119551); (119639, 119647); (119673, 119807); (119893, 119893); (119965, 119965);
   (119968, 119969); (119971, 119972); (119975, 119976); (119981, 119981); (119994, 119994);
   (119996, 119996); (120004, 120004); (120070, 120070); (120075, 120076); (120085, 120085);
   (120093, 120093); (120122, 120122); (120127, 120127); (120133, 120133); (120135, 120137);
   (120145, 120145); (120486, 120487); (120780, 120781); (121484, 121498); (121504, 121504);
   (121520, 122623); (122655, 122879); (122887, 122887); (122905, 122906); (122914, 122914);
   (122917, 122917); (122923, 123135); (123181, 123183); (123198, 123199); (123210, 123213);
   (123216, 123535); (123567, 123583); (123642, 123646); (123648, 124895); (124903, 124903);
   (124908, 124908); (124911, 124911); (124927, 124927); (125125, 125126); (125143, 125183);
   (125260, 125263); (125274, 125277); (125280, 126064); (126133, 126208); (126270, 126463);
   (126468, 126468); (126496, 126496); (126499, 126499); (126501, 126502); (126504, 126504);
   (126515, 126515); (126520, 126520); (126522, 126522); (126524, 126529); (126531, 126534);
   (126536, 126536); (126538, 126538); (126540, 126540); (126544, 126544); (126547, 126547);
   (126549, 126550); (126552, 126552); (126554, 126554); (126556, 126556); (126558, 126558);
   (126560, 126560); (126563, 126563); (126565, 126566); (126571, 126571); (126579, 126579);
   (126584, 126584); (126589, 126589); (126591, 126591); (126602, 126602); (126620, 126624);
   (126628, 126628); (126634, 126634); (126652, 126703); (126706, 126975); (127020, 127023);
   (127124, 127135); (127151, 127152); (127168, 127168); (127184, 127184); (127222, 127231);
   (127406, 127461); (127491, 127503); (127548, 127551); (127561, 127567); (127570, 127583);
   (127590, 127743); (128728, 128732); (128749, 128751); (128765, 128767); (128884, 128895);
   (128985, 128991); (129004, 129007); (129009, 129023); (129036, 129039); (129096, 129103);
   (129114, 129119); (129160, 129167); (129198, 129199); (129202, 129279); (129620, 129631);
   (129646, 129647); (129653, 129655); (129661, 129663); (129671, 129679); (129709, 129711);
   (129723, 129727); (129734, 129743); (129754, 129759); (129768, 129775); (129783, 129791);
   (129939, 129939); (129995, 130031); (130042, 131071); (173792, 173823); (177977, 177983);
   (178206, 178207); (183970, 183983); (191457, 194559); (195102, 196607); (201547, 917759);
   (918000, 1114111)]%N.

(** [str.isprintable] on one code point. *)
Definition printable (n : N) : bool :=
  if (n <? 128)%N then ((32 <=? n) && (n <? 127))%N
  else negb (Py.in_ranges n unprintable_ranges).

(** [repr] of a string: single quotes unless the text has a single quote and
    no double quote; backslash, the quote, TAB, LF and CR escaped, every
    other unprintable character written [\xhh], [\uhhhh] or [\Uhhhhhhhh]. *)
Definition repr_char (quote : ascii) (k : string) : string :=
  match Py.code k with
  | Some n =>
      if (n =? N_of_ascii quote)%N || (n =? 92)%N then String "\" k
      else if (n =? 9)%N then "\t"
      else if (n =? 10)%N then "\n"
      else if (n =? 13)%N then "\r"
      else if printable n then k
      else if (n <? 256)%N then "\x" ++ hex 2 n
      else if (n <? 65536)%N then "\u" ++ hex 4 n
      else "\U" ++ hex 8 n
  | None => k
  end.

Definition repr_str (s : string) : string :=
  let quote :=
    if Py.char_in "'" s && negb (Py.char_in "034" s) then "034"%char else "'"%char in
  String quote (Py.concat (map (repr_char quote) (Py.chars s)) ++ String quote "").

Fixpoint join (sep : string) (parts : list string) : string :=
  match parts with
  | [] => ""
  | [p] => p
  | p :: rest => p ++ sep ++ join sep rest
  end.

(** All of the texts, if every one is there. *)
Fixpoint all_of (parts : list (option string)) : option (list string) :=
  match parts with
  | [] => Some []
  | Some p :: rest =>
      match all_of rest with
      | Some ps => Some (p :: ps)
      | None => None
      end
  | None :: _ => None
  end.

(** [repr(v)] with [depth] calls of [repr] still allowed one inside the
    other: [None] is the exception of an integer too long to print or of
    too deep a nesting. *)
Fixpoint repr_within (sys : Sys.t) (depth : nat) (v : value) : option string :=
  match depth with
  | O => None
  | S depth' =>
      match v with
      | JNull => Some "None"
      | JBool true => Some "True"
      | JBool false => Some "False"
      | JInt n =>
          if Sys.too_long sys (String.length (pretty (Z.abs n))) then None
          else Some (Py.str_of_int n)
      | JFloat x => Some (PyFloat.repr x)
      | JStr s => Some (repr_str s)
      | JList items =>
          match all_of (map (repr_within sys depth') items) with
          | Some parts => Some ("[" ++ join ", " parts ++ "]")
          | None => None
          end
      | JDict members =>
          match all_of (map (fun kv =>
                               match repr_within sys depth' (snd kv) with
                               | Some r => Some (repr_str (fst kv) ++ ": " ++ r)
                               | None => None
                               end) members) with
          | Some parts => Some ("{" ++ join ", " parts ++ "}")
          | None => None
          end
      end
  end.

Definition repr (sys : Sys.t) (v : value) : option string :=
  repr_within sys (Sys.repr_depth sys) v.

(** [str(v)], which is what an f-string inserts. *)
Definition str (sys : Sys.t) (v : value) : option string :=
  match v with
  | JStr s => Some s
  | _ => repr sys v
  end.

(** [needle in v] for a string [needle]: a key of a dict, an item of a
    list, a substring of a string; [None] is the [TypeError] of the other
    types. *)
Definition contains (needle : string) (v : value) : option bool :=
  match v with
  | JDict members => Some (match dict_get needle members with Some _ => true | None => false end)
  | JList items =>
      Some (existsb (fun item => match item with JStr s => String.eqb s needle | _ => false end)
              items)
  | JStr s => Some (Py.str_in needle s)
  | _ => None
  end.

(** [v.get(k, default)]: only a dict has the method. *)
Definition get (v : value) (k : string) (default : value) : option value :=
  match v with
  | JDict members =>
      Some (match dict_get k members with Some x => x | None => default end)
  | _ => None
  end.

(** [v[k]] for a string key: a dict holding [k]. *)
Definition getitem (v : value) (k : string) : option value :=
  match v with
  | JDict members => dict_get k members
  | _ => None
  end.

(** [len(v)]. *)
Definition len (v : value) : option Z :=
  match v with
  | JStr s => Some (Z.of_nat (Py.len s))
  | JList items => Some (Z.of_nat (length items))
  | JDict members => Some (Z.of_nat (length members))
  | _ => None
  end.

(** [v[0]]: the first item of a list, the first character of a string; a
    dict with string keys has no key [0]. *)
Definition first (v : value) : option value :=
  match v with
  | JList (item :: _) => Some item
  | JStr s => match Py.chars s with k :: _ => Some (JStr k) | [] => None end
  | _ => None
  end.

End Json.

(** ** config.py *)

Module Config.

Definition SAMBANOVA_API_URL : string := "https://api.sambanova.ai/v1/completions".

Definition SAMBANOVA_MODEL_NAME : string := "sambanova-llm".

Definition ALTERNATIVE_MODELS : list string :=
  ["sambanova-chat"; "sambanova-1.5-chat"; "llama-7b"; "llama2-7b"].

Definition ALLOWED_IMAGE_EXTENSIONS : gset string := {[ "png"; "jpg"; "jpeg"; "gif" ]}.

End Config.

(** ** The outside world: the HTTP endpoint and the outcome of a call *)

Module World.

(** The [json=] body of a completion request. *)
Record payload : Type := {
  model : string;
  prompt : string;
  max_tokens : Z;
  temperature : Q
}.

(** The arguments of one [requests.post]. *)
Record request : Type := {
  url : string;
  headers : list (string * string);
  json : payload;
  timeout : Z
}.

(** What [requests.post] does: it returns a response, of which the code
    reads [status_code], [text] and [json()] ([None] when [json()] raises),
    or it raises. *)
Inductive outcome : Type :=
| Response (status_code : Z) (text : string) (json : option Json.value)
| RequestException.

(** A response whose [json()] is the decoding of its text. *)
Definition respond (sys : Sys.t) (status_code : Z) (text : string) : outcome :=
  Response status_code text (Json.loads sys text).

(** The completion endpoint answers a request knowing the completion
    requests issued before it. The log holds the posts of
    [_make_api_request] only: the post of the transcriber goes to another
    address and is part of what [transcribe_with_sambanova] stands for. *)
Definition endpoint : Type := list request -> request -> outcome.

(** A call that returns or raises. *)
Inductive result (A : Type) : Type :=
| Ok (a : A)
| Raise (message : string).

Arguments Ok {A} a.
Arguments Raise {A} message.

Definition bind {A B : Type} (r : result A) (k : A -> result B) : result B :=
  match r with
  | Ok a => k a
  | Raise message => Raise message
  end.

(** A value printed by [str] or an f-string, which raises when the value
    cannot be printed. *)
Definition printed (text : option string) : result string :=
  match text with
  | Some s => Ok s
  | None => Raise "the value cannot be printed"
  end.

(** A subscript [d[k]] that raises [KeyError] on a missing key. *)
Definition subscript {A : Type} (found : option A) (k : string) : result A :=
  match found with
  | Some a => Ok a
  | None => Raise ("KeyError: " ++ k)
  end.

End World.

Notation "'do' x <- r ; k" := (World.bind r (fun x => k))
  (at level 10, x name, r at level 100, k at level 200).

(** ** models/transcription.py and models/media_processor.py *)

Module AudioTranscriber.

Definition _fallback_transcription (audio_path : string) : string :=
  "This is a fallback transcription. The SambaNova API could not process this audio.".

(** [transcribe_audio]. [_transcribe_with_sambanova] reads the file and
    posts it; what it hands back, a text or [None], is the world's
    ([sambanova]). It catches its own exceptions, so the outer handler with
    its "Unable to transcribe" text is never entered. *)
Definition transcribe_audio (sambanova : string -> option string) (audio_path : string)
  : string :=
  match sambanova audio_path with
  | Some transcript =>
      if negb (String.eqb transcript "") then transcript
      else _fallback_transcription audio_path
  | None => _fallback_transcription audio_path
  end.

End AudioTranscriber.

Module MediaProcessor.

(** [create_image_description]: a placeholder, whatever the image. *)
Definition create_image_description (image_base64 : option string) : string :=
  "An image showing a person demonstrating soft skills in a professional environment.".

(** [s.rsplit(c, 1)[1]]: what follows the last [c] of [s]; [None] where [s]
    has no [c] and the subscript is out of range. *)
Fixpoint after_last (c : ascii) (s : string) : option string :=
  match s with
  | "" => None
  | String a s' =>
      match after_last c s' with
      | Some tail => Some tail
      | None => if Ascii.eqb a c then Some s' else None
      end
  end.

(** [is_valid_image]: the conjunction guards the subscript. *)
Definition is_valid_image (filename : string) : bool :=
  Py.char_in "." filename
  && match after_last "." filename with
     | Some extension =>
         bool_decide (Py.lower extension ∈ Config.ALLOWED_IMAGE_EXTENSIONS)
     | None => false
     end.

End MediaProcessor.

(** ** The completion client

    [Evaluator] and [QuestionGenerator] carry the same text for
    [_extract_json] and [_make_api_request], up to the temperature of the
    request and the message of the final exception. It is embedded once,
    with those two as parameters. *)

Module Client.

Import World Json.

(** The attributes [__init__] sets. *)
Record self : Type := {
  api_key : string;
  api_url : string;
  model_name : string
}.

Definition __init__ (SAMBANOVA_API_KEY : string) : self :=
  {| api_key := SAMBANOVA_API_KEY;
     api_url := Config.SAMBANOVA_API_URL;
     model_name := Config.SAMBANOVA_MODEL_NAME |}.

Definition self_headers (s : self) : list (string * string) :=
  [("Authorization", "Bearer " ++ api_key s); ("Content-Type", "application/json")].

(** The suffix of [s] from its first [c], and the prefix of [s] up to its
    last [c]. *)
Fixpoint from_first (c : ascii) (s : string) : option string :=
  match s with
  | "" => None
  | String a s' => if Ascii.eqb a c then Some s else from_first c s'
  end.

Fixpoint upto_last (c : ascii) (s : string) : option string :=
  match s with
  | "" => None
  | String a s' =>
      match upto_last c s' with
      | Some r => Some (String a r)
      | None => if Ascii.eqb a c then Some (String a "") else None
      end
  end.

(** [re.search(r'\{.*\}', text, re.DOTALL)] and its [group(0)]: from the
    first opening brace to the last closing brace after it. *)
Definition re_search_braces (text : string) : option string :=
  match from_first "{" text with
  | Some rest => upto_last "}" rest
  | None => None
  end.

(** [_extract_json]. The subscripts [1] and [0] are in range: the separator
    occurs in the text that is split (see [split_sep_second]). *)
Definition _extract_json (sys : Sys.t) (text : string) : string :=
  if Py.str_in "```json" text && Py.str_in "```" text then
    Py.strip (nth 0 (Py.split_sep "```" (nth 1 (Py.split_sep "```json" text) "")) "")
  else
    let fenced :=
      if Py.str_in "```" text then
        let json_candidate :=
          Py.strip (nth 0 (Py.split_sep "```" (nth 1 (Py.split_sep "```" text) "")) "") in
        match Json.loads sys json_candidate with
        | Some _ => Some json_candidate
        | None => None
        end
      else None in
    match fenced with
    | Some json_candidate => json_candidate
    | None =>
        match re_search_braces text with
        | Some json_match => json_match
        | None => text
        end
    end.

(** "Extract content based on API structure": the three shapes. [None] is
    an exception ([TypeError], [AttributeError], [KeyError]) raised on the
    way. *)
Definition response_content (sys : Sys.t) (response_data : value) : option value :=
  match contains "text" response_data with
  | None => None
  | Some true => get response_data "text" (JStr "")
  | Some false =>
      match contains "choices" response_data with
      | None => None
      | Some false => option_map JStr (str sys response_data)
      | Some true =>
          match getitem response_data "choices" with
          | None => None
          | Some choices =>
              match len choices with
              | None => None
              | Some n =>
                  if (0 <? n)%Z then
                    match first choices with
                    | Some choice => get choice "text" (JStr "")
                    | None => None
                    end
                  else option_map JStr (str sys response_data)
              end
          end
      end
  end.

(** The branch of a 200 response: [Some v] when it reaches [return] with
    [v], [None] when an exception sends the loop to the next model. A
    content that is not a string makes [_extract_json] raise on every path
    ([in], [split] or [re.search]). *)
Definition on_success (sys : Sys.t) (json : option value) : option value :=
  match json with
  | None => None
  | Some response_data =>
      match response_content sys response_data with
      | Some (JStr content) => Json.loads sys (_extract_json sys content)
      | _ => None
      end
  end.

Definition request_for (s : self) (temperature : Q) (prompt model_name : string)
  : request :=
  {| url := api_url s;
     headers := self_headers s;
     json := {| model := model_name; prompt := prompt;
                max_tokens := 512; temperature := temperature |};
     timeout := 30 |}.

(** The [for] loop: [Some v] when an iteration returns [v], [None] when the
    list is exhausted. [log] holds the requests issued so far. *)
Fixpoint try_models (sys : Sys.t) (server : endpoint) (s : self) (temperature : Q)
    (prompt : string) (models : list string) (log : list request)
  : option value * list request :=
  match models with
  | [] => (None, log)
  | model_name :: rest =>
      let sent := request_for s temperature prompt model_name in
      let next := try_models sys server s temperature prompt rest (log ++ [sent])%list in
      match server log sent with
      | RequestException => next
      | Response status_code text json =>
          if (status_code =? 200)%Z then
            match on_success sys json with
            | Some parsed => (Some parsed, (log ++ [sent])%list)
            | None => next
            end
          else if (status_code =? 404)%Z && Py.str_in "Model not found" text then next
          else next
      end
  end.

Definition all_models (s : self) : list string :=
  model_name s :: Config.ALTERNATIVE_MODELS.

Definition make_api_request (sys : Sys.t) (server : endpoint) (s : self) (temperature : Q)
    (failure : string) (prompt : string) (log : list request)
  : result value * list request :=
  match try_models sys server s temperature prompt (all_models s) log with
  | (Some parsed, log') => (Ok parsed, log')
  | (None, log') => (Raise failure, log')
  end.

End Client.

(** ** models/evaluator.py *)

Module Evaluator.

Import World.

(** What the media helpers hand back for a stored file: the text (or
    [None]) of [_transcribe_with_sambanova], and the base64 text (or [None])
    of [process_image_for_ai]. *)
Record media : Type := {
  transcribe_with_sambanova : string -> option string;
  process_image_for_ai : string -> option string
}.

Definition _make_api_request (sys : Sys.t) (server : endpoint) (self : Client.self)
    (prompt : string) (log : list request) : result Json.value * list request :=
  Client.make_api_request sys server self (3 # 10)
    "All models failed to evaluate the answer" prompt log.

Definition _extract_json (sys : Sys.t) (text : string) : string :=
  Client._extract_json sys text.

(** [_process_answer]. [answer] and [media_path] may be [None]; [None] and
    the empty string are the false ones. *)
Definition _process_answer (files : media) (answer : option string) (answer_type : string)
    (media_path : option string) : option string :=
  let given (x : option string) : bool :=
    match x with Some s => negb (String.eqb s "") | None => false end in
  if String.eqb answer_type "Text" then answer
  else
    match media_path with
    | Some path =>
        if String.eqb answer_type "Audio" && given media_path then
          let audio_transcript :=
            AudioTranscriber.transcribe_audio (transcribe_with_sambanova files) path in
          Some ("Audio Answer Transcript: " ++ audio_transcript)
        else if String.eqb answer_type "Image" && given media_path then
          let image_base64 := process_image_for_ai files path in
          let image_description := MediaProcessor.create_image_description image_base64 in
          Some ("Image Answer Description: " ++ image_description)
        else if given answer then answer else Some "No answer provided"
    | None => if given answer then answer else Some "No answer provided"
    end.

(** The argument of [word.strip('.,;:()[]{}"\'"')]. *)
Definition punctuation : string := ".,;:()[]{}" ++ Py.dq ++ "'" ++ Py.dq.

(** The set comprehension of [_fallback_evaluation]: the length test is on
    the token as split, the stripped token is what enters the set. *)
Definition keyword_set (expected_text : string) : gset string :=
  list_to_set
    (map (Py.strip_chars punctuation)
       (List.filter (fun word => (4 <? Py.len word)%nat) (Py.split expected_text))).

(** The counting loop over the keyword set. *)
Definition count_matching (expected_keywords : gset string) (student_text : string) : Z :=
  set_fold (fun keyword matching_keywords =>
              if Py.str_in keyword student_text
              then (matching_keywords + 1)%Z else matching_keywords)
           0%Z expected_keywords.

Definition expected_keywords (expected_answer : string) : gset string :=
  keyword_set (Py.lower expected_answer).

Definition matching_keywords (student_answer expected_answer : string) : Z :=
  count_matching (expected_keywords expected_answer) (Py.lower student_answer).

(** [matching_keywords / len(expected_keywords) if expected_keywords else 0] *)
Definition match_percentage (student_answer expected_answer : string) : B64.t :=
  if bool_decide (expected_keywords expected_answer ≠ ∅)
  then B64.div_int (matching_keywords student_answer expected_answer)
                   (Z.of_nat (size (expected_keywords expected_answer)))
  else B64.zero.

(** [int(match_percentage * 100)] *)
Definition percent (student_answer expected_answer : string) : Z :=
  B64.trunc (B64.mul (match_percentage student_answer expected_answer) (B64.of_int 100)).

Definition _fallback_evaluation (student_answer expected_answer : string) : bool * string :=
  let match_percentage := match_percentage student_answer expected_answer in
  let is_correct := B64.leb B64.half match_percentage in
  let explanation :=
    if is_correct
    then "The answer covers approximately "
           ++ Py.str_of_int (B64.trunc (B64.mul match_percentage (B64.of_int 100)))
           ++ "% of the key concepts expected."
    else "The answer is missing several important concepts (only covers about "
           ++ Py.str_of_int (B64.trunc (B64.mul match_percentage (B64.of_int 100)))
           ++ "% of expected key points)."
  in
  (is_correct, explanation).

(** [_process_question]. The image of an Image question is read and
    resized for nothing: the question comes back as it is. *)
Definition _process_question (files : media) (question question_type : string)
    (media_path : option string) : string :=
  let given (x : option string) : bool :=
    match x with Some s => negb (String.eqb s "") | None => false end in
  if String.eqb question_type "Text" then question
  else
    match media_path with
    | Some path =>
        if String.eqb question_type "Audio" && given media_path then
          let audio_transcript :=
            AudioTranscriber.transcribe_audio (transcribe_with_sambanova files) path in
          question ++ String "010" (String "010" "") ++ "Audio Transcript: " ++ audio_transcript
        else if String.eqb question_type "Image" && given media_path then
          let image_base64 := process_image_for_ai files path in
          question
        else question
    | None => question
    end.

(** What an f-string inserts for a text that may be [None]. *)
Definition str_or_none (x : option string) : string :=
  match x with
  | Some s => s
  | None => "None"
  end.

Definition _create_evaluation_prompt (question expected_answer : string)
    (student_answer : option string) (skill level question_type answer_type : string)
  : string :=
  "
        You are an expert educator evaluating student responses for soft skills assessment.
        
        Assessment Context:
        - Skill being assessed: " ++ skill ++ "
        - Level: " ++ level ++ "
        - Question Type: " ++ question_type ++ "
        - Answer Type: " ++ answer_type ++ "
        
        Question: " ++ question ++ "
        
        Expected key points in the answer: " ++ expected_answer ++ "
        
        Student's answer: " ++ str_or_none student_answer ++ "
        
        Your task:
        1. Compare the student's answer to the expected key points
        2. Determine if the student demonstrated sufficient understanding of " ++ skill ++ " at a " ++ level ++ " level
        3. Provide a brief explanation justifying your assessment
        4. Consider the format of both question and answer in your evaluation
        
        Return ONLY this exact JSON format with no additional text:
        {
            " ++ Py.quoted "is_correct" ++ ": true or false,
            " ++ Py.quoted "explanation" ++ ": " ++ Py.quoted "Brief explanation of the assessment" ++ "
        }
        ".

(** The [try] block of [evaluate_answer] after the request: [Some] of the
    pair it returns, [None] when it falls through or an exception is
    caught. A verdict that is a string is read as a boolean, any other value
    is returned as it is. *)
Definition evaluation_of (answer : result Json.value) : option (Json.value * Json.value) :=
  match answer with
  | Ok (Json.JDict members) =>
      match Json.dict_get "is_correct" members, Json.dict_get "explanation" members with
      | Some is_correct, Some explanation =>
          Some (match is_correct with
                | Json.JStr s => Json.JBool (String.eqb (Py.lower s) "true")
                | _ => is_correct
                end,
                explanation)
      | _, _ => None
      end
  | _ => None
  end.

(** The last statement of [evaluate_answer], outside the [try] block. The
    grader starts with [student_answer.lower()] and
    [expected_answer.lower()]: an answer that is [None] and an expected
    answer that is no string have no such method. *)
Definition graded (processed_answer : option string) (expected_answer : Json.value)
  : result (Json.value * Json.value) :=
  match processed_answer with
  | None => Raise "'NoneType' object has no attribute 'lower'"
  | Some student_text =>
      match expected_answer with
      | Json.JStr expected_text =>
          let '(is_correct, explanation) := _fallback_evaluation student_text expected_text in
          Ok (Json.JBool is_correct, Json.JStr explanation)
      | _ => Raise "object has no attribute 'lower'"
      end
  end.

(** [evaluate_answer]. The question and the expected answer come from the
    question generator unchecked, so they are any value; the code only
    prints them into the prompt (an f-string, which raises when the value
    cannot be printed) before the request, and hands the expected answer to
    the grader after it. *)
Definition evaluate_answer (sys : Sys.t) (server : endpoint) (files : media)
    (self : Client.self) (question expected_answer : Json.value)
    (student_answer : option string)
    (skill level question_type answer_type : string)
    (question_media answer_media : option string) (log : list request)
  : result (Json.value * Json.value) * list request :=
  match Json.str sys question, Json.str sys expected_answer with
  | Some question_text, Some expected_text =>
      let processed_question :=
        _process_question files question_text question_type question_media in
      let processed_answer := _process_answer files student_answer answer_type answer_media in
      let prompt :=
        _create_evaluation_prompt processed_question expected_text processed_answer
          skill level question_type answer_type in
      let '(answer, log') := _make_api_request sys server self prompt log in
      match evaluation_of answer with
      | Some verdict => (Ok verdict, log')
      | None => (graded processed_answer expected_answer, log')
      end
  | _, _ => (Raise "the value cannot be printed", log)
  end.

End Evaluator.

(** ** models/question_generator.py *)

Module QuestionGenerator.

Import World Json.

Definition nl : string := String "010" "".

Definition _make_api_request (sys : Sys.t) (server : endpoint) (self : Client.self)
    (prompt : string) (log : list request) : result value * list request :=
  Client.make_api_request sys server self (7 # 10)
    "All models failed to generate a question" prompt log.

Definition _extract_json (sys : Sys.t) (text : string) : string :=
  Client._extract_json sys text.

Definition _create_text_question_prompt (skill level : string) : string :=
  "
        As an expert educator, create a single assessment question to evaluate a student's knowledge of " ++ skill ++ " at a " ++ level ++ " level.
        
        The question should:
        1. Be clear and direct
        2. Be appropriate for the " ++ level ++ " level
        3. Focus specifically on " ++ skill ++ "
        4. Be answerable in 1-3 paragraphs
        
        Provide your response in this exact JSON format:
        {
            " ++ Py.quoted "question" ++ ": " ++ Py.quoted "The complete question text" ++ ",
            " ++ Py.quoted "expected_answer" ++ ": " ++ Py.quoted "Key points that should be included in a correct answer" ++ "
        }
        
        The JSON must be valid. No markdown formatting. No additional text before or after the JSON.
        ".

Definition audio_prompt (skill level : string) : string :=
  "
        Create a realistic audio scenario to assess " ++ skill ++ " at a " ++ level ++ " level.
        
        The scenario should:
        1. Be a situation that would be presented as an audio recording
        2. Require the student to demonstrate their " ++ skill ++ " skills at a " ++ level ++ " level
        3. Be specific and detailed enough for clear assessment
        
        Provide your response in this exact JSON format:
        {
            " ++ Py.quoted "audio_scenario" ++ ": " ++ Py.quoted "Detailed description of what the audio would contain" ++ ",
            " ++ Py.quoted "question" ++ ": " ++ Py.quoted "The specific question to ask the student after they hear the audio" ++ ",
            " ++ Py.quoted "expected_answer" ++ ": " ++ Py.quoted "Key points that should be included in a correct answer" ++ "
        }
        ".

Definition image_prompt (skill level : string) : string :=
  "
        Create a detailed description of an image that could be used to assess " ++ skill ++ " at a " ++ level ++ " level.
        
        The image description should:
        1. Be clear and visualizable
        2. Relate directly to " ++ skill ++ "
        3. Present a scenario appropriate for " ++ level ++ " assessment
        
        Provide your response in this exact JSON format:
        {
            " ++ Py.quoted "image_description" ++ ": " ++ Py.quoted "Detailed description of what the image would show" ++ ",
            " ++ Py.quoted "question" ++ ": " ++ Py.quoted "The specific question to ask the student about the image" ++ ",
            " ++ Py.quoted "expected_answer" ++ ": " ++ Py.quoted "Key points that should be included in a correct answer" ++ "
        }
        ".

(** [_generate_fallback_question]: the table, the default key and the
    subscript. *)
Definition fallback_questions (skill : string) : gmap string (gmap string value) :=
  {[ "Beginner" :=
       {[ "question" := JStr ("Explain the core concepts of " ++ skill ++ " at a beginner level. What are the fundamental ideas someone new to " ++ skill ++ " should understand?");
          "expected_answer" := JStr ("A good answer should cover the basic principles of " ++ skill ++ ", define key terminology, and explain foundational concepts without advanced jargon. The answer should be accessible to someone with no prior knowledge of " ++ skill ++ ".") ]};
     "Intermediate" :=
       {[ "question" := JStr ("Describe the practical applications of " ++ skill ++ " at an intermediate level. How would you implement " ++ skill ++ " techniques in real-world scenarios?");
          "expected_answer" := JStr ("A good answer should demonstrate clear understanding of " ++ skill ++ " concepts, explain how to apply them in practice, include examples of common use cases, and show awareness of limitations or challenges when implementing " ++ skill ++ ".") ]};
     "Advanced" :=
       {[ "question" := JStr ("Analyze how " ++ skill ++ " has evolved over time and discuss current cutting-edge developments. What advanced techniques distinguish expert practitioners in this field?");
          "expected_answer" := JStr ("A comprehensive answer should demonstrate deep knowledge of " ++ skill ++ ", including its historical development, current state-of-the-art techniques, ability to critically evaluate different approaches, and awareness of ongoing research or innovations in the field.") ]} ]}.

Definition _generate_fallback_question (skill level : string)
  : result (gmap string value) :=
  let level_key :=
    if bool_decide (is_Some (fallback_questions skill !! level))
    then level else "Intermediate" in
  subscript (fallback_questions skill !! level_key) level_key.

(** [isinstance(data, dict) and all(k in data for k in keys)]. *)
Definition has_keys (keys : list string) (data : value) : bool :=
  match data with
  | JDict members =>
      forallb (fun k => match dict_get k members with Some _ => true | None => false end) keys
  | _ => false
  end.

(** The [try] block of [_generate_text_question] after the request:
    [Some d] when it returns [d]. *)
Definition text_question_of (answer : result value) : option (gmap string value) :=
  match answer with
  | Ok question_data =>
      if has_keys ["question"; "expected_answer"] question_data then
        match getitem question_data "question", getitem question_data "expected_answer" with
        | Some question, Some expected_answer =>
            Some {[ "question_type" := JStr "Text";
                    "question_content" := question;
                    "expected_answer" := expected_answer;
                    "media_path" := JNull ]}
        | _, _ => None
        end
      else None
  | Raise _ => None
  end.

Definition _generate_text_question (sys : Sys.t) (server : endpoint) (self : Client.self)
    (skill level : string) (log : list request)
  : result (gmap string value) * list request :=
  let prompt := _create_text_question_prompt skill level in
  let '(answer, log') := _make_api_request sys server self prompt log in
  match text_question_of answer with
  | Some question => (Ok question, log')
  | None =>
      (do fallback <- _generate_fallback_question skill level;
       do question <- subscript (fallback !! "question") "question";
       do expected_answer <- subscript (fallback !! "expected_answer") "expected_answer";
       Ok {[ "question_type" := JStr "Text";
             "question_content" := question;
             "expected_answer" := expected_answer;
             "media_path" := JNull ]},
       log')
  end.

(** The [try] block of [_generate_audio_question] after the request. The
    f-string prints the scenario and the question; a value that cannot be
    printed raises inside the block, which is caught. *)
Definition audio_question_of (sys : Sys.t) (answer : result value)
  : option (gmap string value) :=
  match answer with
  | Ok response_data =>
      if has_keys ["audio_scenario"; "question"; "expected_answer"] response_data then
        match getitem response_data "audio_scenario", getitem response_data "question",
              getitem response_data "expected_answer" with
        | Some audio_scenario, Some question, Some expected_answer =>
            match str sys audio_scenario, str sys question with
            | Some scenario_text, Some question_text =>
                Some {[ "question_type" := JStr "Audio";
                        "question_content" :=
                          JStr ("Audio Scenario: " ++ scenario_text ++ nl ++ nl
                                  ++ "Question: " ++ question_text);
                        "expected_answer" := expected_answer;
                        "media_path" := JNull ]}
            | _, _ => None
            end
        | _, _, _ => None
        end
      else None
  | Raise _ => None
  end.

Definition _generate_audio_question (sys : Sys.t) (server : endpoint) (self : Client.self)
    (skill level : string) (log : list request)
  : result (gmap string value) * list request :=
  let prompt := audio_prompt skill level in
  let '(answer, log') := _make_api_request sys server self prompt log in
  match audio_question_of sys answer with
  | Some question => (Ok question, log')
  | None =>
      (do fallback <- _generate_fallback_question skill level;
       let scenario := "Imagine you are listening to a conversation about " ++ skill
                         ++ ". The speakers are discussing key aspects and challenges." in
       do question <- subscript (fallback !! "question") "question";
       do question_text <- printed (str sys question);
       do expected_answer <- subscript (fallback !! "expected_answer") "expected_answer";
       Ok {[ "question_type" := JStr "Audio";
             "question_content" :=
               JStr ("Audio Scenario: " ++ scenario ++ nl ++ nl
                       ++ "Question: " ++ question_text);
             "expected_answer" := expected_answer;
             "media_path" := JNull ]},
       log')
  end.

Definition image_question_of (sys : Sys.t) (answer : result value)
  : option (gmap string value) :=
  match answer with
  | Ok response_data =>
      if has_keys ["image_description"; "question"; "expected_answer"] response_data then
        match getitem response_data "image_description", getitem response_data "question",
              getitem response_data "expected_answer" with
        | Some image_description, Some question, Some expected_answer =>
            match str sys question with
            | Some question_text =>
                let full_question :=
                  "Look at the image and answer the following question:" ++ nl ++ nl
                    ++ question_text in
                Some {[ "question_type" := JStr "Image";
                        "question_content" := JStr full_question;
                        "expected_answer" := expected_answer;
                        "image_description" := image_description;
                        "media_path" := JNull ]}
            | None => None
            end
        | _, _, _ => None
        end
      else None
  | Raise _ => None
  end.

Definition _generate_image_question (sys : Sys.t) (server : endpoint) (self : Client.self)
    (skill level : string) (log : list request)
  : result (gmap string value) * list request :=
  let prompt := image_prompt skill level in
  let '(answer, log') := _make_api_request sys server self prompt log in
  match image_question_of sys answer with
  | Some question => (Ok question, log')
  | None =>
      (do fallback <- _generate_fallback_question skill level;
       let image_desc := "A professional workplace scene showing people demonstrating "
                           ++ skill ++ " in different ways." in
       do question <- subscript (fallback !! "question") "question";
       do question_text <- printed (str sys question);
       do expected_answer <- subscript (fallback !! "expected_answer") "expected_answer";
       Ok {[ "question_type" := JStr "Image";
             "question_content" := JStr ("Look at the image and answer: " ++ question_text);
             "expected_answer" := expected_answer;
             "image_description" := JStr image_desc;
             "media_path" := JNull ]},
       log')
  end.

Definition generate_question (sys : Sys.t) (server : endpoint) (self : Client.self)
    (skill level question_type : string) (log : list request)
  : result (gmap string value) * list request :=
  if String.eqb question_type "Text"
  then _generate_text_question sys server self skill level log
  else if String.eqb question_type "Audio"
  then _generate_audio_question sys server self skill level log
  else if String.eqb question_type "Image"
  then _generate_image_question sys server self skill level log
  else (_generate_fallback_question skill level, log).

End QuestionGenerator.

(** ** app.py: sessions and their score *)

Module App.

(** One entry of [active_sessions]. An evaluation is the pair
    [evaluate_answer] returns, read here for the truth of its first
    component. Times are instants of the clock. *)
Record session : Type := {
  skill : string;
  level : string;
  start_time : Z;
  end_time : option Z;
  questions : list (gmap string Json.value);
  current_question_index : Z;
  answers : list string;
  evaluations : list (bool * string);
  score : Z
}.

(** The process state [end_session] works on: the registry of sessions and
    the statements handed to [db.execute_query]. *)
Record state : Type := {
  active_sessions : gmap string session;
  db : list (string * list Json.value)
}.

Definition set_end_time (now : Z) (s : session) : session :=
  {| skill := skill s; level := level s; start_time := start_time s;
     end_time := Some now; questions := questions s;
     current_question_index := current_question_index s; answers := answers s;
     evaluations := evaluations s; score := score s |}.

Definition set_score (n : Z) (s : session) : session :=
  {| skill := skill s; level := level s; start_time := start_time s;
     end_time := end_time s; questions := questions s;
     current_question_index := current_question_index s; answers := answers s;
     evaluations := evaluations s; score := n |}.

(** [end_session(session_id)] at instant [now]: the score it returns and
    the state it leaves. The session is updated in place in the registry. *)
Definition end_session (now : Z) (session_id : string) (st : state) : Z * state :=
  match active_sessions st !! session_id with
  | Some found =>
      let session := set_end_time now found in
      let session :=
        if (0 <? length (evaluations session))%nat then
          let correct_answers :=
            fold_left (fun (total : Z) (eval_result : bool * string) =>
                         if fst eval_result then (total + 1)%Z else total)
                      (evaluations session) 0%Z in
          let total_questions := Z.of_nat (length (evaluations session)) in
          set_score (B64.trunc (B64.mul (B64.div_int correct_answers total_questions)
                                        (B64.of_int 100)))
                    session
        else session in
      (score session,
       {| active_sessions := <[session_id := session]> (active_sessions st);
          db := (db st ++ [("UPDATE sessions SET end_time = NOW(), score = %s WHERE session_id = %s",
                           [Json.JInt (score session); Json.JStr session_id])])%list |})
  | None => (0%Z, st)
  end.

(** [start_session(skill, level)] at instant [now], with [session_id] the
    identifier [generate_session_id] draws. *)
Definition start_session (session_id : string) (now : Z) (skill level : string)
    (st : state) : string * state :=
  (session_id,
   {| active_sessions :=
        <[session_id := {| skill := skill; level := level; start_time := now;
                           end_time := None; questions := [];
                           current_question_index := -1; answers := [];
                           evaluations := []; score := 0 |}]> (active_sessions st);
      db := (db st ++ [("INSERT INTO sessions (session_id, skill, level) VALUES (%s, %s, %s)",
                       [Json.JStr session_id; Json.JStr skill; Json.JStr level])])%list |}).

End App.

(** ** database/db_connector.py: the statements handed to the database *)

Module DatabaseConnector.

(** What [execute_query] returns: [None] (no connection, or an error that
    it logs), the rows of a [fetch], or the last row id. *)
Inductive outcome : Type :=
| NoResult
| Rows (rows : list (list (string * Json.value)))
| LastRowId (id : Z).

(** [execute_query(query, params, fetch)] is the database's. *)
Definition executor : Type := string -> list Json.value -> bool -> outcome.

Definition optional (x : option string) : Json.value :=
  match x with
  | Some s => Json.JStr s
  | None => Json.JNull
  end.

Definition save_question (execute_query : executor)
    (skill level question_type question_content expected_answer : string)
    (media_path : option string) : outcome :=
  let query := "
        INSERT INTO questions (skill, level, question_type, question_content, expected_answer, media_path)
        VALUES (%s, %s, %s, %s, %s, %s)
        " in
  let params := [Json.JStr skill; Json.JStr level; Json.JStr question_type;
                 Json.JStr question_content; Json.JStr expected_answer; optional media_path] in
  execute_query query params false.

(** [get_questions]: a filter that is [None] or empty is left out. *)
Definition get_questions (execute_query : executor)
    (skill level question_type : option string) (limit : Z) : outcome :=
  let given (x : option string) : bool :=
    match x with Some s => negb (String.eqb s "") | None => false end in
  let query := "SELECT * FROM questions WHERE 1=1" in
  let params : list Json.value := [] in
  let '(query, params) :=
    if given skill then (query ++ " AND skill = %s", (params ++ [optional skill])%list)
    else (query, params) in
  let '(query, params) :=
    if given level then (query ++ " AND level = %s", (params ++ [optional level])%list)
    else (query, params) in
  let '(query, params) :=
    if given question_type
    then (query ++ " AND question_type = %s", (params ++ [optional question_type])%list)
    else (query, params) in
  let query := query ++ " ORDER BY created_at DESC LIMIT %s" in
  let params := (params ++ [Json.JInt limit])%list in
  execute_query query params true.

(** [result[0] if result else None]. *)
Definition first_row (result : outcome) : option (list (string * Json.value)) :=
  match result with
  | Rows (row :: _) => Some row
  | _ => None
  end.

Definition get_question_by_id (execute_query : executor) (question_id : Z)
  : option (list (string * Json.value)) :=
  first_row (execute_query "SELECT * FROM questions WHERE id = %s" [Json.JInt question_id] true).

Definition save_answer (execute_query : executor) (question_id : Z)
    (answer_content answer_type : string) (media_path : option string) : outcome :=
  let query := "
        INSERT INTO answers (question_id, answer_content, answer_type, media_path)
        VALUES (%s, %s, %s, %s)
        " in
  execute_query query
    [Json.JInt question_id; Json.JStr answer_content; Json.JStr answer_type;
     optional media_path] false.

Definition get_answers_by_question (execute_query : executor) (question_id : Z) : outcome :=
  execute_query "SELECT * FROM answers WHERE question_id = %s ORDER BY created_at DESC"
    [Json.JInt question_id] true.

Definition save_evaluation (execute_query : executor) (answer_id : Z)
    (is_correct : Json.value) (explanation : string) : outcome :=
  let query := "
        INSERT INTO evaluations (answer_id, is_correct, explanation)
        VALUES (%s, %s, %s)
        " in
  execute_query query [Json.JInt answer_id; is_correct; Json.JStr explanation] false.

Definition get_evaluation_by_answer (execute_query : executor) (answer_id : Z)
  : option (list (string * Json.value)) :=
  first_row (execute_query "SELECT * FROM evaluations WHERE answer_id = %s"
               [Json.JInt answer_id] true).

End DatabaseConnector.

(** ** The notions the claims are stated with

    What the written specification says, worded a second time and apart from
    the code: the keyword set and the explanation as it describes them, the
    number of matching keywords, the request and the candidates of the
    completion client with what a candidate yields, and the static table of
    questions. Nothing here is used by the embedding of the code. *)

Module Spec.

(** "keep only tokens longer than 4 characters after stripping": the length
    test applied to the stripped token. *)
Definition keywords_as_specified (expected_answer : string) : gset string :=
  list_to_set
    (List.filter (fun word => (4 <? Py.len word)%nat)
       (map (Py.strip_chars Evaluator.punctuation) (Py.split (Py.lower expected_answer)))).

(** "reporting the integer percentage round(match_ratio*100)". *)
Definition explanation_as_specified (student_answer expected_answer : string) : string :=
  let match_ratio := Evaluator.match_percentage student_answer expected_answer in
  let X := Py.str_of_int (B64.py_round (B64.mul match_ratio (B64.of_int 100))) in
  if B64.leb B64.half match_ratio
  then "The answer covers approximately " ++ X ++ "% of the key concepts expected."
  else "The answer is missing several important concepts (only covers about "
         ++ X ++ "% of expected key points).".

(** "matches": the keywords of a set that occur in a text, counted as the
    size of a subset. *)
Definition matches (keywords : gset string) (text : string) : nat :=
  size (filter (fun keyword => Py.str_in keyword text = true) keywords).

(** "an expected-answer string containing only words of length at most 4",
    read on the text as the grader tokenizes it: lower-cased, then split at
    whitespace. *)
Definition only_short_words (expected_answer : string) : Prop :=
  Forall (fun word => (Py.len word <= 4)%nat) (Py.split (Py.lower expected_answer)).

(** The same, read on the text as it is written. *)
Definition only_short_words_as_written (expected_answer : string) : Prop :=
  Forall (fun word => (Py.len word <= 4)%nat) (Py.split expected_answer).

(** [s.isascii()]: every byte is below 128. *)
Fixpoint isascii (s : string) : bool :=
  match s with
  | "" => true
  | String c r => (N_of_ascii c <? 128)%N && isascii r
  end.

(** "primary model first, then a fixed list of alternates". *)
Definition candidates (s : Client.self) : list string :=
  [Client.model_name s; "sambanova-chat"; "sambanova-1.5-chat"; "llama-7b"; "llama2-7b"].

(** "a single synchronous HTTP POST with a bounded timeout (30s), payload
    containing the model id, the prompt, a max-output-token bound (512), and
    a temperature", with the bearer key in the headers. *)
Definition post (s : Client.self) (temperature : Q) (prompt model_name : string)
  : World.request :=
  {| World.url := Client.api_url s;
     World.headers := [("Authorization", "Bearer " ++ Client.api_key s);
                       ("Content-Type", "application/json")];
     World.json := {| World.model := model_name; World.prompt := prompt;
                      World.max_tokens := 512; World.temperature := temperature |};
     World.timeout := 30 |}.

(** Whether a list holds the text [s] as an item. *)
Definition holds (s : string) (items : list Json.value) : bool :=
  existsb (fun item => match item with Json.JStr t => String.eqb t s | _ => false end) items.

(** "extract a response string from one of several known response shapes (a
    top-level text field, or choices[0].text, or stringify the whole body as
    last resort)". [None] where there is no string to go on with: the field
    found is no string, "choices" is there without a first item that is an
    object, the body is no object and holds "text" or "choices", or it is a
    number, a boolean or null, or it cannot be printed. *)
Definition response_string (sys : Sys.t) (body : Json.value) : option string :=
  match body with
  | Json.JDict members =>
      match Json.dict_get "text" members with
      | Some (Json.JStr text) => Some text
      | Some _ => None
      | None =>
          match Json.dict_get "choices" members with
          | None => Json.str sys body
          | Some (Json.JList []) | Some (Json.JDict []) => Json.str sys body
          | Some (Json.JStr choices) =>
              if (0 <? Py.len choices)%nat then None else Json.str sys body
          | Some (Json.JList (Json.JDict choice :: _)) =>
              match Json.dict_get "text" choice with
              | Some (Json.JStr text) => Some text
              | Some _ => None
              | None => Some ""
              end
          | Some _ => None
          end
      end
  | Json.JList items =>
      if holds "text" items || holds "choices" items then None else Json.str sys body
  | Json.JStr s =>
      if Py.str_in "text" s || Py.str_in "choices" s then None else Some s
  | _ => None
  end.

(** What one candidate yields: on HTTP 200 with a body that decodes, the
    JSON parsed from what is extracted from the response string; nothing on
    any other status, on an exception, or when a step fails. *)
Definition yields (sys : Sys.t) (o : World.outcome) : option Json.value :=
  match o with
  | World.Response 200 _ (Some body) =>
      match response_string sys body with
      | Some content => Json.loads sys (Client._extract_json sys content)
      | None => None
      end
  | _ => None
  end.

(** What the endpoint answers to candidate [i] once the candidates before it
    have been posted, in their order, after [log]. *)
Definition answer_to (server : World.endpoint) (s : Client.self) (temperature : Q)
    (prompt : string) (log : list World.request) (i : nat) : option World.outcome :=
  match candidates s !! i with
  | Some model_name =>
      Some (server (log ++ map (post s temperature prompt) (take i (candidates s)))%list
                   (post s temperature prompt model_name))
  | None => None
  end.

(** The contract of [_make_api_request], for either class: the call returns
    what the first candidate that yields something yields, after posting to
    that candidate and to those before it, once each and in order; it
    raises, with its fixed message, when no candidate yields anything, after
    posting to every one. *)
Definition api_request_contract (temperature : Q) (failure : string)
    (run : Sys.t -> World.endpoint -> Client.self -> string -> list World.request
           -> World.result Json.value * list World.request) : Prop :=
  forall (sys : Sys.t) (server : World.endpoint) (s : Client.self) (prompt : string)
         (log : list World.request),
    let yield_of (i : nat) :=
      option_map (yields sys) (answer_to server s temperature prompt log i) in
    match run sys server s prompt log with
    | (World.Ok parsed, log') =>
        exists i : nat,
          (i < length (candidates s))%nat
          /\ (forall j : nat, (j < i)%nat -> yield_of j = Some None)
          /\ yield_of i = Some (Some parsed)
          /\ log' = (log ++ map (post s temperature prompt) (take (S i) (candidates s)))%list
    | (World.Raise message, log') =>
        (forall j : nat, (j < length (candidates s))%nat -> yield_of j = Some None)
        /\ log' = (log ++ map (post s temperature prompt) (candidates s))%list
        /\ message = failure
    end.

(** "it raises an exception if and only if every candidate fails". *)
Definition raises_iff_all_fail (temperature : Q)
    (run : Sys.t -> World.endpoint -> Client.self -> string -> list World.request
           -> World.result Json.value * list World.request) : Prop :=
  forall (sys : Sys.t) (server : World.endpoint) (s : Client.self) (prompt : string)
         (log : list World.request),
    (exists message : string, fst (run sys server s prompt log) = World.Raise message)
    <-> (forall j : nat,
           (j < length (candidates s))%nat ->
           option_map (yields sys) (answer_to server s temperature prompt log j) = Some None).

(** The prompt and the required keys of each supported question type. *)
Definition supported (question_type : string) : bool :=
  String.eqb question_type "Text" || String.eqb question_type "Audio"
  || String.eqb question_type "Image".

Definition prompt_for (question_type skill level : string) : string :=
  if String.eqb question_type "Text"
  then QuestionGenerator._create_text_question_prompt skill level
  else if String.eqb question_type "Audio"
  then QuestionGenerator.audio_prompt skill level
  else QuestionGenerator.image_prompt skill level.

Definition required_keys (question_type : string) : list string :=
  if String.eqb question_type "Text" then ["question"; "expected_answer"]
  else if String.eqb question_type "Audio"
  then ["audio_scenario"; "question"; "expected_answer"]
  else ["image_description"; "question"; "expected_answer"].

(** The keys whose values the generator prints into the question. *)
Definition printed_keys (question_type : string) : list string :=
  if String.eqb question_type "Text" then []
  else if String.eqb question_type "Audio" then ["audio_scenario"; "question"]
  else ["question"].

(** The completion call gave an object with every required key, whose
    values can be printed where the question prints them. *)
Definition usable (sys : Sys.t) (question_type : string) (answer : World.result Json.value)
  : bool :=
  match answer with
  | World.Ok (Json.JDict members) =>
      forallb (fun k => match Json.dict_get k members with
                        | Some _ => true
                        | None => false
                        end) (required_keys question_type)
      && forallb (fun k => match Json.dict_get k members with
                           | Some v => match Json.str sys v with
                                       | Some _ => true
                                       | None => false
                                       end
                           | None => false
                           end) (printed_keys question_type)
  | _ => false
  end.

(** The question content made of an answer of the completion call. *)
Definition content_from_api (sys : Sys.t) (question_type : string) (data : Json.value)
  : option Json.value :=
  if String.eqb question_type "Text" then Json.getitem data "question"
  else if String.eqb question_type "Audio" then
    match Json.getitem data "audio_scenario", Json.getitem data "question" with
    | Some scenario, Some question =>
        match Json.str sys scenario, Json.str sys question with
        | Some scenario_text, Some question_text =>
            Some (Json.JStr ("Audio Scenario: " ++ scenario_text
                               ++ String "010" (String "010" "")
                               ++ "Question: " ++ question_text))
        | _, _ => None
        end
    | _, _ => None
    end
  else
    match Json.getitem data "question" with
    | Some question =>
        match Json.str sys question with
        | Some question_text =>
            Some (Json.JStr ("Look at the image and answer the following question:"
                               ++ String "010" (String "010" "") ++ question_text))
        | None => None
        end
    | None => None
    end.

(** "a static fallback table keyed by Level (falling back further to
    Intermediate if the level key is absent) that contains a fixed
    question/expected-answer pair per level": the question and the expected
    answer of a level. *)
Definition fallback_texts (skill level : string) : string * string :=
  if String.eqb level "Beginner" then
    ("Explain the core concepts of " ++ skill ++ " at a beginner level. What are the fundamental ideas someone new to " ++ skill ++ " should understand?",
     "A good answer should cover the basic principles of " ++ skill ++ ", define key terminology, and explain foundational concepts without advanced jargon. The answer should be accessible to someone with no prior knowledge of " ++ skill ++ ".")
  else if String.eqb level "Advanced" then
    ("Analyze how " ++ skill ++ " has evolved over time and discuss current cutting-edge developments. What advanced techniques distinguish expert practitioners in this field?",
     "A comprehensive answer should demonstrate deep knowledge of " ++ skill ++ ", including its historical development, current state-of-the-art techniques, ability to critically evaluate different approaches, and awareness of ongoing research or innovations in the field.")
  else
    ("Describe the practical applications of " ++ skill ++ " at an intermediate level. How would you implement " ++ skill ++ " techniques in real-world scenarios?",
     "A good answer should demonstrate clear understanding of " ++ skill ++ " concepts, explain how to apply them in practice, include examples of common use cases, and show awareness of limitations or challenges when implementing " ++ skill ++ ".").

Definition fallback_entry (skill level : string) : gmap string Json.value :=
  {[ "question" := Json.JStr (fst (fallback_texts skill level));
     "expected_answer" := Json.JStr (snd (fallback_texts skill level)) ]}.

(** The question content made of the table's question. *)
Definition content_from_table (question_type skill table_question : string) : string :=
  if String.eqb question_type "Text" then table_question
  else if String.eqb question_type "Audio" then
    "Audio Scenario: Imagine you are listening to a conversation about " ++ skill
      ++ ". The speakers are discussing key aspects and challenges."
      ++ String "010" (String "010" "") ++ "Question: " ++ table_question
  else "Look at the image and answer: " ++ table_question.

(** What a generator returns when the completion call was usable, and what
    it returns when it fell back on the static table. *)
Definition from_api (sys : Sys.t) (question_type : string)
    (answer : World.result Json.value) (question : gmap string Json.value) : Prop :=
  exists data,
    answer = World.Ok data
    /\ question !! "expected_answer" = Json.getitem data "expected_answer"
    /\ is_Some (question !! "expected_answer")
    /\ question !! "question_content" = content_from_api sys question_type data
    /\ is_Some (question !! "question_content").

Definition from_table (question_type skill level : string)
    (question : gmap string Json.value) : Prop :=
  question !! "question_content"
  = Some (Json.JStr (content_from_table question_type skill
                       (fst (fallback_texts skill level))))
  /\ question !! "expected_answer" = Some (Json.JStr (snd (fallback_texts skill level)))
  /\ content_from_table question_type skill (fst (fallback_texts skill level)) <> ""
  /\ snd (fallback_texts skill level) <> "".

End Spec.

(** ** Endpoints and texts the examples run on *)

Module Scenario.

Import World.

(** The interpreter as it starts: integers of up to 4300 digits, and room
    for 900 nested containers. *)
Definition sys : Sys.t :=
  {| Sys.int_max_str_digits := 4300; Sys.decoder_depth := 900; Sys.repr_depth := 900 |}.

Definition escaped (s : string) : string := "\" ++ Py.dq ++ s ++ "\" ++ Py.dq.

(** The body [{"text": "{\"question\": \"\", \"expected_answer\": \"\"}"}]. *)
Definition empty_question_body : string :=
  "{" ++ Py.quoted "text" ++ ": " ++ Py.dq
    ++ "{" ++ escaped "question" ++ ": " ++ escaped "" ++ ", "
    ++ escaped "expected_answer" ++ ": " ++ escaped "" ++ "}"
    ++ Py.dq ++ "}".

(** Every model answers 200 with that body. *)
Definition server_empty_question : endpoint :=
  fun _ _ => respond sys 200 empty_question_body.

(** Every post raises. *)
Definition server_down : endpoint := fun _ _ => RequestException.

(** The body [{"text": "{\"is_correct\": true, \"explanation\": \"ok\"}"}]. *)
Definition verdict_body : string :=
  "{" ++ Py.quoted "text" ++ ": " ++ Py.dq
    ++ "{" ++ escaped "is_correct" ++ ": true, "
    ++ escaped "explanation" ++ ": " ++ escaped "ok" ++ "}"
    ++ Py.dq ++ "}".

(** The primary model is unknown (404, "Model not found"), the first
    alternate answers 200 with a verdict, every other model fails. *)
Definition server_primary_missing : endpoint :=
  fun _ sent =>
    if String.eqb (model (json sent)) Config.SAMBANOVA_MODEL_NAME
    then respond sys 404 "Model not found"
    else if String.eqb (model (json sent)) "sambanova-chat"
    then respond sys 200 verdict_body
    else respond sys 500 "Internal Server Error".

(** The body [{"text": "5"}]: the text of the model is the JSON number 5.
    Every model answers 200 with it. *)
Definition number_body : string := "{" ++ Py.quoted "text" ++ ": " ++ Py.quoted "5" ++ "}".

Definition server_number : endpoint := fun _ _ => respond sys 200 number_body.

(** A body that is all ASCII and whose explanation names the character
    U+2019 by its escape: the text of the model is
    [{"is_correct": true, "explanation": "It\u2019s right"}]. *)
Definition apostrophe_body : string :=
  "{" ++ Py.quoted "text" ++ ": " ++ Py.dq
    ++ "{" ++ escaped "is_correct" ++ ": true, "
    ++ escaped "explanation" ++ ": " ++ escaped "It\u2019s right" ++ "}"
    ++ Py.dq ++ "}".

Definition server_apostrophe : endpoint := fun _ _ => respond sys 200 apostrophe_body.

Definition self : Client.self := Client.__init__ "key".

(** The texts [{"a": 1}] and [{"a":"```"}]. *)
Definition object_text : string := "{" ++ Py.quoted "a" ++ ": 1}".

Definition object_with_fence_text : string :=
  "{" ++ Py.quoted "a" ++ ":" ++ Py.quoted "```" ++ "}".

(** Four times the capital I with a dot above (U+0130), whose lower case is
    two characters each. *)
Definition dotted_capitals : string := Py.of_codes [304; 304; 304; 304]%N.

(** A session with three evaluations, correct, wrong, correct. *)
Definition session_of_three : App.session :=
  {| App.skill := "Communication"; App.level := "Beginner";
     App.start_time := 0; App.end_time := None; App.questions := [];
     App.current_question_index := -1; App.answers := [];
     App.evaluations := [(true, "first"); (false, "second"); (true, "third")];
     App.score := 0 |}.

Definition state_of_three : App.state :=
  {| App.active_sessions := {[ "session-1" := session_of_three ]}; App.db := [] |}.

Definition no_files : Evaluator.media :=
  {| Evaluator.transcribe_with_sambanova := fun _ => None;
     Evaluator.process_image_for_ai := fun _ => None |}.

End Scenario.

(** ** The notions the further properties are stated with *)

Module Notions.

Import World.

(** [sub] occurs in [s]: some text before it, some text after it. *)
Definition occurs_in (sub s : string) : Prop :=
  exists before after : string, s = before ++ sub ++ after.

(** [s.count(sub)] for a non-empty [sub]: the occurrences that do not
    overlap, counted from the left. *)
Definition count (sub s : string) : nat := length (Py.split_sep sub s) - 1.

(** [c.lower()] for an ASCII character, and a text changed character by
    character. *)
Definition lower_ascii (c : ascii) : ascii :=
  let n := N_of_ascii c in
  if ((65 <=? n) && (n <=? 90))%N then ascii_of_N (n + 32) else c.

Fixpoint map_ascii (f : ascii -> ascii) (s : string) : string :=
  match s with
  | "" => ""
  | String c r => String (f c) (map_ascii f r)
  end.

(** The loop of the grader run over a listing of the keywords, in the order
    of the listing. *)
Definition counted (listing : list string) (student_text : string) : Z :=
  fold_left (fun matching_keywords keyword =>
               if Py.str_in keyword student_text
               then (matching_keywords + 1)%Z else matching_keywords)
            listing 0%Z.

(** The grader run with the keywords met in the order of a listing: the
    loop, the ratio, the verdict and the explanation. *)
Definition evaluation_over (listing : list string) (student_text : string) : bool * string :=
  let matching_keywords := counted listing student_text in
  let match_percentage :=
    match listing with
    | [] => B64.zero
    | _ => B64.div_int matching_keywords (Z.of_nat (length listing))
    end in
  let is_correct := B64.leb B64.half match_percentage in
  let explanation :=
    if is_correct
    then "The answer covers approximately "
           ++ Py.str_of_int (B64.trunc (B64.mul match_percentage (B64.of_int 100)))
           ++ "% of the key concepts expected."
    else "The answer is missing several important concepts (only covers about "
           ++ Py.str_of_int (B64.trunc (B64.mul match_percentage (B64.of_int 100)))
           ++ "% of expected key points)."
  in
  (is_correct, explanation).

(** The completion call gave an object holding a verdict and an
    explanation. *)
Definition verdict_usable (answer : result Json.value) : bool :=
  match answer with
  | Ok (Json.JDict members) =>
      match Json.dict_get "is_correct" members, Json.dict_get "explanation" members with
      | Some _, Some _ => true
      | _, _ => false
      end
  | _ => false
  end.

(** The prompt [evaluate_answer] builds once the question and the expected
    answer are printed. *)
Definition evaluation_prompt (files : Evaluator.media) (question_text expected_text : string)
    (student_answer : option string) (skill level question_type answer_type : string)
    (question_media answer_media : option string) : string :=
  Evaluator._create_evaluation_prompt
    (Evaluator._process_question files question_text question_type question_media)
    expected_text
    (Evaluator._process_answer files student_answer answer_type answer_media)
    skill level question_type answer_type.

(** What the completion call of [evaluate_answer] gives, when the question
    and the expected answer can be printed. *)
Definition api_answer (sys : Sys.t) (server : endpoint) (files : Evaluator.media)
    (self : Client.self) (question expected_answer : Json.value)
    (student_answer : option string) (skill level question_type answer_type : string)
    (question_media answer_media : option string) (log : list request)
  : option (result Json.value) :=
  match Json.str sys question, Json.str sys expected_answer with
  | Some question_text, Some expected_text =>
      Some (fst (Evaluator._make_api_request sys server self
                   (evaluation_prompt files question_text expected_text student_answer
                      skill level question_type answer_type question_media answer_media)
                   log))
  | _, _ => None
  end.

(** What a generator hands back, for the outcome of its completion call:
    the question made of the answer when it is usable, the one made of the
    static table when it is not, and the log of the call. *)
Definition generated (sys : Sys.t) (question_type skill level : string)
    (call : result Json.value * list request)
    (returned : result (gmap string Json.value) * list request) : Prop :=
  exists question : gmap string Json.value,
    returned = (Ok question, snd call)
    /\ if Spec.usable sys question_type (fst call)
       then Spec.from_api sys question_type (fst call) question
       else Spec.from_table question_type skill level question.

Definition is_text (v : Json.value) : bool :=
  match v with
  | Json.JStr _ => true
  | _ => false
  end.

(** An option that is [None] or the empty text: what Python takes for
    false. *)
Definition missing (x : option string) : Prop := x = None \/ x = Some "".

(** The body [{"text": "{\"is_correct\": \"TRUE\", \"explanation\": \"ok\"}"}]:
    a verdict given as a string. *)
Definition string_verdict_body : string :=
  "{" ++ Py.quoted "text" ++ ": " ++ Py.dq
    ++ "{" ++ Scenario.escaped "is_correct" ++ ": " ++ Scenario.escaped "TRUE" ++ ", "
    ++ Scenario.escaped "explanation" ++ ": " ++ Scenario.escaped "ok" ++ "}"
    ++ Py.dq ++ "}".

Definition server_string_verdict : endpoint :=
  fun _ _ => respond Scenario.sys 200 string_verdict_body.

(** A registry with one finished session and one that has no evaluation. *)
Definition session_without_evaluations : App.session :=
  {| App.skill := "Leadership"; App.level := "Advanced";
     App.start_time := 5; App.end_time := None; App.questions := [];
     App.current_question_index := -1; App.answers := [];
     App.evaluations := []; App.score := 0 |}.

Definition state_of_two : App.state :=
  {| App.active_sessions :=
       {[ "session-1" := Scenario.session_of_three;
          "session-2" := session_without_evaluations ]};
     App.db := [] |}.

(** No candidate of the endpoint ever yields JSON: every post raises, has a
    status other than 200, or a 200 response from which no JSON value is
    extracted and parsed. *)
Definition never_usable (sys : Sys.t) (server : endpoint) : Prop :=
  forall (log : list request) (sent : request), Spec.yields sys (server log sent) = None.

(** The requests of one call that went through every model. *)
Definition requests_to_all (self : Client.self) (temperature : Q) (prompt : string)
  : list request :=
  map (Spec.post self temperature prompt) (Spec.candidates self).

(** The verdict [evaluate_answer] makes of the value under "is_correct". *)
Definition as_verdict (is_correct : Json.value) : Json.value :=
  match is_correct with
  | Json.JStr s => Json.JBool (String.eqb (Py.lower s) "true")
  | _ => is_correct
  end.

(** A statement with as many [%s] placeholders as parameters. *)
Definition binds_every_parameter (query : string) (params : list Json.value) : Prop :=
  count "%s" query = length params.

(** The keys of the dictionary [generate_question] returns, by question
    type. *)
Definition question_keys (question_type : string) : gset string :=
  if String.eqb question_type "Text" || String.eqb question_type "Audio"
  then {[ "question_type"; "question_content"; "expected_answer"; "media_path" ]}
  else if String.eqb question_type "Image"
  then {[ "question_type"; "question_content"; "expected_answer"; "image_description";
          "media_path" ]}
  else {[ "question"; "expected_answer" ]}.

End Notions.

(** * Properties *)

(** ** Rounding to binary64 keeps integer bounds *)

Module B64Facts.

Import B64.
Local Open Scope Z_scope.

Lemma rne_upper (num den B : Z) :
  0 < den -> num <= B * den -> rne num den <= B.
Proof.
  intros Hden Hle. unfold rne.
  pose proof (Z.div_mod num den ltac:(lia)) as Hdm.
  pose proof (Z.mod_pos_bound num den Hden) as Hmod.
  assert (Hq : num / den <= B).
  { apply Z.div_le_upper_bound; lia. }
  destruct (Z.eq_dec (num / den) B) as [Heq | Hne].
  - assert (Hr : num mod den = 0) by nia.
    rewrite Hr. replace (2 * 0 ?= den) with Lt by (symmetry; apply Z.compare_lt_iff; lia).
    lia.
  - destruct (2 * (num mod den) ?= den); [destruct (Z.even _) | |]; lia.
Qed.

Lemma rne_lower (num den B : Z) :
  0 < den -> B * den <= num -> B <= rne num den.
Proof.
  intros Hden Hle. unfold rne.
  assert (Hq : B <= num / den) by (apply Z.div_le_lower_bound; lia).
  destruct (2 * (num mod den) ?= den); [destruct (Z.even _) | |]; lia.
Qed.

Lemma floor_log2_below (p d n : Z) :
  0 < p -> 0 < d -> 0 <= n -> p < 2 ^ n * d -> floor_log2 p d < n.
Proof.
  intros Hp Hd Hn Hlt. unfold floor_log2.
  set (k := Z.log2 p - Z.log2 d).
  assert (Hk : k <= n).
  { pose proof (Z.log2_nonneg d) as Hld.
    assert (Hd2 : d < 2 ^ (Z.log2 d + 1)).
    { replace (Z.log2 d + 1) with (Z.succ (Z.log2 d)) by lia.
      apply Z.log2_spec; lia. }
    assert (Hp2 : p < 2 ^ (n + Z.log2 d + 1)).
    { replace (n + Z.log2 d + 1) with (n + (Z.log2 d + 1)) by lia.
      rewrite Z.pow_add_r by lia.
      assert (0 < 2 ^ n) by (apply Z.pow_pos_nonneg; lia). nia. }
    apply Z.log2_lt_pow2 in Hp2; [| lia]. unfold k. lia. }
  destruct (0 <=? k) eqn:Hk0.
  - apply Z.leb_le in Hk0.
    destruct (d * 2 ^ k <=? p) eqn:Htest; [| lia].
    apply Z.leb_le in Htest.
    destruct (Z_lt_le_dec k n) as [| Hge]; [lia |].
    assert (k = n) by lia. subst k. rewrite H in Htest. nia.
  - apply Z.leb_gt in Hk0. destruct (d <=? p * 2 ^ (- k)); lia.
Qed.

Lemma round_expo_nonpos (p d B : Z) :
  0 < p -> 0 < d -> B < 2 ^ 53 -> p <= B * d -> expo (round p d) <= 0.
Proof.
  intros Hp Hd HB Hle. unfold round.
  destruct (p =? 0) eqn:Hp0; [simpl; lia |]. simpl.
  assert (floor_log2 p d < 53).
  { apply floor_log2_below; try lia. nia. }
  lia.
Qed.

(** A quotient bounded by an integer below [2 ^ 53] rounds to a double
    within the same bound. *)
Lemma round_bounds (p d B : Z) :
  0 <= p -> 0 < d -> 0 <= B < 2 ^ 53 -> p <= B * d ->
  (0 <= to_Q (round p d) <= inject_Z B)%Q.
Proof.
  intros Hp Hd HB Hle.
  destruct (Z.eq_dec p 0) as [-> | Hp0].
  { unfold round. simpl. unfold to_Q, Qle. simpl. lia. }
  pose proof (round_expo_nonpos p d B ltac:(lia) Hd ltac:(lia) Hle) as He.
  unfold round in *. destruct (p =? 0) eqn:E; [apply Z.eqb_eq in E; lia |].
  simpl in He. set (e := Z.max (floor_log2 p d - 52) (-1074)) in *.
  unfold to_Q. simpl.
  destruct (0 <=? e) eqn:He0.
  - apply Z.leb_le in He0. assert (e = 0) by lia.
    replace (2 ^ e) with 1 by (rewrite H; reflexivity).
    pose proof (rne_upper p (d * 1) B ltac:(lia) ltac:(lia)).
    pose proof (rne_lower p (d * 1) 0 ltac:(lia) ltac:(lia)).
    unfold Qle. simpl. lia.
  - apply Z.leb_gt in He0.
    assert (Hpow : 0 < 2 ^ (- e)) by (apply Z.pow_pos_nonneg; lia).
    pose proof (rne_upper (p * 2 ^ (- e)) d (B * 2 ^ (- e)) Hd ltac:(nia)).
    pose proof (rne_lower (p * 2 ^ (- e)) d 0 Hd ltac:(nia)).
    unfold Qle. simpl. rewrite Z2Pos.id by lia. lia.
Qed.

Lemma round_Q_bounds (q : Q) (B : Z) :
  0 <= B < 2 ^ 53 -> (0 <= q <= inject_Z B)%Q ->
  (0 <= to_Q (round_Q q) <= inject_Z B)%Q.
Proof.
  intros HB [H0 H1]. unfold round_Q. destruct q as [n d].
  unfold Qle in H0, H1. simpl in *.
  apply round_bounds; lia.
Qed.

Lemma to_Q_of_int_100 : to_Q (of_int 100) == inject_Z 100.
Proof. vm_compute. reflexivity. Qed.

Lemma mul_100_bounds (x : t) :
  (0 <= to_Q x <= 1)%Q -> (0 <= to_Q (mul x (of_int 100)) <= inject_Z 100)%Q.
Proof.
  intros [H0 H1]. unfold mul. apply round_Q_bounds; [lia |].
  rewrite to_Q_of_int_100. split.
  - apply Qmult_le_0_compat; [exact H0 | discriminate].
  - apply Qle_trans with (1 * inject_Z 100)%Q.
    + apply Qmult_le_compat_r; [exact H1 | discriminate].
    + discriminate.
Qed.

Lemma trunc_bounds (x : t) (B : Z) :
  (0 <= to_Q x <= inject_Z B)%Q -> 0 <= trunc x <= B.
Proof.
  intros [H0 H1]. unfold trunc. destruct (to_Q x) as [n d].
  unfold Qle in H0, H1. simpl in *.
  rewrite Z.quot_div_nonneg by lia. split.
  - apply Z.div_pos; lia.
  - apply Z.div_le_upper_bound; lia.
Qed.

(** [int(x)] is the integer part of a non-negative [x]. *)
Lemma trunc_floor (x : t) :
  (0 <= to_Q x)%Q ->
  (inject_Z (trunc x) <= to_Q x)%Q /\ (to_Q x < inject_Z (trunc x + 1))%Q.
Proof.
  intros H0. unfold trunc. destruct (to_Q x) as [n d].
  unfold Qle, Qlt in *. simpl in *.
  rewrite Z.quot_div_nonneg by lia.
  pose proof (Z.div_mod n (Z.pos d) ltac:(lia)).
  pose proof (Z.mod_pos_bound n (Z.pos d) ltac:(lia)).
  split; nia.
Qed.

Lemma div_int_bounds (a b : Z) :
  0 <= a <= b -> 0 < b -> (0 <= to_Q (div_int a b) <= 1)%Q.
Proof.
  intros Hab Hb. unfold div_int.
  apply (round_bounds a b 1); lia.
Qed.

(** Up to 64 keywords, every ratio and every percentage is the double the
    Standard Library's IEEE 754 operations give. *)
Example agrees_with_spec_upto_64 :
  forallb (fun n => forallb (fun m => agrees_with_spec m n) (upto (Z.to_nat n)))
          (map (fun k => k + 1) (upto 63)) = true.
Proof. vm_compute. reflexivity. Qed.

(** Two products that truncation and the exact quotient tell apart:
    [int(29 / 50 * 100)] is 57, and [int(2 / 3 * 100)] is 66. *)
Example trunc_29_50 : trunc (mul (div_int 29 50) (of_int 100)) = 57.
Proof. vm_compute. reflexivity. Qed.

Example trunc_2_3 : trunc (mul (div_int 2 3) (of_int 100)) = 66.
Proof. vm_compute. reflexivity. Qed.

End B64Facts.

(** ** The comparison with [0.5] is the exact one *)

Module B64Half.

Import B64 B64Facts.
Local Open Scope Z_scope.

Lemma floor_log2_small (p d : Z) :
  0 < p -> 2 * p < d -> floor_log2 p d <= -2.
Proof.
  intros Hp Hlt. unfold floor_log2.
  assert (Hk : Z.log2 p - Z.log2 d <= -1).
  { pose proof (Z.log2_double p Hp) as Hdb.
    pose proof (Z.log2_le_mono (2 * p) d ltac:(lia)). lia. }
  set (k := Z.log2 p - Z.log2 d) in *.
  destruct (0 <=? k) eqn:Hk0; [apply Z.leb_le in Hk0; lia |].
  destruct (Z.eq_dec k (-1)) as [Hk1 | Hk1].
  - rewrite Hk1. change (2 ^ (- (-1))) with 2.
    destruct (d <=? p * 2) eqn:Ht; [apply Z.leb_le in Ht; lia | lia].
  - destruct (d <=? p * 2 ^ (- k)); lia.
Qed.

Lemma rne_below (num den B : Z) :
  0 < den -> den < 2 * B -> num <= (den - 1) * B -> rne num den <= B - 1.
Proof.
  intros Hden HB Hnum. unfold rne.
  pose proof (Z.div_mod num den ltac:(lia)) as Hdm.
  pose proof (Z.mod_pos_bound num den Hden) as Hmod.
  assert (Hq : num / den < B) by (apply Z.div_lt_upper_bound; nia).
  destruct (Z.eq_dec (num / den) (B - 1)) as [Heq | Hne].
  - assert (Hr : 2 * (num mod den) < den) by nia.
    apply Z.compare_lt_iff in Hr. rewrite Hr. lia.
  - destruct (2 * (num mod den) ?= den); [destruct (Z.even _) | |]; lia.
Qed.

(** For fewer than [2 ^ 53] keywords, [m / n >= 0.5] in binary64 exactly
    when [2 * m >= n]. *)
Lemma leb_half_div_int (m n : Z) :
  0 <= m <= n -> 0 < n < 2 ^ 53 ->
  leb half (div_int m n) = true <-> n <= 2 * m.
Proof.
  intros Hm Hn. unfold leb. rewrite Qle_bool_iff.
  change (to_Q half) with (1 # 2)%Q.
  unfold div_int, round.
  destruct (m =? 0) eqn:Hm0.
  { apply Z.eqb_eq in Hm0. subst m. unfold to_Q, Qle. simpl. lia. }
  apply Z.eqb_neq in Hm0.
  assert (Hfl : floor_log2 m n < 1).
  { apply floor_log2_below; lia. }
  set (e := Z.max (floor_log2 m n - 52) (-1074)) in *.
  assert (He : -1074 <= e <= -52) by lia.
  unfold to_Q. simpl.
  destruct (0 <=? e) eqn:He0; [apply Z.leb_le in He0; lia |].
  assert (Hpow : 2 ^ (- e) = 2 * 2 ^ (- e - 1)).
  { replace (- e) with (Z.succ (- e - 1)) at 1 by lia.
    apply Z.pow_succ_r. lia. }
  assert (HB : 0 < 2 ^ (- e - 1)) by (apply Z.pow_pos_nonneg; lia).
  unfold Qle. simpl. rewrite Z2Pos.id by lia.
  set (B := 2 ^ (- e - 1)) in *. rewrite Hpow.
  split.
  - intros HM.
    destruct (Z_le_gt_dec n (2 * m)) as [| Hgt]; [assumption | exfalso].
    assert (Hsmall : floor_log2 m n <= -2) by (apply floor_log2_small; lia).
    assert (He54 : e <= -54) by lia.
    assert (H53 : 2 ^ 53 <= B).
    { unfold B. apply Z.pow_le_mono_r; lia. }
    pose proof (rne_below (m * (2 * B)) n B ltac:(lia) ltac:(lia) ltac:(nia)).
    lia.
  - intros Hle.
    pose proof (rne_lower (m * (2 * B)) n B ltac:(lia) ltac:(nia)).
    lia.
Qed.

End B64Half.

Module B64More.

Import B64 B64Facts.
Local Open Scope Z_scope.

(** A quotient at least an integer rounds to a double at least that
    integer. *)
Lemma round_lower (p d B B' : Z) :
  0 < p -> 0 < d -> 0 <= B -> B' < 2 ^ 53 -> B * d <= p -> p <= B' * d ->
  (inject_Z B <= to_Q (round p d))%Q.
Proof.
  intros Hp Hd HB HB' Hlow Hup.
  pose proof (round_expo_nonpos p d B' Hp Hd HB' Hup) as He.
  unfold round in *. destruct (p =? 0) eqn:E; [apply Z.eqb_eq in E; lia |].
  simpl in He. set (e := Z.max (floor_log2 p d - 52) (-1074)) in *.
  unfold to_Q. simpl.
  destruct (0 <=? e) eqn:He0.
  - apply Z.leb_le in He0. assert (e = 0) by lia.
    replace (2 ^ e) with 1 by (rewrite H; reflexivity).
    pose proof (rne_lower p (d * 1) B ltac:(lia) ltac:(lia)).
    unfold Qle. simpl. lia.
  - apply Z.leb_gt in He0.
    assert (Hpow : 0 < 2 ^ (- e)) by (apply Z.pow_pos_nonneg; lia).
    pose proof (rne_lower (p * 2 ^ (- e)) d (B * 2 ^ (- e)) Hd ltac:(nia)).
    unfold Qle. simpl. rewrite Z2Pos.id by lia. lia.
Qed.

Lemma round_Q_lower (q : Q) (B B' : Z) :
  0 < B -> B' < 2 ^ 53 -> (inject_Z B <= q <= inject_Z B')%Q ->
  (inject_Z B <= to_Q (round_Q q))%Q.
Proof.
  intros HB HB' [H0 H1]. unfold round_Q. destruct q as [n d].
  unfold Qle in H0, H1. simpl in *.
  apply (round_lower n (Z.pos d) B B'); lia.
Qed.

(** [n / n] is [1.0], [1.0 * 100] is [100.0], and [int(100.0)] is 100. *)
Lemma div_int_self (n : Z) : 0 < n -> to_Q (div_int n n) == 1.
Proof.
  intros Hn. apply Qle_antisym.
  - apply div_int_bounds; lia.
  - unfold div_int. apply (round_lower n n 1 1); lia.
Qed.

Lemma mul_100_of_one (x : t) : to_Q x == 1 -> to_Q (mul x (of_int 100)) == inject_Z 100.
Proof.
  intros Hx.
  assert (Hq : to_Q x * to_Q (of_int 100) == inject_Z 100).
  { rewrite Hx, to_Q_of_int_100. ring. }
  unfold mul. apply Qle_antisym.
  - apply round_Q_bounds; [lia |]. rewrite Hq. split; [discriminate | apply Qle_refl].
  - apply (round_Q_lower _ 100 100); [lia | lia |]. rewrite Hq.
    split; apply Qle_refl.
Qed.

Lemma trunc_of_int (x : t) (n : Z) : 0 <= n -> to_Q x == inject_Z n -> trunc x = n.
Proof.
  intros Hn Hx.
  assert (H0 : (0 <= to_Q x)%Q) by (rewrite Hx; unfold Qle; simpl; lia).
  destruct (trunc_floor x H0) as [Hlow Hup].
  rewrite Hx in Hlow, Hup. unfold Qle, Qlt in Hlow, Hup. simpl in Hlow, Hup. lia.
Qed.

Lemma percent_of_one (x : t) : to_Q x == 1 -> trunc (mul x (of_int 100)) = 100.
Proof. intros Hx. apply trunc_of_int; [lia |]. apply mul_100_of_one, Hx. Qed.

Lemma leb_half_of_one (x : t) : to_Q x == 1 -> leb half x = true.
Proof.
  intros Hx. unfold leb. apply Qle_bool_iff. rewrite Hx. discriminate.
Qed.

End B64More.

(** ** A ratio below one never shows as 100 *)

Module B64Strict.

Import B64 B64Facts.

Local Open Scope Z_scope.

(** A quotient below [B - 1/2] rounds to an integer below [B]. *)
Lemma rne_below_half (num den B : Z) :
  0 < den -> 2 * num < (2 * B - 1) * den -> rne num den <= B - 1.
Proof.
  intros Hden Hlt. unfold rne.
  pose proof (Z.div_mod num den ltac:(lia)) as Hdm.
  pose proof (Z.mod_pos_bound num den Hden) as Hmod.
  assert (Hq : num / den <= B - 1).
  { apply Z.lt_succ_r. replace (Z.succ (B - 1)) with B by lia.
    apply Z.div_lt_upper_bound; [lia |]. nia. }
  destruct (Z.eq_dec (num / den) (B - 1)) as [Heq | Hne].
  - assert (Hr : 2 * (num mod den) < den) by nia.
    replace (2 * (num mod den) ?= den) with Lt by (symmetry; apply Z.compare_lt_iff; lia).
    lia.
  - destruct (2 * (num mod den) ?= den); [destruct (Z.even _) | |]; lia.
Qed.

(** A proper fraction of fewer than [2 ^ 53] parts rounds to a double that
    is at most the last one below 1. *)
Lemma round_below_one (c n : Z) :
  0 < c < n -> n <= 2 ^ 53 ->
  (to_Q (round c n) <= (2 ^ 53 - 1) # (2 ^ 53))%Q.
Proof.
  intros Hc Hn. unfold round.
  destruct (c =? 0) eqn:E; [apply Z.eqb_eq in E; lia |].
  assert (Hfl : floor_log2 c n < 0).
  { apply floor_log2_below; try lia. }
  set (e := Z.max (floor_log2 c n - 52) (-1074)).
  assert (He : -1074 <= e <= -53) by lia.
  unfold to_Q. cbn [expo mant].
  destruct (0 <=? e) eqn:He0; [apply Z.leb_le in He0; lia |].
  set (F := 2 ^ (- e - 53)).
  assert (HF : 0 < F) by (apply Z.pow_pos_nonneg; lia).
  assert (HE : 2 ^ (- e) = 2 ^ 53 * F).
  { unfold F. rewrite <- Z.pow_add_r by lia. f_equal. lia. }
  assert (Hlin : c * 2 ^ 53 <= (2 ^ 53 - 1) * n) by lia.
  pose proof (rne_upper (c * 2 ^ (- e)) n ((2 ^ 53 - 1) * F) ltac:(lia)) as Hup.
  rewrite HE in *.
  assert (Hmant : rne (c * (2 ^ 53 * F)) n <= (2 ^ 53 - 1) * F).
  { apply Hup. nia. }
  unfold Qle. cbn [Qnum Qden]. rewrite Z2Pos.id by lia.
  change (Z.pos (2 ^ 53)) with (2 ^ 53). nia.
Qed.

(** Such a double times 100 is a double below 100. *)
Lemma round_below_100 (p d : Z) :
  0 <= p -> 0 < d -> p * 2 ^ 53 <= 100 * (2 ^ 53 - 1) * d ->
  (to_Q (round p d) < inject_Z 100)%Q.
Proof.
  intros Hp Hd Hle. unfold round.
  destruct (p =? 0) eqn:E; [vm_compute; reflexivity |].
  apply Z.eqb_neq in E.
  assert (Hfl : floor_log2 p d < 7).
  { apply floor_log2_below; try lia. }
  set (e := Z.max (floor_log2 p d - 52) (-1074)).
  assert (He : -1074 <= e <= -46) by lia.
  unfold to_Q. cbn [expo mant].
  destruct (0 <=? e) eqn:He0; [apply Z.leb_le in He0; lia |].
  set (F := 2 ^ (- e - 46)).
  assert (HF : 0 < F) by (apply Z.pow_pos_nonneg; lia).
  assert (HE : 2 ^ (- e) = 2 ^ 46 * F).
  { unfold F. rewrite <- Z.pow_add_r by lia. f_equal. lia. }
  rewrite HE.
  assert (Hmant : rne (p * (2 ^ 46 * F)) d <= 100 * (2 ^ 46 * F) - 1).
  { apply rne_below_half; [exact Hd |].
    assert (H1 : p * F * 2 ^ 53 <= 100 * (2 ^ 53 - 1) * (d * F)) by nia.
    assert (H2 : 0 < d * F) by nia.
    set (A := p * F) in *. set (D := d * F) in *.
    replace (p * (2 ^ 46 * F)) with (2 ^ 46 * A) by (unfold A; ring).
    replace ((2 * (100 * (2 ^ 46 * F)) - 1) * d) with (200 * 2 ^ 46 * D - d)
      by (unfold D; ring).
    assert (H3 : d <= D) by (unfold D; nia).
    lia. }
  unfold Qlt. cbn [Qnum Qden inject_Z]. rewrite Z2Pos.id by lia. lia.
Qed.

Lemma percent_below_100 (c n : Z) :
  0 <= c < n -> n <= 2 ^ 53 ->
  trunc (mul (div_int c n) (of_int 100)) <= 99.
Proof.
  intros Hc Hn.
  destruct (Z.eq_dec c 0) as [-> | Hc0]; [vm_compute; discriminate |].
  pose proof (round_below_one c n ltac:(lia) Hn) as Hone.
  pose proof (div_int_bounds c n ltac:(lia) ltac:(lia)) as [Hx0 _].
  unfold div_int in *. set (x := round c n) in *.
  assert (Hy : (to_Q (mul x (of_int 100)) < inject_Z 100)%Q).
  { unfold mul, round_Q.
    assert (Hq : (0 <= to_Q x * to_Q (of_int 100)
                  <= (100 * (2 ^ 53 - 1)) # (2 ^ 53))%Q).
    { rewrite to_Q_of_int_100. split.
      - apply Qmult_le_0_compat; [exact Hx0 | discriminate].
      - apply Qle_trans with (((2 ^ 53 - 1) # (2 ^ 53)) * inject_Z 100)%Q.
        + apply Qmult_le_compat_r; [exact Hone | discriminate].
        + vm_compute. discriminate. }
    destruct Hq as [Hq0 Hq1]. destruct (to_Q x * to_Q (of_int 100))%Q as [p d].
    unfold Qle in Hq0, Hq1. cbn [Qnum Qden] in *.
    change (Z.pos (2 ^ 53)) with (2 ^ 53) in Hq1.
    apply round_below_100; lia. }
  assert (Hy0 : (0 <= to_Q (mul x (of_int 100)))%Q).
  { apply mul_100_bounds. split; [exact Hx0 |].
    apply Qle_trans with ((2 ^ 53 - 1) # (2 ^ 53))%Q; [exact Hone |].
    vm_compute. discriminate. }
  destruct (trunc_floor _ Hy0) as [Hfloor _].
  pose proof (Qle_lt_trans _ _ _ Hfloor Hy) as Hlt.
  unfold Qlt in Hlt. cbn [Qnum Qden inject_Z] in Hlt. lia.
Qed.

End B64Strict.

(** ** Texts: pieces, characters, stripping and splitting *)

Module StringFacts.

Import Notions.

Local Arguments String.append : simpl nomatch.

Lemma append_nil_r (s : string) : s ++ "" = s.
Proof. induction s as [| c s IH]; simpl; congruence. Qed.

Lemma append_assoc (a b c : string) : (a ++ b) ++ c = a ++ b ++ c.
Proof. induction a as [| x a IH]; simpl; congruence. Qed.

Lemma append_nonempty (a b : string) : a <> "" -> a ++ b <> "".
Proof. destruct a; [congruence | discriminate]. Qed.

Lemma startswith_iff (p s : string) :
  Py.startswith p s = true <-> exists after : string, s = p ++ after.
Proof.
  revert s. induction p as [| a p IH]; intros s.
  - split; [intros _; exists s; reflexivity | reflexivity].
  - destruct s as [| b s]; cbn [Py.startswith].
    + split; [discriminate | intros [after H]; discriminate H].
    + rewrite andb_true_iff, IH, Ascii.eqb_eq. split.
      * intros [-> [after ->]]. exists after. reflexivity.
      * intros [after H]. simpl in H. injection H as -> ->. eauto.
Qed.

Lemma str_in_iff (sub s : string) :
  Py.str_in sub s = true <-> occurs_in sub s.
Proof.
  unfold occurs_in. induction s as [| c s IH]; cbn [Py.str_in].
  - rewrite orb_false_r, startswith_iff. split.
    + intros [after H]. exists "", after. exact H.
    + intros (before & after & H). destruct before; [| discriminate H].
      exists after. exact H.
  - rewrite orb_true_iff, startswith_iff, IH. split.
    + intros [[after H] | (before & after & H)].
      * exists "", after. exact H.
      * exists (String c before), after. rewrite H. reflexivity.
    + intros (before & after & H). destruct before as [| b before].
      * left. exists after. exact H.
      * right. simpl in H. injection H as -> ->. eauto.
Qed.

Lemma occurs_in_refl (s : string) : occurs_in s s.
Proof. exists "", "". simpl. rewrite append_nil_r. reflexivity. Qed.

Lemma occurs_in_trans (a b c : string) : occurs_in a b -> occurs_in b c -> occurs_in a c.
Proof.
  intros (p1 & q1 & ->) (p2 & q2 & ->). exists (p2 ++ p1), (q1 ++ q2).
  rewrite !append_assoc. reflexivity.
Qed.

Lemma occurs_in_cons (sub s : string) (c : ascii) :
  occurs_in sub s -> occurs_in sub (String c s).
Proof. intros (p & q & ->). exists (String c p), q. reflexivity. Qed.

Lemma occurs_in_prefix (a b : string) : occurs_in a (a ++ b).
Proof. exists "", b. reflexivity. Qed.

Lemma occurs_in_suffix (a b : string) : occurs_in b (a ++ b).
Proof. exists a, "". rewrite append_nil_r. reflexivity. Qed.

Lemma occurs_in_skip (x a s : string) : occurs_in x s -> occurs_in x (a ++ s).
Proof.
  intros (before & after & ->). exists (a ++ before), after.
  rewrite append_assoc. reflexivity.
Qed.

Lemma occurs_in_middle (a b c : string) : occurs_in b (a ++ b ++ c).
Proof. exists a, c. reflexivity. Qed.

Lemma str_in_trans (a b c : string) :
  Py.str_in a b = true -> Py.str_in b c = true -> Py.str_in a c = true.
Proof. rewrite !str_in_iff. apply occurs_in_trans. Qed.

Lemma str_in_empty (k : string) : Py.str_in k "" = true <-> k = "".
Proof.
  cbn [Py.str_in]. rewrite orb_false_r. destruct k; cbn [Py.startswith].
  - split; reflexivity.
  - split; [discriminate | discriminate].
Qed.

(** The characters of a text, put together again, are the text. *)
Lemma concat_chars (s : string) : Py.concat (Py.chars s) = s.
Proof.
  induction s as [| c s IH]; [reflexivity |].
  cbn [Py.chars]. destruct (Py.chars s) as [| k ks].
  - cbn [Py.concat] in *. rewrite <- IH. reflexivity.
  - destruct ((128 <=? N_of_ascii c)%N && Py.headless k);
      cbn [Py.concat String.append] in *; rewrite <- IH; reflexivity.
Qed.

Lemma concat_app (l1 l2 : list string) :
  Py.concat (l1 ++ l2) = Py.concat l1 ++ Py.concat l2.
Proof.
  induction l1 as [| k l1 IH]; [reflexivity |].
  cbn [app Py.concat]. rewrite IH, append_assoc. reflexivity.
Qed.

Lemma len_app (a b : string) : Py.len (a ++ b) = (Py.len a + Py.len b)%nat.
Proof.
  induction a as [| c a IH]; [reflexivity |].
  cbn [String.append Py.len]. rewrite IH. lia.
Qed.

Lemma lstrip_by_split (p : string -> bool) (l : list string) :
  exists dropped : list string, l = (dropped ++ Py.lstrip_by p l)%list.
Proof.
  induction l as [| k l [dropped IH]]; [exists []; reflexivity |].
  cbn [Py.lstrip_by]. destruct (p k).
  - exists (k :: dropped). cbn [app]. rewrite <- IH. reflexivity.
  - exists []. reflexivity.
Qed.

Lemma rstrip_by_split (p : string -> bool) (l : list string) :
  exists dropped : list string, l = (Py.rstrip_by p l ++ dropped)%list.
Proof.
  unfold Py.rstrip_by. destruct (lstrip_by_split p (List.rev l)) as [dropped H].
  exists (List.rev dropped). rewrite <- rev_app_distr, <- H, rev_involutive. reflexivity.
Qed.

(** Stripping keeps a piece of the text, with no more characters. *)
Lemma strip_by_piece (p : string -> bool) (s : string) :
  exists before after : string, s = before ++ Py.strip_by p s ++ after.
Proof.
  unfold Py.strip_by.
  destruct (lstrip_by_split p (Py.chars s)) as [l1 H1].
  destruct (rstrip_by_split p (Py.lstrip_by p (Py.chars s))) as [l3 H3].
  exists (Py.concat l1), (Py.concat l3).
  rewrite <- !concat_app, <- H3, <- H1, concat_chars. reflexivity.
Qed.

Lemma strip_by_occurs (p : string -> bool) (s : string) : occurs_in (Py.strip_by p s) s.
Proof. exact (strip_by_piece p s). Qed.

Lemma strip_chars_occurs (chars s : string) : occurs_in (Py.strip_chars chars s) s.
Proof. apply strip_by_occurs. Qed.

Lemma strip_occurs (s : string) : occurs_in (Py.strip s) s.
Proof. apply strip_by_occurs. Qed.

Lemma len_strip_by (p : string -> bool) (s : string) :
  (Py.len (Py.strip_by p s) <= Py.len s)%nat.
Proof.
  destruct (strip_by_piece p s) as (before & after & H).
  rewrite H at 2. rewrite !len_app. lia.
Qed.

(** Stripping never lengthens a token. *)
Lemma len_strip_chars (chars s : string) :
  (Py.len (Py.strip_chars chars s) <= Py.len s)%nat.
Proof. apply len_strip_by. Qed.

(** The words of a text are pieces of it. *)
Lemma words_occur (l : list string) :
  forall cur w : string, In w (Py.words l cur) -> occurs_in w (cur ++ Py.concat l).
Proof.
  induction l as [| k l IH]; intros cur w Hin.
  - cbn [Py.words Py.concat] in *. rewrite append_nil_r.
    destruct cur; [destruct Hin |]. destruct Hin as [<- | []]. apply occurs_in_refl.
  - cbn [Py.words Py.concat] in *. destruct (Py.isspace_char k).
    + assert (Hrest : In w (Py.words l "") -> occurs_in w (cur ++ k ++ Py.concat l)).
      { intros H. apply IH in H. cbn [String.append] in H.
        apply occurs_in_skip, occurs_in_skip, H. }
      destruct cur as [| c cur]; [exact (Hrest Hin) |].
      destruct Hin as [<- | Hin]; [apply occurs_in_prefix | exact (Hrest Hin)].
    + apply IH in Hin. rewrite append_assoc in Hin. exact Hin.
Qed.

Lemma split_tokens (s w : string) : In w (Py.split s) -> occurs_in w s.
Proof.
  intros Hin. apply words_occur in Hin. cbn [String.append] in Hin.
  rewrite concat_chars in Hin. exact Hin.
Qed.

(** The characters of a text that goes on with a byte that starts a
    character are those of its two parts. *)
Lemma chars_app (a b : string) :
  Py.headless b = false -> Py.chars (a ++ b) = (Py.chars a ++ Py.chars b)%list.
Proof.
  intros Hb. induction a as [| c a IH]; [reflexivity |].
  cbn [String.append Py.chars]. rewrite IH.
  destruct (Py.chars a) as [| k ks]; cbn [app].
  - destruct b as [| d b]; [reflexivity |].
    assert (Hhead : exists k' ks', Py.chars (String d b) = k' :: ks' /\ Py.headless k' = false).
    { cbn [Py.chars]. cbn [Py.headless] in Hb.
      destruct (Py.chars b) as [| k' ks'];
        [| destruct ((128 <=? N_of_ascii d)%N && Py.headless k')];
        eexists _, _; (split; [reflexivity | exact Hb]). }
    destruct Hhead as (k' & ks' & -> & Hk'). rewrite Hk', andb_false_r. reflexivity.
  - destruct ((128 <=? N_of_ascii c)%N && Py.headless k); reflexivity.
Qed.

Lemma chars_single (c : ascii) : Py.chars (String c "") = [String c ""].
Proof. reflexivity. Qed.

End StringFacts.

(** ** Tokens, lower-casing and keyword sets *)

Module GraderFacts.

Import Evaluator Notions.

Local Arguments String.append : simpl nomatch.

(** Membership in the keyword set the code builds. *)
Lemma elem_of_expected_keywords (expected_answer k : string) :
  k ∈ expected_keywords expected_answer <->
  exists word, In word (Py.split (Py.lower expected_answer))
               /\ (4 < Py.len word)%nat
               /\ k = Py.strip_chars punctuation word.
Proof.
  unfold expected_keywords, keyword_set.
  rewrite elem_of_list_to_set, list_elem_of_In, in_map_iff.
  split.
  - intros (word & <- & Hin). apply filter_In in Hin as [Hin Hlen].
    exists word. apply Nat.ltb_lt in Hlen. auto.
  - intros (word & Hin & Hlen & ->). exists word. split; [reflexivity |].
    apply filter_In. split; [exact Hin |]. apply Nat.ltb_lt. exact Hlen.
Qed.

Lemma filter_long_short (l : list string) :
  Forall (fun w => (Py.len w <= 4)%nat) l ->
  List.filter (fun word => (4 <? Py.len word)%nat) l = [].
Proof.
  induction 1 as [| w l Hw _ IH]; [reflexivity |].
  cbn [List.filter]. replace (4 <? Py.len w)%nat with false; [exact IH |].
  symmetry. apply Nat.ltb_ge. exact Hw.
Qed.

(** Only short tokens once lower-cased: the keyword set is empty. *)
Lemma expected_keywords_short (expected_answer : string) :
  Spec.only_short_words expected_answer -> expected_keywords expected_answer = ∅.
Proof.
  intros Hshort. unfold expected_keywords, keyword_set.
  rewrite filter_long_short by exact Hshort. reflexivity.
Qed.

(** *** ASCII text: lower-casing changes neither the words nor their length *)

Lemma chars_ascii (s : string) :
  Spec.isascii s = true -> Py.chars s = map (fun c => String c "") (list_ascii_of_string s).
Proof.
  induction s as [| c s IH]; [reflexivity |].
  cbn [Spec.isascii Py.chars list_ascii_of_string map]. intros H.
  apply andb_true_iff in H as [Hc Hs]. rewrite (IH Hs).
  apply N.ltb_lt in Hc.
  replace (128 <=? N_of_ascii c)%N with false by (symmetry; apply N.leb_gt; exact Hc).
  destruct (map _ (list_ascii_of_string s)); reflexivity.
Qed.

Lemma ascii_char_facts (c : ascii) :
  (N_of_ascii c <? 128)%N = true ->
  Py.code (String c "") = Some (N_of_ascii c)
  /\ (N_of_ascii c =? 931)%N = false
  /\ Py.of_codes (Py.lower_code (N_of_ascii c)) = String (lower_ascii c) ""
  /\ (N_of_ascii (lower_ascii c) <? 128)%N = true
  /\ Py.isspace (N_of_ascii (lower_ascii c)) = Py.isspace (N_of_ascii c)
  /\ Py.is_continuation c = false
  /\ Py.is_continuation (lower_ascii c) = false.
Proof.
  destruct c as [[|] [|] [|] [|] [|] [|] [|] [|]]; intros H;
    try (vm_compute in H; discriminate H); vm_compute; repeat split; reflexivity.
Qed.

Lemma lower_chars_ascii (l : list ascii) (after_cased : bool) :
  Forall (fun c => (N_of_ascii c <? 128)%N = true) l ->
  Py.lower_chars after_cased (map (fun c => String c "") l)
  = map (fun c => String (lower_ascii c) "") l.
Proof.
  intros Hall. revert after_cased.
  induction Hall as [| c l Hc _ IH]; intros after_cased; [reflexivity |].
  cbn [map Py.lower_chars].
  destruct (ascii_char_facts c Hc) as (Hcode & Hsigma & Hlower & _).
  rewrite Hcode, Hsigma, Hlower, IH. reflexivity.
Qed.

Lemma isascii_forall (s : string) :
  Spec.isascii s = true ->
  Forall (fun c => (N_of_ascii c <? 128)%N = true) (list_ascii_of_string s).
Proof.
  induction s as [| c s IH]; cbn [Spec.isascii list_ascii_of_string]; [constructor |].
  intros H. apply andb_true_iff in H as [Hc Hs]. constructor; [exact Hc | exact (IH Hs)].
Qed.

Lemma concat_singletons (f : ascii -> ascii) (s : string) :
  Py.concat (map (fun c => String (f c) "") (list_ascii_of_string s)) = map_ascii f s.
Proof.
  induction s as [| c s IH]; [reflexivity |].
  cbn [list_ascii_of_string map Py.concat map_ascii String.append]. rewrite IH. reflexivity.
Qed.

(** On ASCII text [str.lower] works byte by byte. *)
Lemma lower_ascii_text (s : string) :
  Spec.isascii s = true -> Py.lower s = map_ascii lower_ascii s.
Proof.
  intros H. unfold Py.lower.
  rewrite (chars_ascii s H), (lower_chars_ascii _ _ (isascii_forall s H)).
  apply concat_singletons.
Qed.

Lemma isascii_lower (s : string) :
  Spec.isascii s = true -> Spec.isascii (map_ascii lower_ascii s) = true.
Proof.
  induction s as [| c s IH]; [reflexivity |].
  cbn [Spec.isascii map_ascii]. intros H. apply andb_true_iff in H as [Hc Hs].
  destruct (ascii_char_facts c Hc) as (_ & _ & _ & Hlow & _).
  rewrite Hlow, (IH Hs). reflexivity.
Qed.

Lemma len_map_ascii (s : string) :
  Spec.isascii s = true ->
  Py.len (map_ascii lower_ascii s) = Py.len s.
Proof.
  induction s as [| c s IH]; [reflexivity |].
  cbn [Spec.isascii map_ascii Py.len]. intros H. apply andb_true_iff in H as [Hc Hs].
  destruct (ascii_char_facts c Hc) as (_ & _ & _ & _ & _ & Hc1 & Hc2).
  rewrite Hc1, Hc2, (IH Hs). reflexivity.
Qed.

Lemma isascii_app (a b : string) :
  Spec.isascii (a ++ b) = Spec.isascii a && Spec.isascii b.
Proof.
  induction a as [| c a IH]; [reflexivity |].
  cbn [String.append Spec.isascii]. rewrite IH, andb_assoc. reflexivity.
Qed.

Lemma map_ascii_app (f : ascii -> ascii) (a b : string) :
  map_ascii f (a ++ b) = map_ascii f a ++ map_ascii f b.
Proof.
  induction a as [| c a IH]; [reflexivity |].
  cbn [String.append map_ascii]. rewrite IH. reflexivity.
Qed.

(** The words of a lower-cased ASCII text are the lower-cased words. *)
Lemma words_lower_ascii (l : list ascii) :
  Forall (fun c => (N_of_ascii c <? 128)%N = true) l ->
  forall cur : string,
    Spec.isascii cur = true ->
    Py.words (map (fun c => String (lower_ascii c) "") l) (map_ascii lower_ascii cur)
    = map (map_ascii lower_ascii) (Py.words (map (fun c => String c "") l) cur)
    /\ Forall (fun w => Spec.isascii w = true) (Py.words (map (fun c => String c "") l) cur).
Proof.
  induction 1 as [| c l Hc _ IH]; intros cur Hcur.
  - cbn [map Py.words]. destruct cur; cbn [map_ascii map]; split; try reflexivity;
      repeat constructor. exact Hcur.
  - cbn [map Py.words].
    destruct (ascii_char_facts c Hc) as (Hcode & _ & _ & Hlow & Hspace & _).
    assert (Hcode' : Py.code (String (lower_ascii c) "") = Some (N_of_ascii (lower_ascii c))).
    { cbn [Py.code]. rewrite Hlow. reflexivity. }
    unfold Py.isspace_char. rewrite Hcode, Hcode', Hspace.
    destruct (Py.isspace (N_of_ascii c)).
    + destruct (IH "" eq_refl) as [IHeq IHascii]. cbn [map_ascii] in IHeq.
      destruct cur as [| d cur]; cbn [map_ascii].
      * split; [exact IHeq | exact IHascii].
      * cbn [map]. rewrite IHeq. split; [reflexivity |].
        constructor; [exact Hcur | exact IHascii].
    + assert (Hnext : Spec.isascii (cur ++ String c "") = true).
      { rewrite isascii_app, Hcur. cbn [Spec.isascii]. rewrite Hc. reflexivity. }
      destruct (IH (cur ++ String c "") Hnext) as [IHeq IHascii].
      rewrite map_ascii_app in IHeq. cbn [map_ascii] in IHeq.
      split; [exact IHeq | exact IHascii].
Qed.

(** On ASCII text the words as written and the words as tokenized have the
    same lengths. *)
Lemma short_words_ascii (expected_answer : string) :
  Spec.isascii expected_answer = true ->
  Spec.only_short_words_as_written expected_answer ->
  Spec.only_short_words expected_answer.
Proof.
  intros Hascii Hshort. unfold Spec.only_short_words, Spec.only_short_words_as_written in *.
  rewrite (lower_ascii_text _ Hascii). unfold Py.split in *.
  rewrite (chars_ascii _ (isascii_lower _ Hascii)).
  rewrite (chars_ascii _ Hascii) in Hshort.
  assert (Hbytes : list_ascii_of_string (map_ascii lower_ascii expected_answer)
                   = map lower_ascii (list_ascii_of_string expected_answer)).
  { clear. induction expected_answer as [| c s IH]; [reflexivity |].
    cbn [map_ascii list_ascii_of_string map]. rewrite IH. reflexivity. }
  rewrite Hbytes, map_map.
  destruct (words_lower_ascii _ (isascii_forall _ Hascii) "" eq_refl) as [Heq Hwords].
  cbn [map_ascii] in Heq. rewrite Heq.
  revert Hshort Hwords. generalize (Py.words (map (fun c => String c "")
                                               (list_ascii_of_string expected_answer)) "").
  intros l Hshort Hwords. induction l as [| w l IH]; [constructor |].
  inversion Hshort as [| ? ? Hw Hl]; inversion Hwords as [| ? ? Hwa Hla]; subst.
  cbn [map]. constructor; [rewrite len_map_ascii; assumption | apply IH; assumption].
Qed.

(** *** The count of the loop *)

Lemma count_loop_bounds (student_text : string) (l : list string) :
  (0 <= foldr (fun keyword matching_keywords =>
                 if Py.str_in keyword student_text
                 then matching_keywords + 1 else matching_keywords) 0 l
     <= Z.of_nat (length l))%Z.
Proof.
  induction l as [| k l IH]; cbn [foldr length]; [lia |].
  destruct (Py.str_in k student_text); lia.
Qed.

Lemma count_matching_bounds (X : gset string) (student_text : string) :
  (0 <= count_matching X student_text <= Z.of_nat (size X))%Z.
Proof. apply count_loop_bounds. Qed.

Lemma matching_keywords_bounds (student_answer expected_answer : string) :
  (0 <= matching_keywords student_answer expected_answer
     <= Z.of_nat (size (expected_keywords expected_answer)))%Z.
Proof. apply count_matching_bounds. Qed.

Lemma count_loop_filter (student_text : string) (l : list string) :
  foldr (fun keyword matching_keywords =>
           if Py.str_in keyword student_text
           then (matching_keywords + 1)%Z else matching_keywords) 0%Z l
  = Z.of_nat (length (List.filter (fun keyword => Py.str_in keyword student_text) l)).
Proof.
  induction l as [| k l IH]; [reflexivity |].
  cbn [foldr List.filter]. rewrite IH.
  destruct (Py.str_in k student_text); cbn [length]; lia.
Qed.

Lemma list_filter_bool (P : string -> bool) (l : list string) :
  List.filter P l = filter (fun k => P k = true) l.
Proof.
  induction l as [| k l IH]; [reflexivity |].
  cbn [List.filter]. rewrite filter_cons, IH.
  destruct (P k) eqn:E; [rewrite decide_True by reflexivity | rewrite decide_False by discriminate];
    reflexivity.
Qed.

(** The loop counts the keywords of the set that occur in the text. *)
Lemma count_matching_size (X : gset string) (student_text : string) :
  count_matching X student_text = Z.of_nat (Spec.matches X student_text).
Proof.
  unfold count_matching, set_fold, Spec.matches. cbn [compose].
  rewrite count_loop_filter, list_filter_bool. f_equal.
  unfold size, set_size. cbn [compose].
  apply Permutation_length, NoDup_Permutation.
  - apply NoDup_filter, NoDup_elements.
  - apply NoDup_elements.
  - intros k. rewrite list_elem_of_filter, !elem_of_elements, elem_of_filter. tauto.
Qed.

Lemma size_pos_of_nonempty (X : gset string) : X ≠ ∅ -> (0 < Z.of_nat (size X))%Z.
Proof.
  intros HX. enough (size X ≠ 0%nat) by lia.
  intros Hsz. apply HX. apply size_empty_iff in Hsz. apply leibniz_equiv. exact Hsz.
Qed.

Lemma match_percentage_bounds (student_answer expected_answer : string) :
  (0 <= B64.to_Q (match_percentage student_answer expected_answer) <= 1)%Q.
Proof.
  unfold match_percentage. case_bool_decide as HX.
  - apply B64Facts.div_int_bounds.
    + apply matching_keywords_bounds.
    + apply size_pos_of_nonempty. exact HX.
  - split; discriminate.
Qed.

Lemma percent_bounds (student_answer expected_answer : string) :
  (0 <= percent student_answer expected_answer <= 100)%Z.
Proof.
  unfold percent. apply B64Facts.trunc_bounds, B64Facts.mul_100_bounds.
  apply match_percentage_bounds.
Qed.

End GraderFacts.

(** ** The count of the loop, keyword by keyword *)

Module GraderMore.

Import Evaluator Notions StringFacts.

(** Every expected keyword occurs in the lower-cased expected answer. *)
Lemma keyword_occurs (expected_answer k : string) :
  k ∈ expected_keywords expected_answer -> occurs_in k (Py.lower expected_answer).
Proof.
  intros Hk. apply GraderFacts.elem_of_expected_keywords in Hk as (word & Hin & _ & ->).
  eapply occurs_in_trans; [apply strip_chars_occurs |].
  apply split_tokens. exact Hin.
Qed.

Lemma count_loop_all (student_text : string) (l : list string) :
  Forall (fun k => Py.str_in k student_text = true) l ->
  foldr (fun keyword matching_keywords =>
           if Py.str_in keyword student_text
           then (matching_keywords + 1)%Z else matching_keywords) 0%Z l
  = Z.of_nat (length l).
Proof.
  induction 1 as [| k l Hk _ IH]; cbn [foldr length]; [reflexivity |].
  rewrite Hk, IH. lia.
Qed.

Lemma count_loop_none (student_text : string) (l : list string) :
  Forall (fun k => Py.str_in k student_text = false) l ->
  foldr (fun keyword matching_keywords =>
           if Py.str_in keyword student_text
           then (matching_keywords + 1)%Z else matching_keywords) 0%Z l
  = 0%Z.
Proof.
  induction 1 as [| k l Hk _ IH]; cbn [foldr]; [reflexivity |].
  rewrite Hk, IH. reflexivity.
Qed.

Lemma count_loop_mono (text text' : string) (l : list string) :
  (forall k, Py.str_in k text = true -> Py.str_in k text' = true) ->
  (foldr (fun keyword matching_keywords =>
            if Py.str_in keyword text then (matching_keywords + 1)%Z else matching_keywords)
         0%Z l
   <= foldr (fun keyword matching_keywords =>
               if Py.str_in keyword text' then (matching_keywords + 1)%Z else matching_keywords)
            0%Z l)%Z.
Proof.
  intros Hmono. induction l as [| k l IH]; cbn [foldr]; [lia |].
  destruct (Py.str_in k text) eqn:Hk.
  - rewrite (Hmono k Hk). lia.
  - destruct (Py.str_in k text'); lia.
Qed.

Lemma matching_all (student_answer expected_answer : string) :
  (forall k, k ∈ expected_keywords expected_answer ->
             Py.str_in k (Py.lower student_answer) = true) ->
  matching_keywords student_answer expected_answer
  = Z.of_nat (size (expected_keywords expected_answer)).
Proof.
  intros Hall. unfold matching_keywords, count_matching, set_fold. cbn [compose].
  apply count_loop_all. apply Forall_forall. intros k Hk. apply Hall.
  apply elem_of_elements. exact Hk.
Qed.

Lemma matching_none (student_answer expected_answer : string) :
  (forall k, k ∈ expected_keywords expected_answer ->
             Py.str_in k (Py.lower student_answer) = false) ->
  matching_keywords student_answer expected_answer = 0%Z.
Proof.
  intros Hnone. unfold matching_keywords, count_matching, set_fold. cbn [compose].
  apply count_loop_none. apply Forall_forall. intros k Hk. apply Hnone.
  apply elem_of_elements. exact Hk.
Qed.

Lemma matching_mono (student student' expected_answer : string) :
  Py.str_in (Py.lower student) (Py.lower student') = true ->
  (matching_keywords student expected_answer
   <= matching_keywords student' expected_answer)%Z.
Proof.
  intros Hocc. unfold matching_keywords, count_matching, set_fold. cbn [compose].
  apply count_loop_mono. intros k Hk. eapply str_in_trans; eassumption.
Qed.

(** The loop run from the left over a listing counts the items of the
    listing that occur in the text. *)
Lemma counted_filter (student_text : string) (listing : list string) :
  counted listing student_text
  = Z.of_nat (length (List.filter (fun keyword => Py.str_in keyword student_text) listing)).
Proof.
  unfold counted.
  enough (Hgen : forall acc : Z,
             fold_left (fun matching_keywords keyword =>
                          if Py.str_in keyword student_text
                          then (matching_keywords + 1)%Z else matching_keywords)
                       listing acc
             = (acc + Z.of_nat (length (List.filter
                                          (fun keyword => Py.str_in keyword student_text)
                                          listing)))%Z)
    by (rewrite Hgen; lia).
  induction listing as [| k l IH]; intros acc; cbn [fold_left List.filter length]; [lia |].
  rewrite IH. destruct (Py.str_in k student_text); cbn [length]; lia.
Qed.

End GraderMore.

(** * The claims about the heuristic grader *)

(** C3, as the code has it: the expected keyword set holds the tokens of the
    lower-cased expected answer longer than 4 characters, stripped; matches
    is the number of keywords of that set that occur in the lower-cased
    student answer; match_ratio is the binary64 quotient of matches by the
    size of the set, taken to be 0 when the set is empty, and is_correct is
    match_ratio >= 0.5; for fewer than 2^53 keywords the comparison is the
    exact one (2 * matches >= size). When the expected answer, once
    lower-cased, has only words of length at most 4, the set is empty,
    match_ratio is 0 and is_correct is false; for an ASCII expected answer
    it is enough that the words as written have length at most 4. *)
Theorem fallback_ratio_and_verdict (student_answer expected_answer : string) :
  let kws := Evaluator.expected_keywords expected_answer in
  let matches := Evaluator.matching_keywords student_answer expected_answer in
  let match_ratio := Evaluator.match_percentage student_answer expected_answer in
  let is_correct := fst (Evaluator._fallback_evaluation student_answer expected_answer) in
  (forall k : string,
     k ∈ kws <->
     exists word, In word (Py.split (Py.lower expected_answer))
                  /\ (4 < Py.len word)%nat
                  /\ k = Py.strip_chars Evaluator.punctuation word)
  /\ matches = Z.of_nat (Spec.matches kws (Py.lower student_answer))
  /\ match_ratio = (if decide (size kws = 0%nat) then B64.zero
                    else B64.div_int matches (Z.of_nat (size kws)))
  /\ is_correct = B64.leb B64.half match_ratio
  /\ ((Z.of_nat (size kws) < 2 ^ 53)%Z ->
      (is_correct = true <->
       (0 < size kws)%nat /\ (Z.of_nat (size kws) <= 2 * matches)%Z))
  /\ (Spec.only_short_words expected_answer ->
      kws = ∅ /\ match_ratio = B64.zero /\ B64.to_Q match_ratio == 0
      /\ is_correct = false)
  /\ (Spec.isascii expected_answer = true ->
      Spec.only_short_words_as_written expected_answer ->
      kws = ∅ /\ match_ratio = B64.zero /\ is_correct = false).
Proof.
  intros kws matches match_ratio is_correct.
  assert (Hratio : match_ratio = (if decide (size kws = 0%nat) then B64.zero
                                  else B64.div_int matches (Z.of_nat (size kws)))).
  { unfold match_ratio, Evaluator.match_percentage. fold kws matches.
    case_bool_decide as HX; destruct (decide (size kws = 0%nat)) as [Hsz | Hsz];
      try reflexivity.
    - exfalso. apply HX, leibniz_equiv, size_empty_iff. exact Hsz.
    - exfalso. apply Hsz. apply size_empty_iff.
      destruct (decide (kws = ∅)) as [-> | Hne]; [reflexivity | contradiction]. }
  assert (Hverdict : is_correct = B64.leb B64.half match_ratio) by reflexivity.
  assert (Hshort : Spec.only_short_words expected_answer ->
                   kws = ∅ /\ match_ratio = B64.zero /\ B64.to_Q match_ratio == 0
                   /\ is_correct = false).
  { intros Hwords. rewrite Hverdict, Hratio. unfold kws.
    rewrite GraderFacts.expected_keywords_short by exact Hwords.
    repeat split; reflexivity. }
  split; [intros k; apply GraderFacts.elem_of_expected_keywords |].
  split; [apply GraderFacts.count_matching_size |].
  split; [exact Hratio |].
  split; [exact Hverdict |].
  split; [| split; [exact Hshort |]].
  - intros Hsize. split.
    + intros Htrue. rewrite Hverdict, Hratio in Htrue.
      destruct (decide (size kws = 0%nat)) as [| Hsz]; [discriminate Htrue |].
      split; [lia |].
      apply B64Half.leb_half_div_int in Htrue; [exact Htrue | | lia].
      apply GraderFacts.matching_keywords_bounds.
    + intros [Hpos Hle]. rewrite Hverdict, Hratio.
      destruct (decide (size kws = 0%nat)) as [| Hsz]; [lia |].
      apply B64Half.leb_half_div_int; [| lia | exact Hle].
      apply GraderFacts.matching_keywords_bounds.
  - intros Hascii Hwritten.
    destruct (Hshort (GraderFacts.short_words_ascii _ Hascii Hwritten))
      as (Hkws & Hzero & _ & Hfalse).
    repeat split; assumption.
Qed.

Lemma fallback_short_words_witness :
  Spec.only_short_words "Be kind and stay calm"
  /\ fst (Evaluator._fallback_evaluation "I was kind" "Be kind and stay calm") = false.
Proof.
  assert (Hshort : Spec.only_short_words "Be kind and stay calm").
  { unfold Spec.only_short_words.
    replace (Py.split (Py.lower "Be kind and stay calm"))
      with ["be"; "kind"; "and"; "stay"; "calm"] by (vm_compute; reflexivity).
    repeat constructor. }
  split; [exact Hshort |].
  pose proof (fallback_ratio_and_verdict "I was kind" "Be kind and stay calm") as H.
  cbv zeta in H. destruct H as (_ & _ & _ & _ & _ & H & _).
  destruct (H Hshort) as (_ & _ & _ & Hfalse). exact Hfalse.
Defined.

(** C3 as stated fails: the expected answer made of four capital I with a
    dot above is one word of length 4, its lower case has 8 characters and
    is a keyword, and the grader answers is_correct = true with 100% for
    the student answer that repeats it. *)
Lemma fallback_short_words_grow :
  Spec.only_short_words_as_written Scenario.dotted_capitals
  /\ Py.len Scenario.dotted_capitals = 4%nat
  /\ Py.len (Py.lower Scenario.dotted_capitals) = 8%nat
  /\ Evaluator._fallback_evaluation Scenario.dotted_capitals Scenario.dotted_capitals
     = (true, "The answer covers approximately 100% of the key concepts expected.").
Proof.
  split.
  - unfold Spec.only_short_words_as_written.
    replace (Py.split Scenario.dotted_capitals) with [Scenario.dotted_capitals]
      by (vm_compute; reflexivity).
    constructor; [vm_compute; lia | constructor].
  - repeat split; vm_compute; reflexivity.
Qed.

(** C4, as the code has it: the expected keyword set consists exactly of the
    whitespace-delimited tokens of the lower-cased text that are longer than
    4 characters as split, each stripped of the punctuation characters at its
    ends afterwards; the set the specification describes (length tested after
    stripping) is contained in it. *)
Theorem expected_keywords_exactly (expected_answer k : string) :
  (k ∈ Evaluator.expected_keywords expected_answer <->
   exists word, In word (Py.split (Py.lower expected_answer))
                /\ (4 < Py.len word)%nat
                /\ k = Py.strip_chars Evaluator.punctuation word)
  /\ Spec.keywords_as_specified expected_answer ⊆ Evaluator.expected_keywords expected_answer.
Proof.
  split; [apply GraderFacts.elem_of_expected_keywords |].
  intros k' Hk'. apply GraderFacts.elem_of_expected_keywords.
  unfold Spec.keywords_as_specified in Hk'.
  rewrite elem_of_list_to_set, list_elem_of_In in Hk'.
  apply filter_In in Hk' as [Hin Hlen]. apply in_map_iff in Hin as (word & <- & Hin).
  exists word. split; [exact Hin |]. split; [| reflexivity].
  apply Nat.ltb_lt in Hlen.
  eapply Nat.lt_le_trans; [exact Hlen |].
  apply StringFacts.len_strip_chars.
Qed.

(** C4 as stated fails: the token "(abcd)" is longer than 4 characters, so
    the code keeps its stripped form "abcd", which is not longer than 4. *)
Lemma expected_keywords_not_as_specified :
  Evaluator.expected_keywords "(abcd) empathy"
  <> Spec.keywords_as_specified "(abcd) empathy".
Proof.
  intros H. apply (f_equal size) in H. vm_compute in H. discriminate H.
Qed.

(** C5, as the code has it: for expected text "Demonstrate active listening
    and empathy when responding" and student text "I listened carefully and
    showed empathy", the expected keywords are demonstrate, active, listening,
    empathy and responding; only "empathy" occurs in the student text, so 1
    of 5 keywords matches, the percentage is 20 and is_correct is false. *)
Theorem fallback_on_listening_example :
  let student := "I listened carefully and showed empathy" in
  let expected := "Demonstrate active listening and empathy when responding" in
  Evaluator.expected_keywords expected
    = {[ "demonstrate"; "active"; "listening"; "empathy"; "responding" ]}
  /\ List.filter (fun k => Py.str_in k (Py.lower student))
       ["demonstrate"; "active"; "listening"; "empathy"; "responding"] = ["empathy"]
  /\ Evaluator.matching_keywords student expected = 1%Z
  /\ Evaluator.percent student expected = 20%Z
  /\ Evaluator._fallback_evaluation student expected
     = (false, "The answer is missing several important concepts (only covers about 20% of expected key points).").
Proof.
  cbv zeta. repeat split; vm_compute; reflexivity.
Qed.

(** C5 as stated fails: the grader does not answer is_correct = true. *)
Lemma fallback_on_listening_example_not_correct :
  fst (Evaluator._fallback_evaluation
         "I listened carefully and showed empathy"
         "Demonstrate active listening and empathy when responding") <> true.
Proof. vm_compute. discriminate. Qed.

(** C6, as the code has it: the explanation reports the integer percentage
    int(match_ratio * 100), the integer part of the product and not its
    rounding, phrased "covers approximately X% ..." when is_correct is true
    and "missing several important concepts ..." when it is false. *)
Theorem fallback_explanation_truncates (student_answer expected_answer : string) :
  let match_ratio := Evaluator.match_percentage student_answer expected_answer in
  let X := Evaluator.percent student_answer expected_answer in
  let result := Evaluator._fallback_evaluation student_answer expected_answer in
  snd result
    = (if fst result
       then "The answer covers approximately " ++ Py.str_of_int X
              ++ "% of the key concepts expected."
       else "The answer is missing several important concepts (only covers about "
              ++ Py.str_of_int X ++ "% of expected key points).")
  /\ (inject_Z X <= B64.to_Q (B64.mul match_ratio (B64.of_int 100)))%Q
  /\ (B64.to_Q (B64.mul match_ratio (B64.of_int 100)) < inject_Z (X + 1))%Q.
Proof.
  intros match_ratio X result. split; [reflexivity |].
  apply B64Facts.trunc_floor.
  apply B64Facts.mul_100_bounds, GraderFacts.match_percentage_bounds.
Qed.

(** C6 as stated fails: with 2 of 3 keywords matched the explanation says
    66%, and round(match_ratio * 100) is 67. *)
Lemma fallback_explanation_not_rounded :
  let student := "listening and empathy" in
  let expected := "Listening, empathy; patience." in
  snd (Evaluator._fallback_evaluation student expected)
    = "The answer covers approximately 66% of the key concepts expected."
  /\ Spec.explanation_as_specified student expected
    = "The answer covers approximately 67% of the key concepts expected."
  /\ snd (Evaluator._fallback_evaluation student expected)
     <> Spec.explanation_as_specified student expected.
Proof.
  cbv zeta. split; [vm_compute; reflexivity |].
  split; [vm_compute; reflexivity |].
  vm_compute. discriminate.
Qed.

(** C10: the count of matching keywords never exceeds the size of the
    expected keyword set, match_ratio lies in [0, 1], the integer percentage
    in the explanation lies between 0 and 100, and the grader returns a
    boolean verdict together with a non-empty explanation that embeds that
    percentage. *)
Theorem fallback_evaluation_invariants (student_answer expected_answer : string) :
  let kws := Evaluator.expected_keywords expected_answer in
  let matches := Evaluator.matching_keywords student_answer expected_answer in
  let match_ratio := Evaluator.match_percentage student_answer expected_answer in
  let X := Evaluator.percent student_answer expected_answer in
  (0 <= matches <= Z.of_nat (size kws))%Z
  /\ (0 <= B64.to_Q match_ratio <= 1)%Q
  /\ (0 <= X <= 100)%Z
  /\ exists (is_correct : bool) (before after : string),
       Evaluator._fallback_evaluation student_answer expected_answer
         = (is_correct, before ++ Py.str_of_int X ++ after)
       /\ before ++ Py.str_of_int X ++ after <> "".
Proof.
  intros kws matches match_ratio X.
  split; [apply GraderFacts.matching_keywords_bounds |].
  split; [apply GraderFacts.match_percentage_bounds |].
  split; [apply GraderFacts.percent_bounds |].
  unfold Evaluator._fallback_evaluation. fold match_ratio.
  destruct (B64.leb B64.half match_ratio);
    eexists _, _, _; (split; [reflexivity | apply StringFacts.append_nonempty; discriminate]).
Qed.

(** * Further properties of the heuristic grader *)

(** X1: the grader's verdict and explanation do not depend on the order in
    which the loop meets the keywords of the set: run over any listing of
    the expected keywords without repetition, the loop ends on the count the
    grader uses, and the ratio, the verdict and the explanation come out the
    same. *)
Theorem fallback_evaluation_any_order (student expected : string) (listing : list string) :
  NoDup listing ->
  (forall k : string, In k listing <-> k ∈ Evaluator.expected_keywords expected) ->
  Notions.counted listing (Py.lower student) = Evaluator.matching_keywords student expected
  /\ Notions.evaluation_over listing (Py.lower student)
     = Evaluator._fallback_evaluation student expected.
Proof.
  intros Hnodup Hsame.
  assert (Hperm : listing ≡ₚ elements (Evaluator.expected_keywords expected)).
  { apply NoDup_Permutation; [exact Hnodup | apply NoDup_elements |].
    intros k. rewrite elem_of_elements, list_elem_of_In. apply Hsame. }
  assert (Hcount : Notions.counted listing (Py.lower student)
                   = Evaluator.matching_keywords student expected).
  { rewrite GraderMore.counted_filter.
    unfold Evaluator.matching_keywords, Evaluator.count_matching, set_fold. cbn [compose].
    rewrite GraderFacts.count_loop_filter. f_equal.
    rewrite !GraderFacts.list_filter_bool. rewrite Hperm. reflexivity. }
  assert (Hlength : length listing = size (Evaluator.expected_keywords expected)).
  { rewrite Hperm. reflexivity. }
  split; [exact Hcount |].
  unfold Notions.evaluation_over, Evaluator._fallback_evaluation, Evaluator.match_percentage.
  rewrite Hcount, Hlength.
  case_bool_decide as Hne.
  - destruct listing as [| k rest]; [| reflexivity].
    exfalso. apply Hne. apply leibniz_equiv, size_empty_iff. rewrite <- Hlength. reflexivity.
  - destruct listing as [| k rest]; [reflexivity |].
    rewrite Hne, size_empty in Hlength. discriminate Hlength.
Qed.

Lemma fallback_evaluation_any_order_witness :
  Notions.evaluation_over ["patience"; "empathy"; "listening"]
    (Py.lower "Listening with Empathy")
  = Evaluator._fallback_evaluation "Listening with Empathy" "Listening, empathy; patience."
  /\ Notions.evaluation_over ["listening"; "patience"; "empathy"]
       (Py.lower "Listening with Empathy")
     = Evaluator._fallback_evaluation "Listening with Empathy" "Listening, empathy; patience.".
Proof.
  assert (Hkws : Evaluator.expected_keywords "Listening, empathy; patience."
                 = ({[ "listening"; "empathy"; "patience" ]} : gset string))
    by (vm_compute; reflexivity).
  split; apply fallback_evaluation_any_order.
  - apply (bool_decide_unpack _). vm_compute. exact I.
  - intros k. rewrite Hkws, !elem_of_union, !elem_of_singleton. cbn [In].
    intuition congruence.
  - apply (bool_decide_unpack _). vm_compute. exact I.
  - intros k. rewrite Hkws, !elem_of_union, !elem_of_singleton. cbn [In].
    intuition congruence.
Defined.

(** X2: when every expected keyword occurs in the lower-cased student text
    and there is at least one keyword, the grader answers is_correct = true
    and reports exactly 100%. *)
Theorem fallback_evaluation_all_keywords (student expected : string) :
  Evaluator.expected_keywords expected <> ∅ ->
  (forall k : string,
     k ∈ Evaluator.expected_keywords expected ->
     Py.str_in k (Py.lower student) = true) ->
  Evaluator._fallback_evaluation student expected
  = (true, "The answer covers approximately 100% of the key concepts expected.").
Proof.
  intros Hne Hall.
  assert (Hone : B64.to_Q (Evaluator.match_percentage student expected) == 1).
  { unfold Evaluator.match_percentage. rewrite bool_decide_eq_true_2 by exact Hne.
    rewrite (GraderMore.matching_all _ _ Hall).
    apply B64More.div_int_self, GraderFacts.size_pos_of_nonempty, Hne. }
  unfold Evaluator._fallback_evaluation.
  rewrite (B64More.leb_half_of_one _ Hone), (B64More.percent_of_one _ Hone).
  reflexivity.
Qed.

Lemma fallback_evaluation_all_keywords_witness :
  Evaluator._fallback_evaluation "Good listening shows empathy." "Listening, empathy"
  = (true, "The answer covers approximately 100% of the key concepts expected.").
Proof.
  apply fallback_evaluation_all_keywords.
  - intros H. apply (f_equal size) in H. vm_compute in H. discriminate H.
  - intros k Hk.
    replace (Evaluator.expected_keywords "Listening, empathy")
      with ({[ "listening"; "empathy" ]} : gset string) in Hk by (vm_compute; reflexivity).
    apply elem_of_union in Hk as [Hk | Hk]; apply elem_of_singleton in Hk; subst k;
      vm_compute; reflexivity.
Defined.

(** X3: a student answer that contains the expected answer (the expected
    answer itself, for one) gets is_correct = true and 100%, whenever the
    expected answer has a keyword at all. *)
Theorem fallback_evaluation_contains_expected (student expected : string) :
  Evaluator.expected_keywords expected <> ∅ ->
  Py.str_in (Py.lower expected) (Py.lower student) = true ->
  Evaluator._fallback_evaluation student expected
  = (true, "The answer covers approximately 100% of the key concepts expected.")
  /\ Evaluator._fallback_evaluation expected expected
     = (true, "The answer covers approximately 100% of the key concepts expected.").
Proof.
  intros Hne Hocc.
  assert (Hany : forall text : string,
             Py.str_in (Py.lower expected) (Py.lower text) = true ->
             Evaluator._fallback_evaluation text expected
             = (true, "The answer covers approximately 100% of the key concepts expected.")).
  { intros text Htext.
    assert (Hone : B64.to_Q (Evaluator.match_percentage text expected) == 1).
    { unfold Evaluator.match_percentage. rewrite bool_decide_eq_true_2 by exact Hne.
      rewrite GraderMore.matching_all.
      - apply B64More.div_int_self, GraderFacts.size_pos_of_nonempty, Hne.
      - intros k Hk. eapply StringFacts.str_in_trans; [| exact Htext].
        apply StringFacts.str_in_iff, GraderMore.keyword_occurs, Hk. }
    unfold Evaluator._fallback_evaluation.
    rewrite (B64More.leb_half_of_one _ Hone), (B64More.percent_of_one _ Hone).
    reflexivity. }
  split; [apply Hany, Hocc |].
  apply Hany, StringFacts.str_in_iff, StringFacts.occurs_in_refl.
Qed.

Lemma fallback_evaluation_contains_expected_witness :
  Evaluator._fallback_evaluation "My answer: Active Listening and empathy!"
    "active listening and empathy"
  = (true, "The answer covers approximately 100% of the key concepts expected.").
Proof.
  refine (proj1 (fallback_evaluation_contains_expected
                   "My answer: Active Listening and empathy!"
                   "active listening and empathy" _ _)).
  - intros H. apply (f_equal size) in H. vm_compute in H. discriminate H.
  - vm_compute. reflexivity.
Defined.

(** X4: adding text to a student answer never lowers its grade: the count
    of matching keywords does not decrease, and (below 2^53 keywords) an
    answer that was correct stays correct. *)
Theorem fallback_evaluation_monotone (student student' expected : string) :
  Py.str_in (Py.lower student) (Py.lower student') = true ->
  (Z.of_nat (size (Evaluator.expected_keywords expected)) < 2 ^ 53)%Z ->
  (Evaluator.matching_keywords student expected
   <= Evaluator.matching_keywords student' expected)%Z
  /\ (fst (Evaluator._fallback_evaluation student expected) = true ->
      fst (Evaluator._fallback_evaluation student' expected) = true).
Proof.
  intros Hocc Hsize.
  pose proof (GraderMore.matching_mono student student' expected Hocc) as Hmono.
  split; [exact Hmono |].
  unfold Evaluator._fallback_evaluation. cbn [fst].
  unfold Evaluator.match_percentage.
  case_bool_decide as Hne; [| intros H; exact H].
  pose proof (GraderFacts.size_pos_of_nonempty _ Hne) as Hpos.
  pose proof (GraderFacts.matching_keywords_bounds student expected) as Hb.
  pose proof (GraderFacts.matching_keywords_bounds student' expected) as Hb'.
  rewrite !B64Half.leb_half_div_int by lia. lia.
Qed.

Lemma fallback_evaluation_monotone_witness :
  fst (Evaluator._fallback_evaluation "I would add: empathy and listening matter"
         "Listening, empathy; patience.") = true.
Proof.
  refine (proj2 (fallback_evaluation_monotone "empathy and listening"
                   "I would add: empathy and listening matter"
                   "Listening, empathy; patience." _ _) _).
  - vm_compute. reflexivity.
  - vm_compute. reflexivity.
  - vm_compute. reflexivity.
Defined.

(** X5: when no expected keyword occurs in the lower-cased student text, the
    grader answers is_correct = false and reports 0%; the empty answer is
    such a text unless a token made of punctuation only left the empty
    keyword in the set. *)
Theorem fallback_evaluation_no_keyword (student expected : string) :
  ((forall k : string,
      k ∈ Evaluator.expected_keywords expected ->
      Py.str_in k (Py.lower student) = false) ->
   Evaluator._fallback_evaluation student expected
   = (false, "The answer is missing several important concepts (only covers about 0% of expected key points)."))
  /\ ("" ∉ Evaluator.expected_keywords expected ->
      Evaluator._fallback_evaluation "" expected
      = (false, "The answer is missing several important concepts (only covers about 0% of expected key points).")).
Proof.
  assert (Hgen : forall text : string,
             (forall k : string,
                k ∈ Evaluator.expected_keywords expected ->
                Py.str_in k (Py.lower text) = false) ->
             Evaluator._fallback_evaluation text expected
             = (false, "The answer is missing several important concepts (only covers about 0% of expected key points).")).
  { intros text Hnone.
    assert (Hzero : Evaluator.match_percentage text expected = B64.zero).
    { unfold Evaluator.match_percentage. case_bool_decide; [| reflexivity].
      rewrite (GraderMore.matching_none _ _ Hnone). reflexivity. }
    unfold Evaluator._fallback_evaluation. rewrite Hzero. vm_compute. reflexivity. }
  split; [apply Hgen |].
  intros Hempty. apply Hgen. intros k Hk.
  destruct (Py.str_in k (Py.lower "")) eqn:E; [| reflexivity].
  apply StringFacts.str_in_empty in E. subst k. contradiction.
Qed.

Lemma fallback_evaluation_no_keyword_witness :
  Evaluator._fallback_evaluation "" "Listening, empathy"
  = (false, "The answer is missing several important concepts (only covers about 0% of expected key points).").
Proof.
  refine (proj2 (fallback_evaluation_no_keyword "" "Listening, empathy") _).
  replace (Evaluator.expected_keywords "Listening, empathy")
    with ({[ "listening"; "empathy" ]} : gset string) by (vm_compute; reflexivity).
  intros Hk.
  apply elem_of_union in Hk as [Hk | Hk]; apply elem_of_singleton in Hk; discriminate Hk.
Defined.

(** ** Fenced and bare JSON texts *)

Module ExtractFacts.

Import Client.

Local Arguments String.append : simpl nomatch.

Lemma chars_cons_ascii (c : ascii) (r : string) :
  (N_of_ascii c <? 128)%N = true -> Py.chars (String c r) = String c "" :: Py.chars r.
Proof.
  intros Hc. cbn [Py.chars]. apply N.ltb_lt in Hc.
  replace (128 <=? N_of_ascii c)%N with false by (symmetry; apply N.leb_gt; exact Hc).
  destruct (Py.chars r); reflexivity.
Qed.

(** A text between braces has no whitespace to strip. *)
Lemma strip_braced (body : string) :
  Py.strip ("{" ++ body ++ "}") = "{" ++ body ++ "}".
Proof.
  assert (Hchars : Py.chars ("{" ++ body ++ "}") = ("{" :: Py.chars body ++ ["}"])%list).
  { change ("{" ++ body ++ "}") with (String "{" (body ++ "}")).
    rewrite chars_cons_ascii by reflexivity.
    rewrite StringFacts.chars_app by reflexivity. reflexivity. }
  unfold Py.strip, Py.strip_by. rewrite Hchars. cbn [Py.lstrip_by].
  change (Py.isspace_char "{") with false. cbn iota.
  unfold Py.rstrip_by.
  assert (Hrev : List.rev ("{" :: Py.chars body ++ ["}"])%list
                 = ("}" :: List.rev (Py.chars body) ++ ["{"])%list).
  { cbn [List.rev]. rewrite rev_app_distr. reflexivity. }
  rewrite Hrev. cbn [Py.lstrip_by]. change (Py.isspace_char "}") with false. cbn iota.
  rewrite <- Hrev, rev_involutive, <- Hchars. apply StringFacts.concat_chars.
Qed.

Lemma upto_last_closing (c : ascii) (x : string) :
  upto_last c (x ++ String c "") = Some (x ++ String c "").
Proof.
  induction x as [| a x IH]; simpl.
  - rewrite Ascii.eqb_refl. reflexivity.
  - rewrite IH. reflexivity.
Qed.

Lemma re_search_braced (body : string) :
  re_search_braces ("{" ++ body ++ "}") = Some ("{" ++ body ++ "}").
Proof.
  unfold re_search_braces. simpl.
  rewrite (upto_last_closing "}" body). reflexivity.
Qed.

(** A longer pattern starts only where its own start does. *)
Lemma startswith_app_l (p1 p2 s : string) :
  Py.startswith (p1 ++ p2) s = true -> Py.startswith p1 s = true.
Proof.
  revert s. induction p1 as [| a p1 IH]; intros s H; [reflexivity |].
  destruct s as [| b s]; simpl in *; [discriminate |].
  apply andb_true_iff in H as [Hab H]. rewrite Hab. simpl. apply IH. exact H.
Qed.

Lemma str_in_app_l (p1 p2 s : string) :
  Py.str_in (p1 ++ p2) s = true -> Py.str_in p1 s = true.
Proof.
  induction s as [| c s IH]; cbn [Py.str_in]; intros H.
  - apply orb_true_iff in H as [H | H]; [| discriminate].
    rewrite (startswith_app_l _ _ _ H). reflexivity.
  - apply orb_true_iff in H as [H | H].
    + rewrite (startswith_app_l _ _ _ H). reflexivity.
    + rewrite (IH H). apply orb_true_r.
Qed.

(** Where a text ends with a closing brace, a fence that starts inside it
    lies inside it: what follows the brace cannot complete one. *)
Lemma fence_not_across (p x y : string) :
  Py.startswith "```" (x ++ "}") = false ->
  Py.startswith ("```" ++ p) ((x ++ "}") ++ y) = false.
Proof.
  intros H.
  destruct x as [| a [| b [| c x]]]; cbn [Py.startswith String.append] in *.
  - reflexivity.
  - destruct (Ascii.eqb _ a); reflexivity.
  - destruct (Ascii.eqb _ a); [| reflexivity].
    destruct (Ascii.eqb _ b); reflexivity.
  - destruct (Ascii.eqb _ a); [| reflexivity].
    destruct (Ascii.eqb _ b); [| reflexivity].
    destruct (Ascii.eqb _ c); [| reflexivity].
    discriminate H.
Qed.

Lemma str_in_cons_false (p : string) (c : ascii) (s : string) :
  Py.str_in p (String c s) = false ->
  Py.startswith p (String c s) = false /\ Py.str_in p s = false.
Proof. cbn [Py.str_in]. intros H. apply orb_false_iff in H. exact H. Qed.

(** Splitting [body} ++ fence] at the fences, when [body}] holds none. *)
Lemma split_fence_after (body cur : string) :
  Py.str_in "```" (body ++ "}") = false ->
  Py.split_from "```" 0 cur ((body ++ "}") ++ "```") = [cur ++ body ++ "}"; ""].
Proof.
  revert cur. induction body as [| c body IH]; intros cur H.
  - reflexivity.
  - change ((String c body) ++ "}") with (String c (body ++ "}")) in H.
    apply str_in_cons_false in H as [Hhere Hrest].
    pose proof (fence_not_across "" (String c body) "```" Hhere) as Hno.
    change ("```" ++ "") with "```" in Hno.
    change ((String c body ++ "}") ++ "```") with (String c ((body ++ "}") ++ "```")) in *.
    cbn [Py.split_from]. rewrite Hno. rewrite (IH _ Hrest).
    rewrite StringFacts.append_assoc. reflexivity.
Qed.

(** Nothing to cut where the separator does not occur. *)
Lemma split_from_absent (sep x cur : string) :
  Py.str_in sep x = false -> Py.split_from sep 0 cur x = [cur ++ x].
Proof.
  revert cur. induction x as [| c x IH]; intros cur H.
  - cbn [Py.split_from]. rewrite StringFacts.append_nil_r. reflexivity.
  - apply str_in_cons_false in H as [Hhere Hrest].
    cbn [Py.split_from]. rewrite Hhere, (IH _ Hrest), StringFacts.append_assoc. reflexivity.
Qed.

(** The same text holds no opening [```json] fence either. *)
Lemma json_fence_absent (body : string) :
  Py.str_in "```" (body ++ "}") = false ->
  Py.str_in "```json" ((body ++ "}") ++ "```") = false.
Proof.
  induction body as [| c body IH]; intros H; [reflexivity |].
  change ((String c body) ++ "}") with (String c (body ++ "}")) in H.
  apply str_in_cons_false in H as [Hhere Hrest].
  pose proof (fence_not_across "json" (String c body) "```" Hhere) as Hno.
  change ("```" ++ "json") with "```json" in Hno.
  change ((String c body ++ "}") ++ "```") with (String c ((body ++ "}") ++ "```")) in *.
  cbn [Py.str_in]. rewrite Hno, (IH Hrest). reflexivity.
Qed.

Lemma split_json_fence_none (body cur : string) :
  Py.str_in "```" (body ++ "}") = false ->
  Py.split_from "```json" 0 cur ((body ++ "}") ++ "```") = [cur ++ (body ++ "}") ++ "```"].
Proof. intros H. apply split_from_absent, json_fence_absent, H. Qed.

(** A fenced object comes back as it went in. *)
Lemma extract_json_fenced (sys : Sys.t) (body : string) :
  Py.str_in "```" ("{" ++ body ++ "}") = false ->
  _extract_json sys ("```json" ++ ("{" ++ body ++ "}") ++ "```") = "{" ++ body ++ "}".
Proof.
  intros H. unfold _extract_json.
  change (Py.str_in "```json" ("```json" ++ ("{" ++ body ++ "}") ++ "```")) with true.
  change (Py.str_in "```" ("```json" ++ ("{" ++ body ++ "}") ++ "```")) with true.
  cbn [andb].
  change ("{" ++ body ++ "}") with (("{" ++ body) ++ "}") in *.
  unfold Py.split_sep.
  change (Py.split_from "```json" 0 "" ("```json" ++ (("{" ++ body) ++ "}") ++ "```"))
    with ("" :: Py.split_from "```json" 0 "" ((("{" ++ body) ++ "}") ++ "```")).
  rewrite (split_json_fence_none _ _ H). cbn [nth].
  change ("" ++ (("{" ++ body) ++ "}") ++ "```") with ((("{" ++ body) ++ "}") ++ "```").
  rewrite (split_fence_after _ _ H). cbn [nth].
  change ("" ++ ("{" ++ body) ++ "}") with ("{" ++ body ++ "}").
  apply strip_braced.
Qed.

(** A bare object is found by the brace search. *)
Lemma extract_json_bare (sys : Sys.t) (body : string) :
  Py.str_in "```" ("{" ++ body ++ "}") = false ->
  _extract_json sys ("{" ++ body ++ "}") = "{" ++ body ++ "}".
Proof.
  intros H. unfold _extract_json.
  assert (Hjson : Py.str_in "```json" ("{" ++ body ++ "}") = false).
  { destruct (Py.str_in "```json" ("{" ++ body ++ "}")) eqn:E; [| reflexivity].
    change "```json" with ("```" ++ "json") in E.
    apply str_in_app_l in E. congruence. }
  rewrite Hjson, H. cbn [andb]. rewrite re_search_braced. reflexivity.
Qed.

(** The subscript [1] is in range wherever the separator occurs. *)
Lemma split_from_nonempty (sep : string) (skip : nat) (cur s : string) :
  Py.split_from sep skip cur s <> [].
Proof.
  revert skip cur. induction s as [| c s IH]; intros skip cur; cbn [Py.split_from].
  - discriminate.
  - destruct skip; [destruct (Py.startswith sep (String c s)) |]; try apply IH. discriminate.
Qed.

Lemma split_sep_second (sep s : string) :
  sep <> "" -> Py.str_in sep s = true ->
  exists first second rest, Py.split_sep sep s = first :: second :: rest.
Proof.
  intros Hsep. unfold Py.split_sep. generalize "" as cur.
  induction s as [| c s IH]; intros cur H.
  - destruct sep; [congruence | discriminate H].
  - cbn [Py.str_in] in H. cbn [Py.split_from].
    destruct (Py.startswith sep (String c s)) eqn:Hst.
    + pose proof (split_from_nonempty sep (String.length sep - 1) "" s) as Hne.
      destruct (Py.split_from sep (String.length sep - 1) "" s) as [| second rest];
        [congruence |]. eauto.
    + simpl in H. apply IH. exact H.
Qed.

End ExtractFacts.

(** * The claim about JSON extraction *)

(** C9, as the code has it: for every serialized JSON object s (a text from
    an opening brace to a closing brace) that does not contain the fence
    marker ```, extracting from "```json" + s + "```" and extracting from
    the bare s both give back s itself, so the two extractions parse to the
    same JSON value, in either class. *)
Theorem extract_json_fenced_as_bare (sys : Sys.t) (body : string) :
  let s := "{" ++ body ++ "}" in
  Py.str_in "```" s = false ->
  Evaluator._extract_json sys ("```json" ++ s ++ "```") = s
  /\ Evaluator._extract_json sys s = s
  /\ QuestionGenerator._extract_json sys ("```json" ++ s ++ "```") = s
  /\ QuestionGenerator._extract_json sys s = s
  /\ Json.loads sys (Evaluator._extract_json sys ("```json" ++ s ++ "```"))
     = Json.loads sys (Evaluator._extract_json sys s)
  /\ Json.loads sys (QuestionGenerator._extract_json sys ("```json" ++ s ++ "```"))
     = Json.loads sys (QuestionGenerator._extract_json sys s).
Proof.
  intros s H. subst s. unfold Evaluator._extract_json, QuestionGenerator._extract_json.
  rewrite (ExtractFacts.extract_json_fenced sys body H), (ExtractFacts.extract_json_bare sys body H).
  repeat split; reflexivity.
Qed.

Lemma extract_json_fenced_as_bare_witness :
  Py.str_in "```" Scenario.object_text = false
  /\ Json.loads Scenario.sys Scenario.object_text = Some (Json.JDict [("a", Json.JInt 1)])
  /\ Json.loads Scenario.sys (Evaluator._extract_json Scenario.sys ("```json" ++ Scenario.object_text ++ "```"))
     = Json.loads Scenario.sys (Evaluator._extract_json Scenario.sys Scenario.object_text).
Proof.
  assert (H : Py.str_in "```" Scenario.object_text = false) by (vm_compute; reflexivity).
  split; [exact H |]. split; [vm_compute; reflexivity |].
  exact (proj1 (proj2 (proj2 (proj2 (proj2
           (extract_json_fenced_as_bare Scenario.sys (Py.quoted "a" ++ ": 1") H)))))).
Defined.

(** C9 as stated fails: the object {"a":"```"} is valid JSON; fenced, the
    extraction stops at the fence inside the string and what it returns does
    not parse, while the bare text is extracted whole and parses. *)
Lemma extract_json_fenced_differs :
  let s := Scenario.object_with_fence_text in
  Json.loads Scenario.sys s = Some (Json.JDict [("a", Json.JStr "```")])
  /\ Evaluator._extract_json Scenario.sys ("```json" ++ s ++ "```") = "{" ++ Py.quoted "a" ++ ":" ++ Py.dq
  /\ Evaluator._extract_json Scenario.sys s = s
  /\ Json.loads Scenario.sys (Evaluator._extract_json Scenario.sys ("```json" ++ s ++ "```")) = None
  /\ Json.loads Scenario.sys (Evaluator._extract_json Scenario.sys s) = Some (Json.JDict [("a", Json.JStr "```")])
  /\ Json.loads Scenario.sys (Evaluator._extract_json Scenario.sys ("```json" ++ s ++ "```"))
     <> Json.loads Scenario.sys (Evaluator._extract_json Scenario.sys s).
Proof.
  cbv zeta. repeat split; try (vm_compute; reflexivity).
  vm_compute. discriminate.
Qed.

(** * Further properties of JSON extraction *)

(** ** What [_extract_json] hands to the JSON decoder *)

Module ExtractMore.

Import Client Notions StringFacts.

Local Arguments String.append : simpl nomatch.

Lemma split_from_occurs (sep : string) (s : string) :
  forall (skip : nat) (cur piece : string),
    skip = 0%nat \/ cur = "" ->
    In piece (Py.split_from sep skip cur s) -> occurs_in piece (cur ++ s).
Proof.
  induction s as [| c s IH]; intros skip cur piece Hinv Hin.
  - cbn [Py.split_from] in Hin. destruct Hin as [<- | []].
    rewrite StringFacts.append_nil_r. apply occurs_in_refl.
  - cbn [Py.split_from] in Hin. destruct skip as [| k].
    + destruct (Py.startswith sep (String c s)).
      * destruct Hin as [<- | Hin]; [apply occurs_in_prefix |].
        apply (IH _ "" piece (or_intror eq_refl)) in Hin. cbn [String.append] in Hin.
        eapply occurs_in_trans; [exact Hin |].
        eapply occurs_in_trans; [| apply occurs_in_suffix].
        apply occurs_in_cons, occurs_in_refl.
      * apply (IH _ _ piece (or_introl eq_refl)) in Hin.
        rewrite StringFacts.append_assoc in Hin. exact Hin.
    + destruct Hinv as [Hskip | ->]; [discriminate Hskip |].
      apply (IH _ "" piece (or_intror eq_refl)) in Hin. cbn [String.append] in *.
      apply occurs_in_cons, Hin.
Qed.

Lemma nth_split_occurs (sep s : string) (i : nat) :
  occurs_in (nth i (Py.split_sep sep s) "") s.
Proof.
  destruct (nth_in_or_default i (Py.split_sep sep s) "") as [Hin | ->].
  - apply (split_from_occurs sep s 0 "" _ (or_introl eq_refl)) in Hin. exact Hin.
  - exists "", s. reflexivity.
Qed.

Lemma from_first_suffix (c : ascii) (s rest : string) :
  from_first c s = Some rest -> exists before : string, s = before ++ rest.
Proof.
  induction s as [| a s IH]; cbn [from_first]; [discriminate |].
  destruct (Ascii.eqb a c).
  - intros [= <-]. exists "". reflexivity.
  - intros H. destruct (IH H) as [before ->]. exists (String a before). reflexivity.
Qed.

Lemma upto_last_prefix (c : ascii) (s : string) :
  forall r : string, upto_last c s = Some r -> exists after : string, s = r ++ after.
Proof.
  induction s as [| a s IH]; intros r; cbn [upto_last]; [discriminate |].
  destruct (upto_last c s) as [r' |].
  - intros [= <-]. destruct (IH r' eq_refl) as [after ->]. exists after. reflexivity.
  - destruct (Ascii.eqb a c); [| discriminate].
    intros [= <-]. exists s. reflexivity.
Qed.

Lemma re_search_braces_occurs (text found : string) :
  re_search_braces text = Some found -> occurs_in found text.
Proof.
  unfold re_search_braces. destruct (from_first "{" text) as [rest |] eqn:E; [| discriminate].
  intros H. apply from_first_suffix in E as [before ->].
  apply upto_last_prefix in H as [after ->]. exists before, after. reflexivity.
Qed.

Lemma fenced_occurs (fence text : string) :
  occurs_in
    (Py.strip (nth 0 (Py.split_sep "```" (nth 1 (Py.split_sep fence text) "")) "")) text.
Proof.
  eapply occurs_in_trans; [apply strip_occurs |].
  eapply occurs_in_trans; apply nth_split_occurs.
Qed.

Lemma from_first_found (c : ascii) (before rest : string) :
  Py.char_in c before = false ->
  from_first c (before ++ String c rest) = Some (String c rest).
Proof.
  induction before as [| a before IH]; cbn [Py.char_in String.append from_first].
  - intros _. rewrite Ascii.eqb_refl. reflexivity.
  - intros H. apply orb_false_iff in H as [Hac H].
    rewrite Ascii.eqb_sym, Hac. apply IH, H.
Qed.

Lemma from_first_absent (c : ascii) (s : string) :
  Py.char_in c s = false -> from_first c s = None.
Proof.
  induction s as [| a s IH]; cbn [Py.char_in from_first]; [reflexivity |].
  intros H. apply orb_false_iff in H as [Hac H].
  rewrite Ascii.eqb_sym, Hac. apply IH, H.
Qed.

Lemma upto_last_absent (c : ascii) (s : string) :
  Py.char_in c s = false -> upto_last c s = None.
Proof.
  induction s as [| a s IH]; cbn [Py.char_in upto_last]; [reflexivity |].
  intros H. apply orb_false_iff in H as [Hac H].
  rewrite (IH H), Ascii.eqb_sym, Hac. reflexivity.
Qed.

Lemma upto_last_found (c : ascii) (x after : string) :
  Py.char_in c after = false ->
  upto_last c (x ++ String c after) = Some (x ++ String c "").
Proof.
  intros Hafter. induction x as [| a x IH]; cbn [String.append upto_last].
  - rewrite (upto_last_absent _ _ Hafter), Ascii.eqb_refl. reflexivity.
  - rewrite IH. reflexivity.
Qed.

Lemma extract_json_unfenced (sys : Sys.t) (text : string) :
  Py.str_in "```" text = false ->
  _extract_json sys text
  = match re_search_braces text with Some json_match => json_match | None => text end.
Proof.
  intros H. unfold _extract_json. rewrite H, andb_false_r. reflexivity.
Qed.

End ExtractMore.

(** X6: whatever [_extract_json] returns is a piece of the text it was
    given: the function cuts, it never adds or changes a character. *)
Theorem extract_json_returns_a_piece (sys : Sys.t) (text : string) :
  Py.str_in (Client._extract_json sys text) text = true
  /\ Notions.occurs_in (Client._extract_json sys text) text.
Proof.
  assert (H : Notions.occurs_in (Client._extract_json sys text) text).
  { unfold Client._extract_json.
    destruct (Py.str_in "```json" text && Py.str_in "```" text).
    - apply ExtractMore.fenced_occurs.
    - destruct (Py.str_in "```" text).
      + destruct (Json.loads sys _).
        * apply ExtractMore.fenced_occurs.
        * destruct (Client.re_search_braces text) eqn:E.
          -- apply ExtractMore.re_search_braces_occurs, E.
          -- apply StringFacts.occurs_in_refl.
      + destruct (Client.re_search_braces text) eqn:E.
        * apply ExtractMore.re_search_braces_occurs, E.
        * apply StringFacts.occurs_in_refl. }
  split; [apply StringFacts.str_in_iff, H | exact H].
Qed.

(** X7: on a text without a code fence, [_extract_json] returns the span
    from the first opening brace to the last closing brace after it, and the
    text unchanged when there is no such span. *)
Theorem extract_json_first_to_last_brace (sys : Sys.t) (text : string) :
  Py.str_in "```" text = false ->
  (forall before mid after : string,
     text = before ++ "{" ++ mid ++ "}" ++ after ->
     Py.char_in "{" before = false -> Py.char_in "}" after = false ->
     Client._extract_json sys text = "{" ++ mid ++ "}")
  /\ (Py.char_in "{" text = false -> Client._extract_json sys text = text)
  /\ (forall before rest : string,
        text = before ++ "{" ++ rest ->
        Py.char_in "{" before = false -> Py.char_in "}" rest = false ->
        Client._extract_json sys text = text).
Proof.
  intros Hfence. rewrite (ExtractMore.extract_json_unfenced sys _ Hfence).
  unfold Client.re_search_braces. repeat split.
  - intros before mid after -> Hbefore Hafter.
    change ("{" ++ mid ++ "}" ++ after) with (String "{" (mid ++ String "}" after)).
    rewrite (ExtractMore.from_first_found _ _ _ Hbefore).
    change (String "{" (mid ++ String "}" after)) with (String "{" mid ++ String "}" after).
    rewrite (ExtractMore.upto_last_found _ _ _ Hafter). reflexivity.
  - intros Hnone. rewrite (ExtractMore.from_first_absent _ _ Hnone). reflexivity.
  - intros before rest Htext Hbefore Hrest. rewrite Htext at 1.
    change ("{" ++ rest) with (String "{" rest).
    rewrite (ExtractMore.from_first_found _ _ _ Hbefore).
    rewrite ExtractMore.upto_last_absent; [reflexivity |].
    cbn [Py.char_in]. rewrite Hrest. reflexivity.
Qed.

Lemma extract_json_first_to_last_brace_witness :
  Client._extract_json Scenario.sys "Sure} here: {'a': {'b': 1}} done" = "{'a': {'b': 1}}".
Proof.
  refine (proj1 (extract_json_first_to_last_brace Scenario.sys "Sure} here: {'a': {'b': 1}} done" _)
            "Sure} here: " "'a': {'b': 1}" " done" _ _ _); vm_compute; reflexivity.
Defined.

(** ** The loop over the candidate models *)

Module ClientFacts.

Import World Client.

(** The request the code builds is the one the specification describes,
    and the models it goes through are the candidates. *)
Lemma request_for_post (s : self) (temperature : Q) (prompt model_name : string) :
  request_for s temperature prompt model_name = Spec.post s temperature prompt model_name.
Proof. reflexivity. Qed.

Lemma all_models_candidates (s : self) : all_models s = Spec.candidates s.
Proof. reflexivity. Qed.

(** The content the code goes on with is the response string. *)
Lemma response_content_string (sys : Sys.t) (body : Json.value) :
  match response_content sys body with
  | Some (Json.JStr content) => Some content
  | _ => None
  end = Spec.response_string sys body.
Proof.
  destruct body as [| b | n | x | s | items | members];
    cbn [response_content Json.contains Json.get Json.getitem Spec.response_string];
    try reflexivity.
  - destruct (Py.str_in "text" s); cbn [orb]; [reflexivity |].
    destruct (Py.str_in "choices" s); reflexivity.
  - fold (Spec.holds "text" items). fold (Spec.holds "choices" items).
    destruct (Spec.holds "text" items); cbn [orb]; [reflexivity |].
    destruct (Spec.holds "choices" items); [reflexivity |].
    destruct (Json.str sys (Json.JList items)); reflexivity.
  - destruct (Json.dict_get "text" members) as [text |].
    + destruct text; reflexivity.
    + destruct (Json.dict_get "choices" members) as [choices |].
      * destruct choices as [| b | n | x | s | items | choice_members];
          cbn [Json.len Json.first]; try reflexivity.
        -- change (0 <? Z.of_nat (Py.len s))%Z with (0 <? Z.of_nat (Py.len s))%Z.
           destruct (Py.len s) as [| k] eqn:Hlen.
           ++ cbn [Z.of_nat Z.ltb Z.compare Nat.ltb Nat.leb].
              destruct (Json.str sys (Json.JDict members)); reflexivity.
           ++ replace (0 <? Z.of_nat (S k))%Z with true by (symmetry; apply Z.ltb_lt; lia).
              replace (0 <? S k)%nat with true by (symmetry; apply Nat.ltb_lt; lia).
              destruct (Py.chars s); reflexivity.
        -- destruct items as [| item rest].
           ++ cbn [length Z.of_nat Z.ltb Z.compare].
              destruct (Json.str sys (Json.JDict members)); reflexivity.
           ++ replace (0 <? Z.of_nat (length (item :: rest)))%Z with true
                by (symmetry; apply Z.ltb_lt; cbn [length]; lia).
              destruct item as [| b | n | x | s | items | choice]; cbn [Json.get]; try reflexivity.
              destruct (Json.dict_get "text" choice) as [text |]; [| reflexivity].
              destruct text; reflexivity.
        -- destruct choice_members as [| member rest].
           ++ cbn [length Z.of_nat Z.ltb Z.compare].
              destruct (Json.str sys (Json.JDict members)); reflexivity.
           ++ replace (0 <? Z.of_nat (length (member :: rest)))%Z with true
                by (symmetry; apply Z.ltb_lt; cbn [length]; lia).
              reflexivity.
      * destruct (Json.str sys (Json.JDict members)); reflexivity.
Qed.

(** The branch of a 200 response gives what the candidate yields. *)
Lemma on_success_yields (sys : Sys.t) (text : string) (json : option Json.value) :
  on_success sys json = Spec.yields sys (Response 200 text json).
Proof.
  unfold on_success. cbn [Spec.yields]. destruct json as [body |]; [| reflexivity].
  rewrite <- response_content_string.
  destruct (response_content sys body) as [[| | | | content | |] |]; reflexivity.
Qed.

(** A status other than 200 yields nothing. *)
Lemma yields_other_status (sys : Sys.t) (status_code : Z) (text : string)
    (json : option Json.value) :
  status_code <> 200%Z -> Spec.yields sys (Response status_code text json) = None.
Proof.
  intros Hstatus. unfold Spec.yields.
  destruct status_code as [| p | p]; try reflexivity.
  do 8 (try (destruct p as [p | p |]; try reflexivity)).
  contradiction.
Qed.

Section Loop.

Variables (sys : Sys.t) (server : endpoint) (s : self) (temperature : Q) (prompt : string).

Let sent := request_for s temperature prompt.

(** What the endpoint answers to the model at position [i] of [models]
    once those before it have been posted after [log]. *)
Let yield_of (log : list request) (models : list string) (i : nat) :=
  option_map (Spec.yields sys)
    (match models !! i with
     | Some model_name => Some (server (log ++ map sent (take i models))%list (sent model_name))
     | None => None
     end).

(** One turn of the loop: a candidate that yields nothing hands over to the
    next one, a candidate that yields JSON ends the loop. *)
Lemma try_models_step (model_name : string) (rest : list string) (log : list request) :
  try_models sys server s temperature prompt (model_name :: rest) log
  = match Spec.yields sys (server log (sent model_name)) with
    | Some parsed => (Some parsed, (log ++ [sent model_name])%list)
    | None => try_models sys server s temperature prompt rest (log ++ [sent model_name])%list
    end.
Proof.
  cbn [try_models]. fold sent.
  destruct (server log (sent model_name)) as [status_code text json |]; [| reflexivity].
  destruct (status_code =? 200)%Z eqn:E.
  - apply Z.eqb_eq in E. subst status_code. rewrite (on_success_yields sys text json).
    reflexivity.
  - apply Z.eqb_neq in E. rewrite (yields_other_status sys _ text json E).
    destruct ((status_code =? 404)%Z && Py.str_in "Model not found" text); reflexivity.
Qed.

Lemma yield_of_head (model_name : string) (rest : list string) (log : list request) :
  yield_of log (model_name :: rest) 0
  = Some (Spec.yields sys (server log (sent model_name))).
Proof.
  unfold yield_of. cbn [lookup list_lookup take map option_map].
  rewrite app_nil_r. reflexivity.
Qed.

Lemma yield_of_tail (model_name : string) (rest : list string) (log : list request)
    (j : nat) :
  yield_of log (model_name :: rest) (S j)
  = yield_of (log ++ [sent model_name])%list rest j.
Proof.
  unfold yield_of. cbn [lookup list_lookup take map].
  destruct (rest !! j); [| reflexivity]. cbn [option_map].
  rewrite <- app_assoc. reflexivity.
Qed.

Lemma try_models_spec (models : list string) (log : list request) :
  match try_models sys server s temperature prompt models log with
  | (Some parsed, log') =>
      exists i : nat,
        (i < length models)%nat
        /\ (forall j : nat, (j < i)%nat -> yield_of log models j = Some None)
        /\ yield_of log models i = Some (Some parsed)
        /\ log' = (log ++ map sent (take (S i) models))%list
  | (None, log') =>
      (forall j : nat, (j < length models)%nat -> yield_of log models j = Some None)
      /\ log' = (log ++ map sent models)%list
  end.
Proof.
  revert log. induction models as [| model_name rest IH]; intros log.
  - cbn [try_models]. split; [cbn [length]; lia | cbn [map]; rewrite app_nil_r; reflexivity].
  - rewrite try_models_step.
    destruct (Spec.yields sys (server log (sent model_name))) as [parsed |] eqn:Hhead.
    + exists 0%nat. cbn [length]. split; [lia |]. split; [lia |].
      split; [rewrite yield_of_head, Hhead; reflexivity |].
      cbn [take map]. reflexivity.
    + specialize (IH (log ++ [sent model_name])%list).
      destruct (try_models sys server s temperature prompt rest (log ++ [sent model_name])%list)
        as [[parsed |] log'].
      * destruct IH as (i & Hi & Hbefore & Hat & Hlog). exists (S i).
        cbn [length]. split; [lia |]. split; [| split].
        -- intros [| j] Hj; [rewrite yield_of_head, Hhead; reflexivity |].
           rewrite yield_of_tail. apply Hbefore. lia.
        -- rewrite yield_of_tail. exact Hat.
        -- rewrite Hlog, <- app_assoc. reflexivity.
      * destruct IH as (Hall & Hlog). split.
        -- intros [| j] Hj; [rewrite yield_of_head, Hhead; reflexivity |].
           rewrite yield_of_tail. apply Hall. cbn [length] in Hj. lia.
        -- rewrite Hlog, <- app_assoc. reflexivity.
Qed.

End Loop.

(** The contract holds of the shared loop, whatever the temperature and the
    message of the final exception. *)
Lemma make_api_request_contract (temperature : Q) (failure : string) :
  Spec.api_request_contract temperature failure
    (fun sys server s prompt log =>
       make_api_request sys server s temperature failure prompt log).
Proof.
  intros sys server s prompt log yield_of.
  pose proof (try_models_spec sys server s temperature prompt (all_models s) log) as Hspec.
  unfold make_api_request.
  destruct (try_models sys server s temperature prompt (all_models s) log)
    as [[parsed |] log'].
  - destruct Hspec as (i & Hi & Hbefore & Hat & Hlog). exists i. auto.
  - destruct Hspec as (Hall & Hlog). auto.
Qed.

(** A call that meets the contract raises exactly when no candidate yields
    anything. *)
Lemma contract_raises_iff (temperature : Q) (failure : string)
    (run : Sys.t -> endpoint -> self -> string -> list request
           -> result Json.value * list request) :
  Spec.api_request_contract temperature failure run ->
  Spec.raises_iff_all_fail temperature run.
Proof.
  intros Hcontract sys server s prompt log.
  specialize (Hcontract sys server s prompt log). cbv zeta in Hcontract.
  destruct (run sys server s prompt log) as [[parsed | message] log']; cbn [fst].
  - destruct Hcontract as (i & Hi & _ & Hat & _). split.
    + intros [message Hraise]. discriminate Hraise.
    + intros Hall. rewrite (Hall i Hi) in Hat. discriminate Hat.
  - destruct Hcontract as (Hall & _). split; [intros _; exact Hall | intros _; eauto].
Qed.

End ClientFacts.

(** * The claim about the completion client *)

(** C2, as the code has it: _make_api_request posts to the primary model
    and then to the alternates in their listed order, each at most once; a
    candidate whose post raises or whose status is not 200 (a 404 "Model not
    found" among them) or whose 200 body gives no JSON that extracts and
    parses hands over to the next candidate; the call returns the JSON value
    parsed from the first candidate that yields one, an object or not, and
    posts nothing after it; and it raises, with the message of its class,
    exactly when no candidate yields a JSON value. This holds of both
    classes. *)
Theorem make_api_request_model_fallback :
  Spec.api_request_contract (3 # 10) "All models failed to evaluate the answer"
    Evaluator._make_api_request
  /\ Spec.api_request_contract (7 # 10) "All models failed to generate a question"
       QuestionGenerator._make_api_request
  /\ Spec.raises_iff_all_fail (3 # 10) Evaluator._make_api_request
  /\ Spec.raises_iff_all_fail (7 # 10) QuestionGenerator._make_api_request
  /\ (forall (sys : Sys.t) (status_code : Z) (text : string) (json : option Json.value),
        status_code <> 200%Z ->
        Spec.yields sys (World.Response status_code text json) = None)
  /\ (forall sys : Sys.t, Spec.yields sys World.RequestException = None)
  /\ (forall (sys : Sys.t) (text : string), Spec.yields sys (World.Response 200 text None) = None).
Proof.
  pose proof (ClientFacts.make_api_request_contract (3 # 10)
                "All models failed to evaluate the answer") as Hevaluator.
  pose proof (ClientFacts.make_api_request_contract (7 # 10)
                "All models failed to generate a question") as Hgenerator.
  split; [exact Hevaluator |]. split; [exact Hgenerator |].
  split; [exact (ClientFacts.contract_raises_iff _ _ _ Hevaluator) |].
  split; [exact (ClientFacts.contract_raises_iff _ _ _ Hgenerator) |].
  split; [exact ClientFacts.yields_other_status |].
  split; reflexivity.
Qed.

(** C2 as stated fails: when the text of the model is the number 5, the
    call returns the number 5, which is no JSON object, and does not raise,
    after one post. *)
Lemma make_api_request_returns_number :
  Evaluator._make_api_request Scenario.sys Scenario.server_number Scenario.self "prompt" []
  = (World.Ok (Json.JInt 5),
     [Spec.post Scenario.self (3 # 10) "prompt" Config.SAMBANOVA_MODEL_NAME])
  /\ QuestionGenerator._make_api_request Scenario.sys Scenario.server_number Scenario.self
       "prompt" []
     = (World.Ok (Json.JInt 5),
        [Spec.post Scenario.self (7 # 10) "prompt" Config.SAMBANOVA_MODEL_NAME]).
Proof. split; vm_compute; reflexivity. Qed.

(** The scenario of the specification: the primary model answers 404
    "Model not found", the first alternate answers 200 with a JSON payload;
    the call returns that payload after exactly two posts, the primary first
    and the alternate second. *)
Example make_api_request_second_model :
  let '(answer, log) :=
    Evaluator._make_api_request Scenario.sys Scenario.server_primary_missing Scenario.self
      "prompt" [] in
  answer = World.Ok (Json.JDict [("is_correct", Json.JBool true);
                                 ("explanation", Json.JStr "ok")])
  /\ map (fun sent => World.model (World.json sent)) log
     = ["sambanova-llm"; "sambanova-chat"].
Proof. vm_compute. split; reflexivity. Qed.

(** ** Questions from the completion API and from the static table *)

Module GeneratorFacts.

Import World Json QuestionGenerator Spec Notions.

Lemma lookup_question4 (a b c d : value) :
  ({[ "question_type" := a; "question_content" := b;
      "expected_answer" := c; "media_path" := d ]} : gmap string value) !! "question_content"
  = Some b
  /\ ({[ "question_type" := a; "question_content" := b;
         "expected_answer" := c; "media_path" := d ]} : gmap string value) !! "expected_answer"
     = Some c.
Proof. split; reflexivity. Qed.

Lemma lookup_question5 (a b c d e : value) :
  ({[ "question_type" := a; "question_content" := b; "expected_answer" := c;
      "image_description" := d; "media_path" := e ]} : gmap string value) !! "question_content"
  = Some b
  /\ ({[ "question_type" := a; "question_content" := b; "expected_answer" := c;
         "image_description" := d; "media_path" := e ]} : gmap string value) !! "expected_answer"
     = Some c.
Proof. split; reflexivity. Qed.

(** The static table yields the entry of the level, and the Intermediate
    one for a level it does not list. *)
Lemma fallback_question_entry (skill level : string) :
  _generate_fallback_question skill level = Ok (fallback_entry skill level).
Proof.
  unfold _generate_fallback_question, fallback_entry, fallback_texts.
  destruct (String.eqb level "Beginner") eqn:Hb.
  { apply String.eqb_eq in Hb. subst level.
    rewrite bool_decide_eq_true_2 by (eexists; reflexivity). reflexivity. }
  destruct (String.eqb level "Advanced") eqn:Ha.
  { apply String.eqb_eq in Ha. subst level.
    rewrite bool_decide_eq_true_2 by (eexists; reflexivity). reflexivity. }
  destruct (String.eqb level "Intermediate") eqn:Hi.
  { apply String.eqb_eq in Hi. subst level.
    rewrite bool_decide_eq_true_2 by (eexists; reflexivity). reflexivity. }
  apply String.eqb_neq in Hb, Ha, Hi.
  assert (Hnone : fallback_questions skill !! level = None).
  { unfold fallback_questions.
    rewrite !lookup_insert_ne by congruence. apply lookup_singleton_ne. congruence. }
  rewrite Hnone, (bool_decide_eq_false_2 _ (is_Some_None (A := gmap string value))).
  reflexivity.
Qed.

Lemma fallback_texts_nonempty (skill level : string) :
  fst (fallback_texts skill level) <> "" /\ snd (fallback_texts skill level) <> "".
Proof.
  unfold fallback_texts.
  destruct (String.eqb level "Beginner"); [| destruct (String.eqb level "Advanced")];
    cbn [fst snd]; split; apply StringFacts.append_nonempty; discriminate.
Qed.

Lemma content_from_table_nonempty (question_type skill level : string) :
  content_from_table question_type skill (fst (fallback_texts skill level)) <> "".
Proof.
  unfold content_from_table.
  destruct (String.eqb question_type "Text"); [apply fallback_texts_nonempty |].
  destruct (String.eqb question_type "Audio"); apply StringFacts.append_nonempty; discriminate.
Qed.

Lemma text_question_of_usable (sys : Sys.t) (answer : result value) :
  match text_question_of answer with
  | Some question => usable sys "Text" answer = true /\ from_api sys "Text" answer question
  | None => usable sys "Text" answer = false
  end.
Proof.
  destruct answer as [data | message]; [| reflexivity].
  destruct data as [| b | n | x | s | items | members]; try reflexivity.
  unfold text_question_of, usable, has_keys.
  change (required_keys "Text") with ["question"; "expected_answer"].
  change (printed_keys "Text") with (@nil string).
  cbn [forallb getitem].
  destruct (dict_get "question" members) as [q |] eqn:Hq; [| reflexivity].
  destruct (dict_get "expected_answer" members) as [e |] eqn:He; [| reflexivity].
  cbn [andb]. split; [reflexivity |].
  exists (JDict members). unfold content_from_api.
  change (String.eqb "Text" "Text") with true. cbn iota. cbn [getitem]. rewrite Hq, He.
  split; [reflexivity |]. split; [apply lookup_question4 |].
  split; [eauto |]. split; [apply lookup_question4 | eauto].
Qed.

Lemma audio_question_of_usable (sys : Sys.t) (answer : result value) :
  match audio_question_of sys answer with
  | Some question => usable sys "Audio" answer = true /\ from_api sys "Audio" answer question
  | None => usable sys "Audio" answer = false
  end.
Proof.
  destruct answer as [data | message]; [| reflexivity].
  destruct data as [| b | n | x | s | items | members]; try reflexivity.
  unfold audio_question_of, usable, has_keys.
  change (required_keys "Audio") with ["audio_scenario"; "question"; "expected_answer"].
  change (printed_keys "Audio") with ["audio_scenario"; "question"].
  cbn [forallb getitem].
  destruct (dict_get "audio_scenario" members) as [a |] eqn:Ha; [| reflexivity].
  destruct (dict_get "question" members) as [q |] eqn:Hq; [| reflexivity].
  destruct (dict_get "expected_answer" members) as [e |] eqn:He; [| reflexivity].
  cbn [andb].
  destruct (str sys a) as [scenario_text |] eqn:Hsa; [| reflexivity].
  destruct (str sys q) as [question_text |] eqn:Hsq; [| reflexivity].
  split; [reflexivity |].
  exists (JDict members). unfold content_from_api.
  change (String.eqb "Audio" "Text") with false.
  change (String.eqb "Audio" "Audio") with true. cbn iota. cbn [getitem].
  rewrite Ha, Hq, He, Hsa, Hsq.
  split; [reflexivity |]. split; [apply lookup_question4 |].
  split; [eauto |]. split; [apply lookup_question4 | eauto].
Qed.

Lemma image_question_of_usable (sys : Sys.t) (answer : result value) :
  match image_question_of sys answer with
  | Some question => usable sys "Image" answer = true /\ from_api sys "Image" answer question
  | None => usable sys "Image" answer = false
  end.
Proof.
  destruct answer as [data | message]; [| reflexivity].
  destruct data as [| b | n | x | s | items | members]; try reflexivity.
  unfold image_question_of, usable, has_keys.
  change (required_keys "Image") with ["image_description"; "question"; "expected_answer"].
  change (printed_keys "Image") with ["question"].
  cbn [forallb getitem].
  destruct (dict_get "image_description" members) as [a |] eqn:Ha; [| reflexivity].
  destruct (dict_get "question" members) as [q |] eqn:Hq; [| reflexivity].
  destruct (dict_get "expected_answer" members) as [e |] eqn:He; [| reflexivity].
  cbn [andb].
  destruct (str sys q) as [question_text |] eqn:Hsq; [| reflexivity].
  split; [reflexivity |].
  exists (JDict members). unfold content_from_api.
  change (String.eqb "Image" "Text") with false.
  change (String.eqb "Image" "Audio") with false. cbn iota. cbn [getitem].
  rewrite Hq, He, Hsq.
  split; [reflexivity |]. split; [apply lookup_question5 |].
  split; [eauto |]. split; [apply lookup_question5 | eauto].
Qed.

Lemma generate_text_question_ok (sys : Sys.t) (server : endpoint) (self : Client.self)
    (skill level : string) (log : list request) :
  generated sys "Text" skill level
    (_make_api_request sys server self (_create_text_question_prompt skill level) log)
    (_generate_text_question sys server self skill level log).
Proof.
  unfold generated, _generate_text_question.
  destruct (_make_api_request sys server self (_create_text_question_prompt skill level) log)
    as [answer log'].
  cbn [fst snd]. pose proof (text_question_of_usable sys answer) as Hq.
  destruct (text_question_of answer) as [question |].
  - destruct Hq as [-> Hq]. eauto.
  - rewrite Hq, fallback_question_entry. eexists. split; [reflexivity |].
    split; [apply lookup_question4 |]. split; [apply lookup_question4 |].
    split; [apply (content_from_table_nonempty "Text") | apply fallback_texts_nonempty].
Qed.

Lemma generate_audio_question_ok (sys : Sys.t) (server : endpoint) (self : Client.self)
    (skill level : string) (log : list request) :
  generated sys "Audio" skill level
    (_make_api_request sys server self (audio_prompt skill level) log)
    (_generate_audio_question sys server self skill level log).
Proof.
  unfold generated, _generate_audio_question.
  destruct (_make_api_request sys server self (audio_prompt skill level) log)
    as [answer log'].
  cbn [fst snd]. pose proof (audio_question_of_usable sys answer) as Hq.
  destruct (audio_question_of sys answer) as [question |].
  - destruct Hq as [-> Hq]. eauto.
  - rewrite Hq, fallback_question_entry. eexists. split; [reflexivity |].
    split; [| split; [apply lookup_question4 |
                      split; [apply (content_from_table_nonempty "Audio")
                             | apply fallback_texts_nonempty]]].
    etransitivity; [apply lookup_question4 |]. unfold content_from_table.
    change (String.eqb "Audio" "Text") with false.
    change (String.eqb "Audio" "Audio") with true. cbn iota. unfold nl.
    rewrite !StringFacts.append_assoc. reflexivity.
Qed.

Lemma generate_image_question_ok (sys : Sys.t) (server : endpoint) (self : Client.self)
    (skill level : string) (log : list request) :
  generated sys "Image" skill level
    (_make_api_request sys server self (image_prompt skill level) log)
    (_generate_image_question sys server self skill level log).
Proof.
  unfold generated, _generate_image_question.
  destruct (_make_api_request sys server self (image_prompt skill level) log)
    as [answer log'].
  cbn [fst snd]. pose proof (image_question_of_usable sys answer) as Hq.
  destruct (image_question_of sys answer) as [question |].
  - destruct Hq as [-> Hq]. eauto.
  - rewrite Hq, fallback_question_entry. eexists. split; [reflexivity |].
    split; [apply lookup_question5 |]. split; [apply lookup_question5 |].
    split; [apply (content_from_table_nonempty "Image") | apply fallback_texts_nonempty].
Qed.

End GeneratorFacts.

(** * The claim about question generation *)

(** C1, as the code has it: for every skill, level and question_type and
    whatever the endpoint does, generate_question returns without raising.
    For Text, Audio and Image, when every completion call fails or the
    answer is not an object holding every required key (with values that
    can be printed where the question prints them), question_content is
    built from the question of the static fallback table, expected_answer
    is the table's, and both are non-empty; when the answer is usable,
    expected_answer (and, for Text, question_content) is whatever the answer
    holds, empty or not. For any other question_type no request is made and
    the entry of the table itself is returned, with non-empty question and
    expected_answer. *)
Theorem generate_question_returns_question (sys : Sys.t) (server : World.endpoint)
    (self : Client.self) (skill level question_type : string) (log : list World.request) :
  let call :=
    QuestionGenerator._make_api_request sys server self
      (Spec.prompt_for question_type skill level) log in
  exists (question : gmap string Json.value) (log' : list World.request),
    QuestionGenerator.generate_question sys server self skill level question_type log
      = (World.Ok question, log')
    /\ if Spec.supported question_type then
         log' = snd call
         /\ if Spec.usable sys question_type (fst call)
            then Spec.from_api sys question_type (fst call) question
            else Spec.from_table question_type skill level question
       else
         log' = log
         /\ question = Spec.fallback_entry skill level
         /\ question !! "question" = Some (Json.JStr (fst (Spec.fallback_texts skill level)))
         /\ question !! "expected_answer"
            = Some (Json.JStr (snd (Spec.fallback_texts skill level)))
         /\ fst (Spec.fallback_texts skill level) <> ""
         /\ snd (Spec.fallback_texts skill level) <> "".
Proof.
  cbv zeta. unfold QuestionGenerator.generate_question, Spec.supported, Spec.prompt_for.
  destruct (String.eqb question_type "Text") eqn:Htext.
  { apply String.eqb_eq in Htext. subst question_type.
    destruct (GeneratorFacts.generate_text_question_ok sys server self skill level log)
      as (question & Hreturned & Hquestion).
    eexists _, _. split; [exact Hreturned |]. split; [reflexivity | exact Hquestion]. }
  destruct (String.eqb question_type "Audio") eqn:Haudio.
  { apply String.eqb_eq in Haudio. subst question_type.
    destruct (GeneratorFacts.generate_audio_question_ok sys server self skill level log)
      as (question & Hreturned & Hquestion).
    eexists _, _. split; [exact Hreturned |]. split; [reflexivity | exact Hquestion]. }
  destruct (String.eqb question_type "Image") eqn:Himage.
  { apply String.eqb_eq in Himage. subst question_type.
    destruct (GeneratorFacts.generate_image_question_ok sys server self skill level log)
      as (question & Hreturned & Hquestion).
    eexists _, _. split; [exact Hreturned |]. split; [reflexivity | exact Hquestion]. }
  cbn [orb]. rewrite GeneratorFacts.fallback_question_entry.
  eexists _, _. split; [reflexivity |].
  split; [reflexivity |]. split; [reflexivity |].
  split; [reflexivity |]. split; [reflexivity |].
  apply GeneratorFacts.fallback_texts_nonempty.
Qed.

(** C1 as stated fails: when the endpoint answers 200 with a JSON object
    that holds both keys with empty texts, the Text question comes back with
    empty question_content and empty expected_answer. *)
Lemma generate_question_empty_texts :
  match QuestionGenerator.generate_question Scenario.sys Scenario.server_empty_question
          Scenario.self "Communication" "Beginner" "Text" [] with
  | (World.Ok question, _) =>
      question !! "question_content" = Some (Json.JStr "")
      /\ question !! "expected_answer" = Some (Json.JStr "")
  | (World.Raise _, _) => False
  end.
Proof. vm_compute. split; reflexivity. Qed.

(** The end-to-end scenario of the specification: with every model failing,
    a Text question for Communication at Beginner level is the Beginner row
    of the table, after one post to each of the five models. *)
Example generate_question_server_down :
  match QuestionGenerator.generate_question Scenario.sys Scenario.server_down Scenario.self
          "Communication" "Beginner" "Text" [] with
  | (World.Ok question, log) =>
      question !! "question_content"
        = Some (Json.JStr "Explain the core concepts of Communication at a beginner level. What are the fundamental ideas someone new to Communication should understand?")
      /\ question !! "expected_answer"
         = Some (Json.JStr "A good answer should cover the basic principles of Communication, define key terminology, and explain foundational concepts without advanced jargon. The answer should be accessible to someone with no prior knowledge of Communication.")
      /\ map (fun sent => World.model (World.json sent)) log
         = ["sambanova-llm"; "sambanova-chat"; "sambanova-1.5-chat"; "llama-7b"; "llama2-7b"]
  | (World.Raise _, _) => False
  end.
Proof. vm_compute. repeat split; reflexivity. Qed.

(** * The claim about the session score *)

(** C7, as the code has it: finalizing a session whose three evaluations
    have is_correct = [true, false, true] sets and returns score = 66, the
    integer part of 2/3 * 100 (66.67 truncated, not rounded). *)
Theorem end_session_two_of_three (now : Z) (session_id : string) (st : App.state)
    (found : App.session) :
  App.active_sessions st !! session_id = Some found ->
  map fst (App.evaluations found) = [true; false; true] ->
  fst (App.end_session now session_id st) = 66%Z
  /\ option_map App.score
       (App.active_sessions (snd (App.end_session now session_id st)) !! session_id)
     = Some 66%Z
  /\ B64.trunc (B64.mul (B64.div_int 2 3) (B64.of_int 100)) = 66%Z
  /\ (inject_Z 66 <= B64.to_Q (B64.mul (B64.div_int 2 3) (B64.of_int 100)))%Q
  /\ (B64.to_Q (B64.mul (B64.div_int 2 3) (B64.of_int 100)) < inject_Z 67)%Q.
Proof.
  intros Hfound Hevals.
  assert (Hscore : B64.trunc (B64.mul (B64.div_int 2 3) (B64.of_int 100)) = 66%Z)
    by (vm_compute; reflexivity).
  destruct found as [sk lv st0 et qs idx ans evals sc]. cbn [App.evaluations] in Hevals.
  destruct evals as [| [b1 e1] [| [b2 e2] [| [b3 e3] [| ? ?]]]]; try discriminate Hevals.
  cbn [map fst] in Hevals. injection Hevals as -> -> ->.
  unfold App.end_session. rewrite Hfound.
  cbn [App.set_end_time App.evaluations App.skill App.level App.start_time App.end_time
       App.questions App.current_question_index App.answers App.score length Nat.ltb Nat.leb
       fold_left fst App.set_score snd App.active_sessions].
  change (0 + 1 + 1)%Z with 2%Z. change (Z.of_nat 3) with 3%Z. rewrite Hscore.
  split; [reflexivity |]. split; [rewrite lookup_insert_eq; reflexivity |].
  split; [reflexivity |]. split; [vm_compute; discriminate | vm_compute; reflexivity].
Qed.

Lemma end_session_two_of_three_witness :
  fst (App.end_session 1700000000 "session-1" Scenario.state_of_three) = 66%Z.
Proof.
  refine (proj1 (end_session_two_of_three 1700000000 "session-1" Scenario.state_of_three
                   Scenario.session_of_three _ _)).
  - vm_compute. reflexivity.
  - reflexivity.
Defined.

(** C7 as stated fails: the score is not 67. *)
Lemma end_session_two_of_three_not_67 :
  fst (App.end_session 1700000000 "session-1" Scenario.state_of_three) <> 67%Z.
Proof. vm_compute. discriminate. Qed.

(** * The claim about answer normalization *)

(** C8, as the code has it: a Text answer passes through unchanged, also
    when it is empty or None; an Audio answer with media becomes "Audio
    Answer Transcript: " followed by the transcription of answer_media; an
    Image answer with media becomes "Image Answer Description: " followed by
    the caption; and for a type other than Text with no media, a non-empty
    answer passes through and an empty or missing one becomes the
    placeholder "No answer provided". *)
Theorem process_answer_cases (files : Evaluator.media) (answer : option string)
    (answer_type : string) (media_path : option string) :
  let result := Evaluator._process_answer files answer answer_type media_path in
  (answer_type = "Text" -> result = answer)
  /\ (forall path : string,
        answer_type = "Audio" -> media_path = Some path -> path <> "" ->
        result = Some ("Audio Answer Transcript: "
                         ++ AudioTranscriber.transcribe_audio
                              (Evaluator.transcribe_with_sambanova files) path))
  /\ (forall path : string,
        answer_type = "Image" -> media_path = Some path -> path <> "" ->
        result = Some "Image Answer Description: An image showing a person demonstrating soft skills in a professional environment.")
  /\ (answer_type <> "Text" -> media_path = None \/ media_path = Some "" ->
      answer = None \/ answer = Some "" -> result = Some "No answer provided")
  /\ (forall text : string,
        answer_type <> "Text" -> media_path = None \/ media_path = Some "" ->
        answer = Some text -> text <> "" -> result = answer).
Proof.
  cbv zeta. unfold Evaluator._process_answer.
  split; [intros ->; reflexivity |].
  split.
  { intros path -> -> Hpath. cbn [String.eqb Ascii.eqb Bool.eqb andb].
    apply String.eqb_neq in Hpath. rewrite Hpath. reflexivity. }
  split.
  { intros path -> -> Hpath. cbn [String.eqb Ascii.eqb Bool.eqb andb].
    apply String.eqb_neq in Hpath. rewrite Hpath. reflexivity. }
  split.
  { intros Htype Hmedia Hanswer. apply String.eqb_neq in Htype. rewrite Htype.
    destruct Hmedia as [-> | ->], Hanswer as [-> | ->]; cbn [String.eqb negb andb];
      rewrite ?andb_false_r; reflexivity. }
  intros text Htype Hmedia -> Htext. apply String.eqb_neq in Htype. rewrite Htype.
  apply String.eqb_neq in Htext.
  destruct Hmedia as [-> | ->]; cbn [String.eqb negb andb];
    rewrite ?andb_false_r, Htext; reflexivity.
Qed.

Lemma process_answer_cases_witness :
  Evaluator._process_answer Scenario.no_files None "Audio" (Some "audio/answer.wav")
  = Some "Audio Answer Transcript: This is a fallback transcription. The SambaNova API could not process this audio.".
Proof.
  refine (proj1 (proj2 (process_answer_cases Scenario.no_files None "Audio"
                          (Some "audio/answer.wav"))) "audio/answer.wav" _ _ _).
  - reflexivity.
  - reflexivity.
  - discriminate.
Defined.

(** C8 as stated fails: a Text answer that is empty, with no media, passes
    through as the empty text and is not replaced by the placeholder. *)
Lemma process_answer_empty_text :
  Evaluator._process_answer Scenario.no_files (Some "") "Text" None = Some ""
  /\ Evaluator._process_answer Scenario.no_files (Some "") "Text" None
     <> Some "No answer provided".
Proof. split; [reflexivity | discriminate]. Qed.

(** ** [evaluate_answer]: the request, the verdict and the fallback *)

Module EvaluateFacts.

Import World Client Evaluator Notions StringFacts.

Local Arguments String.append : simpl nomatch.

Lemma try_models_never_usable (sys : Sys.t) (server : endpoint) (s : self) (temperature : Q)
    (prompt : string) (models : list string) :
  never_usable sys server ->
  forall log : list request,
    try_models sys server s temperature prompt models log
    = (None, (log ++ map (Spec.post s temperature prompt) models)%list).
Proof.
  intros Hdown. induction models as [| model_name rest IH]; intros log.
  - cbn [try_models map]. rewrite app_nil_r. reflexivity.
  - rewrite ClientFacts.try_models_step, (Hdown log _), IH.
    cbn [map]. rewrite <- app_assoc. reflexivity.
Qed.

Lemma make_api_request_never_usable (sys : Sys.t) (server : endpoint) (s : self)
    (temperature : Q) (failure prompt : string) (log : list request) :
  never_usable sys server ->
  make_api_request sys server s temperature failure prompt log
  = (Raise failure, (log ++ requests_to_all s temperature prompt)%list).
Proof.
  intros Hdown. unfold make_api_request.
  rewrite (try_models_never_usable _ _ _ _ _ _ Hdown). reflexivity.
Qed.

Lemma make_api_request_first (sys : Sys.t) (server : endpoint) (s : self) (temperature : Q)
    (failure prompt : string) (parsed : Json.value) (log : list request) :
  Spec.yields sys (server log (Spec.post s temperature prompt (model_name s))) = Some parsed ->
  make_api_request sys server s temperature failure prompt log
  = (Ok parsed, (log ++ [Spec.post s temperature prompt (model_name s)])%list).
Proof.
  intros Hparsed. unfold make_api_request, all_models.
  rewrite ClientFacts.try_models_step.
  change (request_for s temperature prompt (model_name s))
    with (Spec.post s temperature prompt (model_name s)).
  rewrite Hparsed. reflexivity.
Qed.

Lemma process_answer_none (files : media) (answer : option string) (answer_type : string)
    (media_path : option string) :
  _process_answer files answer answer_type media_path = None
  <-> answer_type = "Text" /\ answer = None.
Proof.
  unfold _process_answer. destruct (String.eqb answer_type "Text") eqn:Etext.
  - apply String.eqb_eq in Etext. split; [intros ->; auto | intros [_ ->]; reflexivity].
  - apply String.eqb_neq in Etext.
    assert (Hdefault :
              (if match answer with Some s => negb (String.eqb s "") | None => false end
               then answer else Some "No answer provided") <> None).
    { destruct answer as [s |]; [destruct (negb (String.eqb s "")) |]; discriminate. }
    split; [| intros [H _]; contradiction].
    destruct media_path as [path |]; [| intros H; contradiction].
    destruct (String.eqb answer_type "Audio" && _); [discriminate |].
    destruct (String.eqb answer_type "Image" && _); [discriminate |].
    intros H. contradiction.
Qed.

Lemma evaluation_of_usable (answer : result Json.value) :
  verdict_usable answer = false <-> evaluation_of answer = None.
Proof.
  unfold verdict_usable, evaluation_of.
  destruct answer as [[| | | | | | members] |]; try tauto.
  destruct (Json.dict_get "is_correct" members), (Json.dict_get "explanation" members);
    split; intros H; try reflexivity; discriminate H.
Qed.

(** The grader called after the [try] block raises on an answer that is
    [None] and on an expected answer that is no string. *)
Lemma graded_raises (processed_answer : option string) (expected_answer : Json.value) :
  (exists message : string, graded processed_answer expected_answer = Raise message)
  <-> processed_answer = None \/ is_text expected_answer = false.
Proof.
  unfold graded. destruct processed_answer as [student_text |].
  - destruct expected_answer as [| b | n | x | expected_text | items | members];
      cbn [is_text];
      try (split; [intros _; right; reflexivity | intros _; eauto]).
    destruct (_fallback_evaluation student_text expected_text).
    split; [intros [message H]; discriminate H | intros [H | H]; discriminate H].
  - split; [intros _; left; reflexivity | intros _; eauto].
Qed.

Lemma transcribe_audio_nonempty (sambanova : string -> option string) (path : string) :
  AudioTranscriber.transcribe_audio sambanova path <> "".
Proof.
  unfold AudioTranscriber.transcribe_audio.
  destruct (sambanova path) as [transcript |]; [| discriminate].
  destruct (String.eqb transcript "") eqn:E; cbn [negb]; [discriminate |].
  apply String.eqb_neq, E.
Qed.

End EvaluateFacts.

(** * Further properties of the evaluator *)

(** X8: evaluate_answer raises exactly when the question or the expected
    answer cannot be printed into the prompt, or when the completion call
    gives no usable verdict and either a Text answer is None or the expected
    answer is no string: the fallback grader is called outside the try
    block and starts with student_answer.lower() and
    expected_answer.lower(). In every other case it returns a verdict. *)
Theorem evaluate_answer_raises_iff
    (sys : Sys.t) (server : World.endpoint) (files : Evaluator.media) (self : Client.self)
    (question expected_answer : Json.value) (student_answer : option string)
    (skill level question_type answer_type : string)
    (question_media answer_media : option string) (log : list World.request) :
  let api_answer :=
    Notions.api_answer sys server files self question expected_answer student_answer
      skill level question_type answer_type question_media answer_media log in
  ((exists message : string,
      fst (Evaluator.evaluate_answer sys server files self question expected_answer
             student_answer skill level question_type answer_type
             question_media answer_media log)
      = World.Raise message)
   <-> match api_answer with
       | None => True
       | Some answer =>
           Notions.verdict_usable answer = false
           /\ ((answer_type = "Text" /\ student_answer = None)
               \/ Notions.is_text expected_answer = false)
       end)
  /\ (api_answer = None
      <-> Json.str sys question = None \/ Json.str sys expected_answer = None).
Proof.
  cbv zeta. unfold Evaluator.evaluate_answer, Notions.api_answer, Notions.evaluation_prompt.
  destruct (Json.str sys question) as [question_text |];
    [| split; [split; [intros _; exact I | intros _; eexists; reflexivity]
              | split; [intros _; left; reflexivity | reflexivity]]].
  destruct (Json.str sys expected_answer) as [expected_text |];
    [| split; [split; [intros _; exact I | intros _; eexists; reflexivity]
              | split; [intros _; right; reflexivity | reflexivity]]].
  split; [| split; [discriminate | intros [H | H]; discriminate H]].
  destruct (Evaluator._make_api_request sys server self _ log) as [answer log'].
  cbn [fst]. rewrite EvaluateFacts.evaluation_of_usable.
  rewrite <- (EvaluateFacts.process_answer_none files student_answer answer_type answer_media).
  destruct (Evaluator.evaluation_of answer) as [verdict |]; cbn [fst].
  - split; [intros [message H]; discriminate H | intros [H _]; discriminate H].
  - rewrite EvaluateFacts.graded_raises. tauto.
Qed.

(** An expected answer that is a list: with every completion call failing,
    evaluate_answer raises although the student answered. *)
Example evaluate_answer_expected_list :
  fst (Evaluator.evaluate_answer Scenario.sys Scenario.server_down Scenario.no_files
         Scenario.self (Json.JStr "What is empathy?")
         (Json.JList [Json.JStr "Listening"; Json.JStr "empathy"]) (Some "Listening")
         "Communication" "Beginner" "Text" "Text" None None [])
  = World.Raise "object has no attribute 'lower'".
Proof. vm_compute. reflexivity. Qed.

(** X9: when the first model yields an object holding "is_correct" and
    "explanation", evaluate_answer issues one completion request and returns
    the pair from that object: a verdict that is a string becomes the
    boolean [s.lower() == "true"], any other value (a number, null, a list)
    is returned as it is, and the explanation is not checked at all. *)
Theorem evaluate_answer_api_verdict
    (sys : Sys.t) (server : World.endpoint) (files : Evaluator.media) (self : Client.self)
    (question expected_answer : Json.value) (student_answer : option string)
    (skill level question_type answer_type : string)
    (question_media answer_media : option string) (log : list World.request)
    (question_text expected_text : string) (members : list (string * Json.value))
    (is_correct explanation : Json.value) :
  let sent :=
    Spec.post self (3 # 10)
      (Notions.evaluation_prompt files question_text expected_text student_answer
         skill level question_type answer_type question_media answer_media)
      (Client.model_name self) in
  Json.str sys question = Some question_text ->
  Json.str sys expected_answer = Some expected_text ->
  Spec.yields sys (server log sent) = Some (Json.JDict members) ->
  Json.dict_get "is_correct" members = Some is_correct ->
  Json.dict_get "explanation" members = Some explanation ->
  Evaluator.evaluate_answer sys server files self question expected_answer student_answer
    skill level question_type answer_type question_media answer_media log
  = (World.Ok (Notions.as_verdict is_correct, explanation), (log ++ [sent])%list).
Proof.
  intros sent Hquestion Hexpected Hparsed Hverdict Hexplanation.
  unfold Evaluator.evaluate_answer, Evaluator._make_api_request.
  rewrite Hquestion, Hexpected.
  fold (Notions.evaluation_prompt files question_text expected_text student_answer
          skill level question_type answer_type question_media answer_media).
  rewrite (EvaluateFacts.make_api_request_first _ _ _ _ _ _ _ _ Hparsed).
  cbn [Evaluator.evaluation_of]. rewrite Hverdict, Hexplanation. reflexivity.
Qed.

Lemma evaluate_answer_api_verdict_witness :
  Evaluator.evaluate_answer Scenario.sys Scenario.server_apostrophe Scenario.no_files
    Scenario.self (Json.JStr "What is empathy?") (Json.JStr "Understanding feelings")
    (Some "no idea") "Communication" "Beginner" "Text" "Text" None None []
  = (World.Ok (Json.JBool true, Json.JStr ("It" ++ Py.chr 8217 ++ "s right")),
     [Spec.post Scenario.self (3 # 10)
        (Notions.evaluation_prompt Scenario.no_files "What is empathy?"
           "Understanding feelings" (Some "no idea")
           "Communication" "Beginner" "Text" "Text" None None)
        "sambanova-llm"]).
Proof.
  apply (evaluate_answer_api_verdict Scenario.sys Scenario.server_apostrophe
           Scenario.no_files Scenario.self
           (Json.JStr "What is empathy?") (Json.JStr "Understanding feelings")
           (Some "no idea") "Communication" "Beginner" "Text" "Text" None None []
           "What is empathy?" "Understanding feelings"
           [("is_correct", Json.JBool true);
            ("explanation", Json.JStr ("It" ++ Py.chr 8217 ++ "s right"))]
           (Json.JBool true) (Json.JStr ("It" ++ Py.chr 8217 ++ "s right"))).
  - reflexivity.
  - reflexivity.
  - vm_compute. reflexivity.
  - reflexivity.
  - reflexivity.
Defined.

(** A verdict given as the string "TRUE" is read as true. *)
Example evaluate_answer_string_verdict :
  fst (Evaluator.evaluate_answer Scenario.sys Notions.server_string_verdict
         Scenario.no_files Scenario.self
         (Json.JStr "What is empathy?") (Json.JStr "Understanding feelings")
         (Some "no idea") "Communication" "Beginner" "Text" "Text" None None [])
  = World.Ok (Json.JBool true, Json.JStr "ok").
Proof. vm_compute. reflexivity. Qed.

(** X10: when no model yields JSON (every post raises, has a status other
    than 200, or a 200 response from which no JSON value is extracted and
    parsed) and the expected answer is a string, evaluate_answer has issued
    one completion request per model, primary first, all with the same
    prompt, and returns the keyword grader's verdict on the processed
    answer. *)
Theorem evaluate_answer_without_api
    (sys : Sys.t) (server : World.endpoint) (files : Evaluator.media) (self : Client.self)
    (question : Json.value) (expected_text : string) (student_answer : option string)
    (skill level question_type answer_type : string)
    (question_media answer_media : option string) (log : list World.request)
    (question_text student_text : string) :
  Notions.never_usable sys server ->
  Json.str sys question = Some question_text ->
  Evaluator._process_answer files student_answer answer_type answer_media
  = Some student_text ->
  Evaluator.evaluate_answer sys server files self question (Json.JStr expected_text)
    student_answer skill level question_type answer_type question_media answer_media log
  = (World.Ok
       (Json.JBool (fst (Evaluator._fallback_evaluation student_text expected_text)),
        Json.JStr (snd (Evaluator._fallback_evaluation student_text expected_text))),
     (log ++ Notions.requests_to_all self (3 # 10)
               (Notions.evaluation_prompt files question_text expected_text student_answer
                  skill level question_type answer_type question_media answer_media))%list)
  /\ map (fun sent => World.model (World.json sent))
       (Notions.requests_to_all self (3 # 10)
          (Notions.evaluation_prompt files question_text expected_text student_answer
             skill level question_type answer_type question_media answer_media))
     = [Client.model_name self; "sambanova-chat"; "sambanova-1.5-chat"; "llama-7b";
        "llama2-7b"].
Proof.
  intros Hdown Hquestion Hanswer. split; [| reflexivity].
  unfold Evaluator.evaluate_answer, Evaluator._make_api_request.
  rewrite Hquestion. cbn [Json.str].
  fold (Notions.evaluation_prompt files question_text expected_text student_answer
          skill level question_type answer_type question_media answer_media).
  rewrite (EvaluateFacts.make_api_request_never_usable _ _ _ _ _ _ _ Hdown).
  cbn [Evaluator.evaluation_of]. rewrite Hanswer. cbn [Evaluator.graded].
  destruct (Evaluator._fallback_evaluation student_text expected_text). reflexivity.
Qed.

Lemma evaluate_answer_without_api_witness :
  fst (Evaluator.evaluate_answer Scenario.sys Scenario.server_down Scenario.no_files
         Scenario.self (Json.JStr "What is empathy?") (Json.JStr "Listening, empathy") None
         "Communication" "Beginner" "Text" "Audio" None None [])
  = World.Ok (Json.JBool false,
              Json.JStr "The answer is missing several important concepts (only covers about 0% of expected key points).").
Proof.
  rewrite (proj1 (evaluate_answer_without_api Scenario.sys Scenario.server_down
                    Scenario.no_files Scenario.self
                    (Json.JStr "What is empathy?") "Listening, empathy" None
                    "Communication" "Beginner" "Text" "Audio" None None []
                    "What is empathy?" "No answer provided"
                    (fun _ _ => eq_refl) eq_refl eq_refl)).
  vm_compute. reflexivity.
Defined.

(** X11: the evaluation prompt quotes each of its seven arguments: the
    skill, the level, both types, the question, the expected answer and the
    student's answer, an answer that is None being written as the word
    None. *)
Theorem evaluation_prompt_quotes_arguments
    (question expected_answer : string) (student_answer : option string)
    (skill level question_type answer_type : string) :
  let prompt :=
    Evaluator._create_evaluation_prompt question expected_answer student_answer
      skill level question_type answer_type in
  Notions.occurs_in skill prompt /\ Notions.occurs_in level prompt
  /\ Notions.occurs_in question_type prompt /\ Notions.occurs_in answer_type prompt
  /\ Notions.occurs_in question prompt /\ Notions.occurs_in expected_answer prompt
  /\ Notions.occurs_in (Evaluator.str_or_none student_answer) prompt
  /\ Evaluator.str_or_none None = "None".
Proof.
  cbv zeta. unfold Evaluator._create_evaluation_prompt.
  repeat split;
    repeat first [apply StringFacts.occurs_in_prefix | apply StringFacts.occurs_in_skip].
Qed.

(** X12: _process_question keeps the question as it is, except for an Audio
    question with a media path, where it appends a blank line and
    "Audio Transcript: " with a transcript that is never empty. The image of
    an Image question never reaches the text. *)
Theorem process_question_cases (files : Evaluator.media) (question question_type : string)
    (media_path : option string) :
  (forall path : string,
     question_type = "Audio" -> media_path = Some path -> path <> "" ->
     Evaluator._process_question files question question_type media_path
     = question ++ String "010" (String "010" "") ++ "Audio Transcript: "
         ++ AudioTranscriber.transcribe_audio
              (Evaluator.transcribe_with_sambanova files) path
     /\ AudioTranscriber.transcribe_audio
          (Evaluator.transcribe_with_sambanova files) path <> "")
  /\ (question_type <> "Audio" \/ Notions.missing media_path ->
      Evaluator._process_question files question question_type media_path = question).
Proof.
  unfold Evaluator._process_question. split.
  - intros path -> -> Hpath. cbn [String.eqb Ascii.eqb Bool.eqb andb].
    apply String.eqb_neq in Hpath. rewrite Hpath. cbn [negb].
    split; [reflexivity | apply EvaluateFacts.transcribe_audio_nonempty].
  - intros Hother. destruct (String.eqb question_type "Text"); [reflexivity |].
    destruct media_path as [path |]; [| reflexivity].
    destruct (String.eqb question_type "Audio") eqn:Eaudio; cbn [andb].
    + apply String.eqb_eq in Eaudio.
      destruct Hother as [Hother | [Hnone | Hempty]];
        [contradiction | discriminate Hnone |].
      injection Hempty as ->. cbn [String.eqb negb].
      destruct (String.eqb question_type "Image"); reflexivity.
    + destruct (String.eqb question_type "Image" && _); reflexivity.
Qed.

(** X25: what the branch of a 200 response reads. If the body is an object
    with a string under "text", the result is the JSON extracted from that
    string and "choices" is not looked at; without "text", a "choices" list
    whose first item is an object with a string under "text" gives the JSON
    extracted from that one; a body that is a number, a boolean or null, or
    one that response.json() cannot decode, gives nothing and the loop moves
    to the next model. In every case the branch gives what the candidate
    yields by the response shapes. *)
Theorem on_success_shapes (sys : Sys.t) (json : option Json.value) :
  (forall (members : list (string * Json.value)) (content : string),
     json = Some (Json.JDict members) ->
     Json.dict_get "text" members = Some (Json.JStr content) ->
     Client.on_success sys json = Json.loads sys (Client._extract_json sys content))
  /\ (forall (members choice : list (string * Json.value)) (rest : list Json.value)
             (content : string),
        json = Some (Json.JDict members) ->
        Json.dict_get "text" members = None ->
        Json.dict_get "choices" members = Some (Json.JList (Json.JDict choice :: rest)) ->
        Json.dict_get "text" choice = Some (Json.JStr content) ->
        Client.on_success sys json = Json.loads sys (Client._extract_json sys content))
  /\ (forall v : Json.value,
        json = Some v ->
        v = Json.JNull \/ (exists b, v = Json.JBool b) \/ (exists n, v = Json.JInt n)
        \/ (exists x, v = Json.JFloat x) ->
        Client.on_success sys json = None)
  /\ (json = None -> Client.on_success sys json = None)
  /\ (forall text : string,
        Client.on_success sys json = Spec.yields sys (World.Response 200 text json)).
Proof.
  unfold Client.on_success. repeat split.
  - intros members content -> Htext.
    unfold Client.response_content. cbn [Json.contains Json.get]. rewrite Htext. reflexivity.
  - intros members choice rest content -> Htext Hchoices Hchoice.
    unfold Client.response_content.
    cbn [Json.contains Json.get Json.getitem]. rewrite Htext, Hchoices.
    cbn [Json.len Json.first length Json.get]. rewrite Hchoice.
    replace (0 <? Z.of_nat (S (length rest)))%Z with true
      by (symmetry; apply Z.ltb_lt; lia).
    reflexivity.
  - intros v -> [-> | [[b ->] | [[n ->] | [x ->]]]]; reflexivity.
  - intros ->. reflexivity.
  - intros text. apply ClientFacts.on_success_yields.
Qed.

(** The decoder reads an escaped character, a float and a surrogate pair as
    Python does, and stops at an integer of more digits than the
    interpreter converts. *)
Example loads_examples :
  Json.loads Scenario.sys (Py.quoted "\u2019") = Some (Json.JStr (Py.chr 8217))
  /\ Json.loads Scenario.sys (Py.quoted "\ud83d\ude00") = Some (Json.JStr (Py.chr 128512))
  /\ Json.loads Scenario.sys (Py.quoted (Py.chr 8217)) = Some (Json.JStr (Py.chr 8217))
  /\ option_map (Json.str Scenario.sys) (Json.loads Scenario.sys "1.50") = Some (Some "1.5")
  /\ option_map (Json.str Scenario.sys) (Json.loads Scenario.sys "1e2") = Some (Some "100.0")
  /\ option_map (Json.str Scenario.sys) (Json.loads Scenario.sys "1e400") = Some (Some "inf")
  /\ option_map (Json.str Scenario.sys) (Json.loads Scenario.sys "[0.1, 1e22, 1e-7]")
     = Some (Some "[0.1, 1e+22, 1e-07]").
Proof. repeat split; vm_compute; reflexivity. Qed.

(** ** app.py: the registry of sessions *)

Module AppFacts.

Import App.

Lemma count_correct_bounds (evaluations : list (bool * string)) (start : Z) :
  (start
   <= fold_left (fun (total : Z) (eval_result : bool * string) =>
                   if fst eval_result then (total + 1)%Z else total) evaluations start
   <= start + Z.of_nat (length evaluations))%Z.
Proof.
  revert start. induction evaluations as [| [b e] rest IH]; intros start; cbn [fold_left length].
  - lia.
  - cbn [fst]. destruct b; [specialize (IH (start + 1)%Z) | specialize (IH start)]; lia.
Qed.

Lemma count_correct_all (evaluations : list (bool * string)) (start : Z) :
  Forall (fun eval_result => fst eval_result = true) evaluations ->
  fold_left (fun (total : Z) (eval_result : bool * string) =>
               if fst eval_result then (total + 1)%Z else total) evaluations start
  = (start + Z.of_nat (length evaluations))%Z.
Proof.
  intros Hall. revert start.
  induction Hall as [| [b e] rest Hb _ IH]; intros start; cbn [fold_left length].
  - lia.
  - cbn [fst] in *. subst b. rewrite IH. lia.
Qed.

Lemma count_correct_none (evaluations : list (bool * string)) (start : Z) :
  Forall (fun eval_result => fst eval_result = false) evaluations ->
  fold_left (fun (total : Z) (eval_result : bool * string) =>
               if fst eval_result then (total + 1)%Z else total) evaluations start
  = start.
Proof.
  intros Hall. revert start.
  induction Hall as [| [b e] rest Hb _ IH]; intros start; cbn [fold_left].
  - reflexivity.
  - cbn [fst] in *. subst b. apply IH.
Qed.

Lemma evaluations_set_end_time (now : Z) (s : session) :
  evaluations (set_end_time now s) = evaluations s.
Proof. reflexivity. Qed.

Lemma length_pos_of_nonempty {A : Type} (l : list A) :
  l <> [] -> (0 <? length l)%nat = true /\ (0 < Z.of_nat (length l))%Z.
Proof. destruct l; [contradiction |]. intros _. cbn [length]. split; [reflexivity | lia]. Qed.

Lemma end_session_found (now : Z) (session_id : string) (st : state) (found : session) :
  active_sessions st !! session_id = Some found ->
  exists ended : session,
    end_session now session_id st
    = (score ended,
       {| active_sessions := <[session_id := ended]> (active_sessions st);
          db := (db st ++ [("UPDATE sessions SET end_time = NOW(), score = %s WHERE session_id = %s",
                           [Json.JInt (score ended); Json.JStr session_id])])%list |})
    /\ evaluations ended = evaluations found
    /\ end_time ended = Some now
    /\ score ended
       = if (0 <? length (evaluations found))%nat
         then B64.trunc
                (B64.mul
                   (B64.div_int
                      (fold_left (fun (total : Z) (eval_result : bool * string) =>
                                    if fst eval_result then (total + 1)%Z else total)
                                 (evaluations found) 0%Z)
                      (Z.of_nat (length (evaluations found))))
                   (B64.of_int 100))
         else score found.
Proof.
  intros Hfound. unfold end_session. rewrite Hfound. cbv zeta.
  rewrite evaluations_set_end_time.
  destruct (0 <? length (evaluations found))%nat; eexists; repeat split.
Qed.

End AppFacts.

(** X13: the score end_session returns for a registered session: the
    stored score when the session has no evaluation, otherwise a whole
    number from 0 to 100, which is 100 when every evaluation is correct and
    0 when none is. *)
Theorem end_session_score_range (now : Z) (session_id : string) (st : App.state)
    (found : App.session) :
  App.active_sessions st !! session_id = Some found ->
  (App.evaluations found = [] ->
   fst (App.end_session now session_id st) = App.score found)
  /\ (App.evaluations found <> [] ->
      (0 <= fst (App.end_session now session_id st) <= 100)%Z
      /\ (Forall (fun eval_result => fst eval_result = true) (App.evaluations found) ->
          fst (App.end_session now session_id st) = 100%Z)
      /\ (Forall (fun eval_result => fst eval_result = false) (App.evaluations found) ->
          fst (App.end_session now session_id st) = 0%Z)).
Proof.
  intros Hfound. unfold App.end_session. rewrite Hfound. cbv zeta.
  rewrite AppFacts.evaluations_set_end_time. split.
  - intros ->. reflexivity.
  - intros Hne. destruct (AppFacts.length_pos_of_nonempty _ Hne) as [Hlen Hpos].
    rewrite Hlen. cbn [fst App.score App.set_score].
    pose proof (AppFacts.count_correct_bounds (App.evaluations found) 0) as Hcount.
    split; [| split].
    + apply B64Facts.trunc_bounds, B64Facts.mul_100_bounds, B64Facts.div_int_bounds; lia.
    + intros Hall. rewrite (AppFacts.count_correct_all _ 0 Hall), Z.add_0_l.
      apply B64More.percent_of_one, B64More.div_int_self, Hpos.
    + intros Hnone. rewrite (AppFacts.count_correct_none _ 0 Hnone). reflexivity.
Qed.

Lemma end_session_score_range_witness :
  fst (App.end_session 9 "session-2" Notions.state_of_two) = 0%Z
  /\ (0 <= fst (App.end_session 9 "session-1" Notions.state_of_two) <= 100)%Z.
Proof.
  split.
  - exact (proj1 (end_session_score_range 9 "session-2" Notions.state_of_two
                    Notions.session_without_evaluations eq_refl) eq_refl).
  - refine (proj1 (proj2 (end_session_score_range 9 "session-1" Notions.state_of_two
                            Scenario.session_of_three eq_refl) _)).
    discriminate.
Defined.

(** X14: end_session touches one entry only. Every other session is left
    as it was, no session is ever removed from the registry (an ended
    session stays in active_sessions), and for an unknown id nothing
    changes at all: 0 is returned and no statement reaches the database. *)
Theorem end_session_frame (now : Z) (session_id : string) (st : App.state) :
  (forall other : string,
     other <> session_id ->
     App.active_sessions (snd (App.end_session now session_id st)) !! other
     = App.active_sessions st !! other)
  /\ (forall any : string,
        is_Some (App.active_sessions (snd (App.end_session now session_id st)) !! any)
        <-> is_Some (App.active_sessions st !! any))
  /\ (App.active_sessions st !! session_id = None ->
      App.end_session now session_id st = (0%Z, st))
  /\ (is_Some (App.active_sessions st !! session_id) ->
      App.db (snd (App.end_session now session_id st))
      = (App.db st
           ++ [("UPDATE sessions SET end_time = NOW(), score = %s WHERE session_id = %s",
                [Json.JInt (fst (App.end_session now session_id st));
                 Json.JStr session_id])])%list
      /\ option_map App.end_time
           (App.active_sessions (snd (App.end_session now session_id st)) !! session_id)
         = Some (Some now)
      /\ option_map App.score
           (App.active_sessions (snd (App.end_session now session_id st)) !! session_id)
         = Some (fst (App.end_session now session_id st))).
Proof.
  unfold App.end_session.
  destruct (App.active_sessions st !! session_id) as [found |] eqn:Hfound; cbv zeta;
    cbn [fst snd App.active_sessions App.db].
  - split; [| split; [| split]].
    + intros other Hother. apply lookup_insert_ne. congruence.
    + intros any. destruct (decide (any = session_id)) as [-> | Hother].
      * rewrite lookup_insert_eq, Hfound. split; eauto.
      * rewrite lookup_insert_ne by congruence. reflexivity.
    + discriminate.
    + intros _. rewrite lookup_insert_eq. cbn [option_map].
      split; [reflexivity |].
      destruct (0 <? length _)%nat; split; reflexivity.
  - split; [reflexivity |]. split; [reflexivity |]. split; [reflexivity |].
    intros [x Hx]. discriminate Hx.
Qed.

(** X15: ending a session a second time returns the same score as the first
    time; the second call stamps a new end time and sends the UPDATE
    statement again. *)
Theorem end_session_twice (now later : Z) (session_id : string) (st : App.state) :
  let once := App.end_session now session_id st in
  let twice := App.end_session later session_id (snd once) in
  fst twice = fst once
  /\ (is_Some (App.active_sessions st !! session_id) ->
      option_map App.end_time (App.active_sessions (snd twice) !! session_id)
      = Some (Some later)
      /\ length (App.db (snd twice)) = (length (App.db st) + 2)%nat).
Proof.
  cbv zeta. destruct (App.active_sessions st !! session_id) as [found |] eqn:Hfound.
  - destruct (AppFacts.end_session_found now session_id st found Hfound)
      as (ended & -> & Hevaluations & _ & Hscore).
    cbn [fst snd].
    match goal with
    | |- context [App.end_session later session_id ?st1] =>
        destruct (AppFacts.end_session_found later session_id st1 ended)
          as (again & -> & _ & Htime & Hagain);
          [cbn [App.active_sessions]; apply lookup_insert_eq |]
    end.
    cbn [fst snd App.active_sessions App.db]. split.
    + rewrite Hagain, Hevaluations.
      destruct (0 <? length (App.evaluations found))%nat;
        [rewrite Hscore; reflexivity | reflexivity].
    + intros _. rewrite lookup_insert_eq. cbn [option_map]. rewrite Htime.
      split; [reflexivity |]. rewrite !length_app. cbn [length]. lia.
  - unfold App.end_session at 2 4 6. rewrite Hfound. cbn [fst snd].
    unfold App.end_session. rewrite Hfound.
    split; [reflexivity |]. intros [x Hx]. discriminate Hx.
Qed.

(** X16: start_session registers a session with score 0, no question, no
    answer, no evaluation and no end time under the id it returns, leaves
    every other session alone, and sends one INSERT with the id, the skill
    and the level; ending that session at once returns 0. *)
Theorem start_session_registers (session_id : string) (now later : Z) (skill level : string)
    (st : App.state) :
  let started := App.start_session session_id now skill level st in
  fst started = session_id
  /\ App.active_sessions (snd started) !! session_id
     = Some {| App.skill := skill; App.level := level; App.start_time := now;
               App.end_time := None; App.questions := [];
               App.current_question_index := -1; App.answers := [];
               App.evaluations := []; App.score := 0 |}
  /\ (forall other : string,
        other <> session_id ->
        App.active_sessions (snd started) !! other = App.active_sessions st !! other)
  /\ App.db (snd started)
     = (App.db st
          ++ [("INSERT INTO sessions (session_id, skill, level) VALUES (%s, %s, %s)",
               [Json.JStr session_id; Json.JStr skill; Json.JStr level])])%list
  /\ fst (App.end_session later session_id (snd started)) = 0%Z.
Proof.
  cbv zeta. unfold App.start_session. cbn [fst snd App.active_sessions App.db].
  split; [reflexivity |]. split; [apply lookup_insert_eq |].
  split; [intros other Hother; apply lookup_insert_ne; congruence |].
  split; [reflexivity |].
  unfold App.end_session. cbn [App.active_sessions]. rewrite lookup_insert_eq. reflexivity.
Qed.

(** ** database/db_connector.py and models/media_processor.py *)

Module StoreFacts.

Import MediaProcessor.

Local Arguments String.append : simpl nomatch.

Lemma after_last_absent (c : ascii) (s : string) :
  Py.char_in c s = false -> after_last c s = None.
Proof.
  induction s as [| a s IH]; cbn [Py.char_in after_last]; [reflexivity |].
  intros H. apply orb_false_iff in H as [Hca H].
  rewrite (IH H), Ascii.eqb_sym, Hca. reflexivity.
Qed.

Lemma after_last_found (c : ascii) (stem tail : string) :
  Py.char_in c tail = false -> after_last c (stem ++ String c tail) = Some tail.
Proof.
  intros Htail. induction stem as [| a stem IH]; cbn [String.append after_last].
  - rewrite (after_last_absent _ _ Htail), Ascii.eqb_refl. reflexivity.
  - rewrite IH. reflexivity.
Qed.

Lemma after_last_split (c : ascii) (s : string) :
  forall tail : string,
    after_last c s = Some tail ->
    exists stem : string, s = stem ++ String c tail /\ Py.char_in c tail = false.
Proof.
  induction s as [| a s IH]; intros tail; cbn [after_last]; [discriminate |].
  destruct (after_last c s) as [found |] eqn:E.
  - intros [= ->]. destruct (IH tail eq_refl) as (stem & -> & Htail).
    exists (String a stem). split; [reflexivity | exact Htail].
  - destruct (Ascii.eqb a c) eqn:Eac; [| discriminate].
    intros [= ->]. apply Ascii.eqb_eq in Eac. subst a.
    exists "". split; [reflexivity |].
    destruct (Py.char_in c tail) eqn:Hin; [| reflexivity].
    exfalso. clear IH. induction tail as [| b tail IH]; [discriminate Hin |].
    cbn [Py.char_in after_last] in *. destruct (after_last c tail); [discriminate E |].
    rewrite Ascii.eqb_sym in Hin. destruct (Ascii.eqb b c); [discriminate E |].
    apply IH; [reflexivity | exact Hin].
Qed.

Lemma char_in_app (c : ascii) (stem tail : string) :
  Py.char_in c (stem ++ String c tail) = true.
Proof.
  induction stem as [| a stem IH]; cbn [String.append Py.char_in].
  - rewrite Ascii.eqb_refl. reflexivity.
  - rewrite IH. apply orb_true_r.
Qed.

End StoreFacts.

(** X17: is_valid_image accepts exactly the names of the form
    stem.extension where the extension holds no dot and, in lower case, is
    png, jpg, jpeg or gif. Only what follows the last dot counts, the stem
    may be empty, and a name without a dot is refused. *)
Theorem is_valid_image_iff (filename : string) :
  MediaProcessor.is_valid_image filename = true
  <-> exists stem extension : string,
        filename = stem ++ "." ++ extension
        /\ Py.char_in "." extension = false
        /\ (Py.lower extension = "png" \/ Py.lower extension = "jpg"
            \/ Py.lower extension = "jpeg" \/ Py.lower extension = "gif").
Proof.
  assert (Hallowed : forall extension : string,
             extension ∈ Config.ALLOWED_IMAGE_EXTENSIONS
             <-> (extension = "png" \/ extension = "jpg"
                  \/ extension = "jpeg" \/ extension = "gif")).
  { intros extension. unfold Config.ALLOWED_IMAGE_EXTENSIONS.
    rewrite !elem_of_union, !elem_of_singleton. tauto. }
  unfold MediaProcessor.is_valid_image. split.
  - intros H. apply andb_true_iff in H as [_ H].
    destruct (MediaProcessor.after_last "." filename) as [extension |] eqn:E;
      [| discriminate H].
    apply StoreFacts.after_last_split in E as (stem & -> & Hnodot).
    apply bool_decide_eq_true_1 in H. exists stem, extension.
    split; [reflexivity |]. split; [exact Hnodot |]. apply Hallowed, H.
  - intros (stem & extension & -> & Hnodot & Hext).
    change ("." ++ extension) with (String "." extension).
    rewrite StoreFacts.char_in_app, (StoreFacts.after_last_found _ _ _ Hnodot).
    cbn [andb]. apply bool_decide_eq_true_2, Hallowed, Hext.
Qed.

(** X18: every statement the connector hands to execute_query has as many
    %s placeholders as parameters, whatever the arguments; each function
    calls execute_query with one statement fixed by its arguments, the
    writes without fetch and the reads with it. *)
Theorem statements_bind_every_parameter :
  (forall (skill level question_type question_content expected_answer : string)
          (media_path : option string),
     exists (query : string) (params : list Json.value),
       (forall execute_query : DatabaseConnector.executor,
          DatabaseConnector.save_question execute_query skill level question_type
            question_content expected_answer media_path
          = execute_query query params false)
       /\ Notions.binds_every_parameter query params)
  /\ (forall (question_id : Z) (answer_content answer_type : string)
             (media_path : option string),
        exists (query : string) (params : list Json.value),
          (forall execute_query : DatabaseConnector.executor,
             DatabaseConnector.save_answer execute_query question_id answer_content
               answer_type media_path
             = execute_query query params false)
          /\ Notions.binds_every_parameter query params)
  /\ (forall (answer_id : Z) (is_correct : Json.value) (explanation : string),
        exists (query : string) (params : list Json.value),
          (forall execute_query : DatabaseConnector.executor,
             DatabaseConnector.save_evaluation execute_query answer_id is_correct explanation
             = execute_query query params false)
          /\ Notions.binds_every_parameter query params)
  /\ (forall question_id : Z,
        exists (query : string) (params : list Json.value),
          (forall execute_query : DatabaseConnector.executor,
             DatabaseConnector.get_question_by_id execute_query question_id
             = DatabaseConnector.first_row (execute_query query params true))
          /\ Notions.binds_every_parameter query params)
  /\ (forall question_id : Z,
        exists (query : string) (params : list Json.value),
          (forall execute_query : DatabaseConnector.executor,
             DatabaseConnector.get_answers_by_question execute_query question_id
             = execute_query query params true)
          /\ Notions.binds_every_parameter query params)
  /\ (forall answer_id : Z,
        exists (query : string) (params : list Json.value),
          (forall execute_query : DatabaseConnector.executor,
             DatabaseConnector.get_evaluation_by_answer execute_query answer_id
             = DatabaseConnector.first_row (execute_query query params true))
          /\ Notions.binds_every_parameter query params).
Proof.
  repeat split; intros; eexists _, _;
    (split; [intros execute_query; reflexivity | vm_compute; reflexivity]).
Qed.

(** X19: get_questions builds its statement from the filters that are
    given: a filter that is None or empty adds nothing, a given one adds one
    condition and one parameter, in the order skill, level, question type;
    the limit is always the last parameter, and placeholders and parameters
    always match in number. *)
Theorem get_questions_statement (skill level question_type : option string) (limit : Z) :
  exists (query : string) (params : list Json.value),
    (forall execute_query : DatabaseConnector.executor,
       DatabaseConnector.get_questions execute_query skill level question_type limit
       = execute_query query params true)
    /\ Notions.binds_every_parameter query params
    /\ Py.startswith "SELECT * FROM questions WHERE 1=1" query = true
    /\ params
       = (map Json.JStr
            (List.filter (fun s => negb (String.eqb s ""))
               (omap id [skill; level; question_type]))
            ++ [Json.JInt limit])%list.
Proof.
  assert (Hcases : forall x : option string,
             x = None \/ x = Some "" \/ exists c s, x = Some (String c s)).
  { intros [[| c s] |]; eauto. }
  destruct (Hcases skill) as [-> | [-> | (c1 & s1 & ->)]];
    destruct (Hcases level) as [-> | [-> | (c2 & s2 & ->)]];
    destruct (Hcases question_type) as [-> | [-> | (c3 & s3 & ->)]];
    (eexists _, _; split; [intros execute_query; reflexivity |];
     split; [vm_compute; reflexivity |]; split; [vm_compute; reflexivity |]; reflexivity).
Qed.

(** ** models/question_generator.py: the shape of what is returned *)

Module GeneratorMore.

Import World Json QuestionGenerator Notions.

Lemma dom_question4 (a b c d : value) :
  dom ({[ "question_type" := a; "question_content" := b;
          "expected_answer" := c; "media_path" := d ]} : gmap string value)
  = ({[ "question_type"; "question_content"; "expected_answer"; "media_path" ]} : gset string).
Proof. rewrite !dom_insert_L, dom_singleton_L. set_solver. Qed.

Lemma dom_question5 (a b c d e : value) :
  dom ({[ "question_type" := a; "question_content" := b; "expected_answer" := c;
          "image_description" := d; "media_path" := e ]} : gmap string value)
  = ({[ "question_type"; "question_content"; "expected_answer"; "image_description";
        "media_path" ]} : gset string).
Proof. rewrite !dom_insert_L, dom_singleton_L. set_solver. Qed.

Lemma text_question_shape (answer : result value) (question : gmap string value) :
  text_question_of answer = Some question ->
  dom question = question_keys "Text"
  /\ question !! "question_type" = Some (JStr "Text")
  /\ question !! "media_path" = Some JNull.
Proof.
  unfold text_question_of. destruct answer as [data |]; [| discriminate].
  destruct (has_keys _ data); [| discriminate].
  destruct (getitem data "question"), (getitem data "expected_answer"); try discriminate.
  intros [= <-]. split; [apply dom_question4 | split; reflexivity].
Qed.

Lemma audio_question_shape (sys : Sys.t) (answer : result value)
    (question : gmap string value) :
  audio_question_of sys answer = Some question ->
  dom question = question_keys "Audio"
  /\ question !! "question_type" = Some (JStr "Audio")
  /\ question !! "media_path" = Some JNull.
Proof.
  unfold audio_question_of. destruct answer as [data |]; [| discriminate].
  destruct (has_keys _ data); [| discriminate].
  destruct (getitem data "audio_scenario") as [a |], (getitem data "question") as [q |],
    (getitem data "expected_answer"); try discriminate.
  destruct (str sys a), (str sys q); try discriminate.
  intros [= <-]. split; [apply dom_question4 | split; reflexivity].
Qed.

Lemma image_question_shape (sys : Sys.t) (answer : result value)
    (question : gmap string value) :
  image_question_of sys answer = Some question ->
  dom question = question_keys "Image"
  /\ question !! "question_type" = Some (JStr "Image")
  /\ question !! "media_path" = Some JNull.
Proof.
  unfold image_question_of. destruct answer as [data |]; [| discriminate].
  destruct (has_keys _ data); [| discriminate].
  destruct (getitem data "image_description"), (getitem data "question") as [q |],
    (getitem data "expected_answer"); try discriminate.
  destruct (str sys q); try discriminate.
  intros [= <-]. split; [apply dom_question5 | split; reflexivity].
Qed.

End GeneratorMore.

(** X20: generate_question always returns a dictionary, and its keys are
    fixed by the question type: question_type, question_content,
    expected_answer and media_path for Text and Audio, these and
    image_description for Image, with question_type repeating the type asked
    for and media_path always None; for any other type the dictionary is an
    entry of the static table, with the keys question and expected_answer
    only. *)
Theorem generate_question_keys (sys : Sys.t) (server : World.endpoint) (self : Client.self)
    (skill level question_type : string) (log : list World.request) :
  exists question : gmap string Json.value,
    fst (QuestionGenerator.generate_question sys server self skill level question_type log)
    = World.Ok question
    /\ dom question = Notions.question_keys question_type
    /\ (Spec.supported question_type = true ->
        question !! "question_type" = Some (Json.JStr question_type)
        /\ question !! "media_path" = Some Json.JNull).
Proof.
  unfold QuestionGenerator.generate_question, Spec.supported.
  pose proof (GeneratorFacts.fallback_question_entry skill level) as Hfb.
  destruct (String.eqb question_type "Text") eqn:Htext.
  { apply String.eqb_eq in Htext. subst question_type.
    unfold QuestionGenerator._generate_text_question.
    destruct (QuestionGenerator._make_api_request sys server self _ log) as [answer log'].
    destruct (QuestionGenerator.text_question_of answer) as [question |] eqn:E; cbn [fst].
    - exists question. split; [reflexivity |].
      destruct (GeneratorMore.text_question_shape _ _ E) as (Hdom & Htype & Hmedia). auto.
    - rewrite Hfb. eexists. split; [reflexivity |].
      split; [apply GeneratorMore.dom_question4 | split; reflexivity]. }
  destruct (String.eqb question_type "Audio") eqn:Haudio.
  { apply String.eqb_eq in Haudio. subst question_type.
    unfold QuestionGenerator._generate_audio_question.
    destruct (QuestionGenerator._make_api_request sys server self _ log) as [answer log'].
    destruct (QuestionGenerator.audio_question_of sys answer) as [question |] eqn:E;
      cbn [fst].
    - exists question. split; [reflexivity |].
      destruct (GeneratorMore.audio_question_shape _ _ _ E) as (Hdom & Htype & Hmedia). auto.
    - rewrite Hfb. eexists. split; [reflexivity |].
      split; [apply GeneratorMore.dom_question4 | split; reflexivity]. }
  destruct (String.eqb question_type "Image") eqn:Himage.
  { apply String.eqb_eq in Himage. subst question_type.
    unfold QuestionGenerator._generate_image_question.
    destruct (QuestionGenerator._make_api_request sys server self _ log) as [answer log'].
    destruct (QuestionGenerator.image_question_of sys answer) as [question |] eqn:E;
      cbn [fst].
    - exists question. split; [reflexivity |].
      destruct (GeneratorMore.image_question_shape _ _ _ E) as (Hdom & Htype & Hmedia). auto.
    - rewrite Hfb. eexists. split; [reflexivity |].
      split; [apply GeneratorMore.dom_question5 | split; reflexivity]. }
  cbn [fst]. rewrite Hfb. eexists. split; [reflexivity |].
  unfold Notions.question_keys. rewrite Htext, Haudio, Himage. cbn [orb].
  split; [| discriminate].
  unfold Spec.fallback_entry. rewrite dom_insert_L, dom_singleton_L. reflexivity.
Qed.

(** X21: the fallback table has an entry for Beginner, Intermediate and
    Advanced, spelled exactly so, each with its own question and expected
    answer naming the skill; any other level, a lower-case one included, is
    served the Intermediate entry. *)
Theorem fallback_question_by_level (skill level : string) :
  let entry (question expected_answer : string) : World.result (gmap string Json.value) :=
    World.Ok {[ "question" := Json.JStr question;
                "expected_answer" := Json.JStr expected_answer ]} in
  QuestionGenerator._generate_fallback_question skill "Beginner"
  = entry ("Explain the core concepts of " ++ skill ++ " at a beginner level. What are the fundamental ideas someone new to " ++ skill ++ " should understand?")
          ("A good answer should cover the basic principles of " ++ skill ++ ", define key terminology, and explain foundational concepts without advanced jargon. The answer should be accessible to someone with no prior knowledge of " ++ skill ++ ".")
  /\ QuestionGenerator._generate_fallback_question skill "Intermediate"
     = entry ("Describe the practical applications of " ++ skill ++ " at an intermediate level. How would you implement " ++ skill ++ " techniques in real-world scenarios?")
             ("A good answer should demonstrate clear understanding of " ++ skill ++ " concepts, explain how to apply them in practice, include examples of common use cases, and show awareness of limitations or challenges when implementing " ++ skill ++ ".")
  /\ QuestionGenerator._generate_fallback_question skill "Advanced"
     = entry ("Analyze how " ++ skill ++ " has evolved over time and discuss current cutting-edge developments. What advanced techniques distinguish expert practitioners in this field?")
             ("A comprehensive answer should demonstrate deep knowledge of " ++ skill ++ ", including its historical development, current state-of-the-art techniques, ability to critically evaluate different approaches, and awareness of ongoing research or innovations in the field.")
  /\ (level <> "Beginner" -> level <> "Intermediate" -> level <> "Advanced" ->
      QuestionGenerator._generate_fallback_question skill level
      = QuestionGenerator._generate_fallback_question skill "Intermediate")
  /\ QuestionGenerator._generate_fallback_question skill level
     = World.Ok (Spec.fallback_entry skill level).
Proof.
  cbv zeta.
  split; [rewrite GeneratorFacts.fallback_question_entry; reflexivity |].
  split; [rewrite GeneratorFacts.fallback_question_entry; reflexivity |].
  split; [rewrite GeneratorFacts.fallback_question_entry; reflexivity |].
  split; [| apply GeneratorFacts.fallback_question_entry].
  intros Hb Hi Ha. rewrite !GeneratorFacts.fallback_question_entry.
  unfold Spec.fallback_entry, Spec.fallback_texts.
  apply String.eqb_neq in Hb, Ha. rewrite Hb, Ha. reflexivity.
Qed.

(** The three levels have three different questions, and a level in lower
    case gets the Intermediate one. *)
Example fallback_question_levels :
  QuestionGenerator._generate_fallback_question "Teamwork" "Beginner"
  <> QuestionGenerator._generate_fallback_question "Teamwork" "Intermediate"
  /\ QuestionGenerator._generate_fallback_question "Teamwork" "Advanced"
     <> QuestionGenerator._generate_fallback_question "Teamwork" "Intermediate"
  /\ QuestionGenerator._generate_fallback_question "Teamwork" "Beginner"
     <> QuestionGenerator._generate_fallback_question "Teamwork" "Advanced"
  /\ QuestionGenerator._generate_fallback_question "Teamwork" "beginner"
     = QuestionGenerator._generate_fallback_question "Teamwork" "Intermediate".
Proof.
  repeat split; try (vm_compute; reflexivity);
    intros H; apply (f_equal (fun r => match r with
                                       | World.Ok entry => entry !! "question"
                                       | World.Raise _ => None
                                       end)) in H;
    vm_compute in H; discriminate H.
Qed.

(** X22: when no model yields JSON, a Text, Audio or Image question is
    built from the static table after one completion request per model
    (five in all, at temperature 0.7, primary first): the expected answer is
    the table's, the Text question is the table's question, the Audio and
    Image questions wrap it in a fixed scenario that names the skill. *)
Theorem generate_question_without_api (sys : Sys.t) (server : World.endpoint)
    (self : Client.self) (skill level : string) (log : list World.request) :
  let q := fst (Spec.fallback_texts skill level) in
  let e := snd (Spec.fallback_texts skill level) in
  Notions.never_usable sys server ->
  QuestionGenerator.generate_question sys server self skill level "Text" log
  = (World.Ok {[ "question_type" := Json.JStr "Text";
                 "question_content" := Json.JStr q;
                 "expected_answer" := Json.JStr e;
                 "media_path" := Json.JNull ]},
     (log ++ Notions.requests_to_all self (7 # 10)
               (QuestionGenerator._create_text_question_prompt skill level))%list)
  /\ QuestionGenerator.generate_question sys server self skill level "Audio" log
     = (World.Ok {[ "question_type" := Json.JStr "Audio";
                    "question_content" :=
                      Json.JStr ("Audio Scenario: Imagine you are listening to a conversation about "
                                   ++ skill
                                   ++ ". The speakers are discussing key aspects and challenges."
                                   ++ QuestionGenerator.nl ++ QuestionGenerator.nl
                                   ++ "Question: " ++ q);
                    "expected_answer" := Json.JStr e;
                    "media_path" := Json.JNull ]},
        (log ++ Notions.requests_to_all self (7 # 10)
                  (QuestionGenerator.audio_prompt skill level))%list)
  /\ QuestionGenerator.generate_question sys server self skill level "Image" log
     = (World.Ok {[ "question_type" := Json.JStr "Image";
                    "question_content" := Json.JStr ("Look at the image and answer: " ++ q);
                    "expected_answer" := Json.JStr e;
                    "image_description" :=
                      Json.JStr ("A professional workplace scene showing people demonstrating "
                                   ++ skill ++ " in different ways.");
                    "media_path" := Json.JNull ]},
        (log ++ Notions.requests_to_all self (7 # 10)
                  (QuestionGenerator.image_prompt skill level))%list)
  /\ (forall prompt : string,
        map (fun sent => World.model (World.json sent))
          (Notions.requests_to_all self (7 # 10) prompt)
        = [Client.model_name self; "sambanova-chat"; "sambanova-1.5-chat"; "llama-7b";
           "llama2-7b"]).
Proof.
  intros q e Hdown. subst q e.
  unfold QuestionGenerator.generate_question. cbn [String.eqb Ascii.eqb Bool.eqb].
  unfold QuestionGenerator._generate_text_question, QuestionGenerator._generate_audio_question,
    QuestionGenerator._generate_image_question, QuestionGenerator._make_api_request.
  rewrite !(EvaluateFacts.make_api_request_never_usable _ _ _ _ _ _ _ Hdown).
  cbn [QuestionGenerator.text_question_of QuestionGenerator.audio_question_of
       QuestionGenerator.image_question_of].
  rewrite GeneratorFacts.fallback_question_entry.
  cbn [World.bind].
  change (Spec.fallback_entry skill level !! "question")
    with (Some (Json.JStr (fst (Spec.fallback_texts skill level)))).
  change (Spec.fallback_entry skill level !! "expected_answer")
    with (Some (Json.JStr (snd (Spec.fallback_texts skill level)))).
  cbn [World.subscript World.bind Json.str World.printed].
  rewrite !StringFacts.append_assoc.
  repeat split.
Qed.

Lemma generate_question_without_api_witness :
  QuestionGenerator.generate_question Scenario.sys Scenario.server_down Scenario.self
    "Teamwork" "Expert" "Image" []
  = (World.Ok {[ "question_type" := Json.JStr "Image";
                 "question_content" :=
                   Json.JStr ("Look at the image and answer: "
                                ++ fst (Spec.fallback_texts "Teamwork" "Expert"));
                 "expected_answer" := Json.JStr (snd (Spec.fallback_texts "Teamwork" "Expert"));
                 "image_description" :=
                   Json.JStr ("A professional workplace scene showing people demonstrating "
                                ++ "Teamwork" ++ " in different ways.");
                 "media_path" := Json.JNull ]},
     ([] ++ Notions.requests_to_all Scenario.self (7 # 10)
              (QuestionGenerator.image_prompt "Teamwork" "Expert"))%list).
Proof.
  exact (proj1 (proj2 (proj2 (generate_question_without_api Scenario.sys Scenario.server_down
                                Scenario.self "Teamwork" "Expert" [] (fun _ _ => eq_refl))))).
Defined.

(** The endpoint whose answers name U+2019 by its escape yields JSON: the
    question comes from its answer, after one completion request. *)
Example apostrophe_is_usable :
  ~ Notions.never_usable Scenario.sys Scenario.server_apostrophe.
Proof.
  intros H. specialize (H [] (Spec.post Scenario.self (3 # 10) "" "")).
  vm_compute in H. discriminate H.
Qed.

(** ** Full marks: the grader and the session score *)

Module ScoreFacts.

Import Evaluator.

Lemma count_loop_full (student_text : string) (l : list string) :
  foldr (fun keyword matching_keywords =>
           if Py.str_in keyword student_text
           then (matching_keywords + 1)%Z else matching_keywords) 0%Z l
  = Z.of_nat (length l) ->
  Forall (fun k => Py.str_in k student_text = true) l.
Proof.
  induction l as [| k l IH]; cbn [foldr length]; intros Hfull; [constructor |].
  pose proof (GraderFacts.count_loop_bounds student_text l) as Hb.
  destruct (Py.str_in k student_text) eqn:Hk; [| lia].
  constructor; [exact Hk | apply IH; lia].
Qed.

Lemma matching_full (student_answer expected_answer : string) :
  matching_keywords student_answer expected_answer
  = Z.of_nat (size (expected_keywords expected_answer))
  <-> (forall k, k ∈ expected_keywords expected_answer ->
                 Py.str_in k (Py.lower student_answer) = true).
Proof.
  split; [| apply GraderMore.matching_all].
  unfold matching_keywords, count_matching, set_fold. cbn [compose].
  intros Hfull k Hk. apply count_loop_full in Hfull.
  rewrite Forall_forall in Hfull. apply Hfull, elem_of_elements, Hk.
Qed.

Lemma count_correct_full (evaluations : list (bool * string)) (start : Z) :
  fold_left (fun (total : Z) (eval_result : bool * string) =>
               if fst eval_result then (total + 1)%Z else total) evaluations start
  = (start + Z.of_nat (length evaluations))%Z ->
  Forall (fun eval_result => fst eval_result = true) evaluations.
Proof.
  revert start. induction evaluations as [| [b e] rest IH]; intros start;
    cbn [fold_left length]; intros Hfull; [constructor |].
  cbn [fst] in Hfull. destruct b.
  - constructor; [reflexivity |]. apply (IH (start + 1)%Z). lia.
  - pose proof (AppFacts.count_correct_bounds rest start) as Hb. lia.
Qed.

End ScoreFacts.

(** X23: the keyword grader reports 100% only for a full match. With at
    most 2^53 keywords, the percentage it prints is 100 exactly when the
    expected answer has a keyword and every keyword occurs in the
    lower-cased student text: a ratio below one is never rounded up to 100
    by the floating-point division and product. *)
Theorem fallback_evaluation_full_marks_iff (student expected : string) :
  (Z.of_nat (size (Evaluator.expected_keywords expected)) <= 2 ^ 53)%Z ->
  (Evaluator.percent student expected = 100%Z
   <-> Evaluator.expected_keywords expected <> ∅
       /\ (forall k : string,
             k ∈ Evaluator.expected_keywords expected ->
             Py.str_in k (Py.lower student) = true))
  /\ snd (Evaluator._fallback_evaluation student expected)
     = (if fst (Evaluator._fallback_evaluation student expected)
        then "The answer covers approximately "
               ++ Py.str_of_int (Evaluator.percent student expected)
               ++ "% of the key concepts expected."
        else "The answer is missing several important concepts (only covers about "
               ++ Py.str_of_int (Evaluator.percent student expected)
               ++ "% of expected key points).").
Proof.
  intros Hsize. split; [| reflexivity].
  rewrite <- ScoreFacts.matching_full.
  pose proof (GraderFacts.matching_keywords_bounds student expected) as Hb.
  unfold Evaluator.percent, Evaluator.match_percentage.
  case_bool_decide as Hne.
  - pose proof (GraderFacts.size_pos_of_nonempty _ Hne) as Hpos. split.
    + intros H100. split; [exact Hne |].
      destruct (Z.eq_dec (Evaluator.matching_keywords student expected)
                  (Z.of_nat (size (Evaluator.expected_keywords expected))))
        as [Heq | Hlt]; [exact Heq |].
      assert (Hrange : (0 <= Evaluator.matching_keywords student expected
                        < Z.of_nat (size (Evaluator.expected_keywords expected)))%Z).
      { lia. }
      pose proof (B64Strict.percent_below_100 _ _ Hrange Hsize) as Hbelow.
      rewrite H100 in Hbelow. lia.
    + intros [_ ->]. apply B64More.percent_of_one, B64More.div_int_self, Hpos.
  - split; [intros H; vm_compute in H; discriminate H | intros [H _]; contradiction].
Qed.

Lemma fallback_evaluation_full_marks_iff_witness :
  Evaluator.percent "empathy comes with listening" "Listening, empathy" = 100%Z.
Proof.
  apply (proj1 (fallback_evaluation_full_marks_iff "empathy comes with listening"
                  "Listening, empathy" ltac:(vm_compute; discriminate))).
  split.
  - intros H. apply (f_equal size) in H. vm_compute in H. discriminate H.
  - intros k Hk.
    replace (Evaluator.expected_keywords "Listening, empathy")
      with ({[ "listening"; "empathy" ]} : gset string) in Hk by (vm_compute; reflexivity).
    apply elem_of_union in Hk as [Hk | Hk]; apply elem_of_singleton in Hk; subst k;
      vm_compute; reflexivity.
Defined.

(** X24: a session scores 100 only when every evaluation is correct. For
    a registered session with at least one and at most 2^53 evaluations,
    end_session returns 100 exactly when each of them is correct: no
    proportion below one is rounded up to 100. *)
Theorem end_session_full_marks_iff (now : Z) (session_id : string) (st : App.state)
    (found : App.session) :
  App.active_sessions st !! session_id = Some found ->
  App.evaluations found <> [] ->
  (Z.of_nat (length (App.evaluations found)) <= 2 ^ 53)%Z ->
  fst (App.end_session now session_id st) = 100%Z
  <-> Forall (fun eval_result => fst eval_result = true) (App.evaluations found).
Proof.
  intros Hfound Hne Hsize.
  destruct (AppFacts.end_session_found now session_id st found Hfound)
    as (ended & -> & _ & _ & Hscore).
  cbn [fst]. rewrite Hscore.
  destruct (AppFacts.length_pos_of_nonempty _ Hne) as [-> Hpos].
  pose proof (AppFacts.count_correct_bounds (App.evaluations found) 0) as Hb.
  split.
  - intros H100. apply (ScoreFacts.count_correct_full _ 0).
    match goal with
    | |- ?count = _ =>
        destruct (Z.eq_dec count (Z.of_nat (length (App.evaluations found))))
          as [Heq | Hlt]; [lia |];
        pose proof (B64Strict.percent_below_100 count
                      (Z.of_nat (length (App.evaluations found))) ltac:(lia) Hsize)
          as Hbelow
    end.
    rewrite H100 in Hbelow. lia.
  - intros Hall. rewrite (AppFacts.count_correct_all _ 0 Hall), Z.add_0_l.
    apply B64More.percent_of_one, B64More.div_int_self, Hpos.
Qed.

Lemma end_session_full_marks_iff_witness :
  fst (App.end_session 9 "session-1" Notions.state_of_two) = 100%Z
  <-> Forall (fun eval_result => fst eval_result = true)
        (App.evaluations Scenario.session_of_three).
Proof.
  apply (end_session_full_marks_iff 9 "session-1" Notions.state_of_two
           Scenario.session_of_three eq_refl).
  - discriminate.
  - vm_compute. discriminate.
Defined.

